(** * PaddleX static inference: backend selection, TensorRT shape-range
      collection and the inference facade

    A shallow embedding of [paddlex/inference/models/common/static_infer.py].
    Python exceptions are the [Raise] results of a small error-and-state
    monad; the native Paddle Inference library, the file system and the
    logger are an explicit [world] that the embedded functions thread through
    their calls, with every native call recorded in a chronological trace.
    The [benchmark.timeit] instrumentation of the pipeline classes is left
    out: it times the calls and does not change what they compute. *)

From stdpp Require Import base option list strings gmap.

(** ** Native element types and their numpy counterparts *)

(** [lazy_paddle.inference.DataType], the enumeration of the native library. *)
Inductive DataType :=
  | FLOAT64 | FLOAT32 | FLOAT16 | BFLOAT16
  | INT64 | INT32 | UINT8 | INT8 | BOOL.

(** The numpy scalar types the code names, and any other numpy dtype an
    array handed to the facade may carry. *)
Inductive np_dtype :=
  | np_float64 | np_float32 | np_int64 | np_int32 | np_uint8 | np_int8
  | np_other (name : string).





(** ** Exceptions *)

Inductive value_error :=
  | InvalidInputName (name : string) (param : string)
      (* Invalid input name {name!r} found in `{param}` *)
  | InputNameNotFound (name : string) (param : string)
      (* Input name {name!r} not found in `{param}` *)
  | InputCountMismatch (declared given : nat)
      (* The number of inputs does not match the model: {declared} vs {given} *)
  | NotInList (i : nat)            (* list.index: {i} is not in list *)
  | CannotReshape (size : nat) (shape : list nat)   (* ndarray.reshape *)
  | EmptyName (path : list string).                 (* {path!r} has an empty name *)

Inductive type_error :=
  | UnsupportedDataType (d : DataType)   (* Unsupported data type: {pd_dtype} *)
  | NoneNotIterable.                     (* 'NoneType' object is not iterable *)

Inductive runtime_error :=
  | NoValidPaddleModel                   (* No valid Paddle model found *)
  | NoDynamicShapeInformation.           (* No dynamic shape information provided *)

Inductive exn :=
  | ValueError (e : value_error)
  | TypeError (e : type_error)
  | RuntimeError (e : runtime_error)
  | AssertionError
  | KeyError (key : string)
  | IndexError
  | OSError (path : list string)
  | OverflowError.

Inductive result (A : Type) :=
  | Ok (a : A)
  | Raise (e : exn).
Arguments Ok {A} a.
Arguments Raise {A} e.

Definition result_bind {A B} (r : result A) (k : A → result B) : result B :=
  match r with
  | Ok a => k a
  | Raise e => Raise e
  end.

(** A list comprehension whose element expression may raise: elements are
    evaluated left to right and the first exception ends the evaluation. *)
Fixpoint comprehension {A B} (f : A → result B) (l : list A) : result (list B) :=
  match l with
  | [] => Ok []
  | x :: l' =>
      result_bind (f x) (λ y,
      result_bind (comprehension f l') (λ ys, Ok (y :: ys)))
  end.

(** ** [_pd_dtype_to_np_dtype] *)

Definition _pd_dtype_to_np_dtype (pd_dtype : DataType) : result np_dtype :=
  match pd_dtype with
  | FLOAT64 => Ok np_float64
  | FLOAT32 => Ok np_float32
  | INT64 => Ok np_int64
  | INT32 => Ok np_int32
  | UINT8 => Ok np_uint8
  | INT8 => Ok np_int8
  | _ => Raise (TypeError (UnsupportedDataType pd_dtype))
  end.

(** ** [_sort_inputs] *)

(** [sorted(range(len(names)), key=names.__getitem__)]: the keys are computed
    once, the sort is stable and compares keys with [<] only. *)
Fixpoint insert_keyed {X} (x : X * string) (l : list (X * string)) : list (X * string) :=
  match l with
  | [] => [x]
  | y :: l' => if String.ltb y.2 x.2 then y :: insert_keyed x l' else x :: l
  end.

Definition sorted_keyed {X} (l : list (X * string)) : list (X * string) :=
  foldr insert_keyed [] l.

Definition sorted_range (names : list string) : list nat :=
  (sorted_keyed (zip (seq 0 (length names)) names)).*1.

(** The order in which a caller who sorts by input name lists the tensors
    [xs], where [xs] are the tensors of [names], position by position. *)
Definition sorted_by_name {A} (xs : list A) (names : list string) : list A :=
  (sorted_keyed (zip xs names)).*1.

(** [l.index(i)] *)
Definition list_index (i : nat) (l : list nat) : result nat :=
  match list_find (λ j, j = i) l with
  | Some (k, _) => Ok k
  | None => Raise (ValueError (NotInList i))
  end.

(** [l[k]] for a non-negative [k] *)
Definition getitem {A} (l : list A) (k : nat) : result A :=
  match l !! k with
  | Some x => Ok x
  | None => Raise IndexError
  end.

Definition _sort_inputs {A} (inputs : list A) (names : list string) : result (list A) :=
  let indices := sorted_range names in
  comprehension
    (λ i, result_bind (list_index i indices) (getitem inputs))
    (seq 0 (length inputs)).

(** ** Strings, dictionaries and paths *)

(** [sub in s] for strings *)
Fixpoint str_contains (sub s : string) : bool :=
  String.prefix sub s ||
  match s with
  | EmptyString => false
  | String _ s' => str_contains sub s'
  end.

(** A [dict] keeps its insertion order, which [items()] and iteration follow. *)
Definition dict (V : Type) : Type := list (string * V).

Definition dict_get {V} (k : string) (d : dict V) : option V :=
  match list_find (λ kv : string * V, kv.1 = k) d with
  | Some (_, kv) => Some kv.2
  | None => None
  end.

Definition dict_keys {V} (d : dict V) : list string := d.*1.

(** [d[k] = v]: an existing key keeps its position. *)
Fixpoint dict_set {V} (k : string) (v : V) (d : dict V) : dict V :=
  match d with
  | [] => [(k, v)]
  | (k', v') :: d' => if decide (k' = k) then (k, v) :: d' else (k', v') :: dict_set k v d'
  end.

(** A [pathlib.Path], as the list of its components; the root of an
    absolute path is left out. *)
Definition Path : Type := list string.

Definition parent (p : Path) : Path := removelast p.

(** Position of the last dot of a file name. *)
Fixpoint rfind_dot (l : list Ascii.ascii) : option nat :=
  match l with
  | [] => None
  | c :: l' =>
      match rfind_dot l' with
      | Some i => Some (S i)
      | None => if Ascii.eqb c (Ascii.ascii_of_nat 46) then Some 0 else None
      end
  end.

(** [PurePath.with_suffix]: the suffix of the final component starts at its
    last dot, unless that dot opens or ends the name. *)
Definition name_with_suffix (name suffix : string) : string :=
  let l := String.list_ascii_of_string name in
  let stem :=
    match rfind_dot l with
    | Some i => if bool_decide (0 < i ∧ i < length l - 1) then take i l else l
    | None => l
    end in
  String.string_of_list_ascii stem +:+ suffix.

(** A path without a final component, [Path(".")] or a bare root, has an
    empty name, and [with_suffix] raises [ValueError] on it. *)
Definition with_suffix (p : Path) (suffix : string) : result Path :=
  match reverse p with
  | [] => Raise (ValueError (EmptyName p))
  | name :: rest => Ok (reverse rest ++ [name_with_suffix name suffix])
  end.

(** [s.split("/")] *)
Fixpoint split_slash (s : string) : list string :=
  match s with
  | EmptyString => [EmptyString]
  | String c s' =>
      if Ascii.eqb c (Ascii.ascii_of_nat 47) then EmptyString :: split_slash s'
      else match split_slash s' with
           | x :: xs => String c x :: xs
           | [] => [String c EmptyString]
           end
  end.

(** The components [pathlib] keeps of a path given as a string: the string
    is cut at its slashes, and empty components and [.] are dropped. *)
Definition path_components (s : string) : list string :=
  filter (λ x, x ≠ "" ∧ x ≠ ".") (split_slash s).

(** [p / s] for a string [s]: the components of [s] are appended to [p],
    unless [s] starts with a slash: an absolute [s] replaces [p]. *)
Definition path_div (p : Path) (s : string) : Path :=
  if String.prefix "/" s then path_components s else p ++ path_components s.

Inductive fnode := File | Dir.

(** [Path.mkdir(parents=True, exist_ok=True)] creates every missing ancestor. *)
Fixpoint mkdir_parents (prefixes : list Path) (fs : gmap Path fnode) : option (gmap Path fnode) :=
  match prefixes with
  | [] => Some fs
  | p :: ps =>
      match fs !! p with
      | Some File => None
      | Some Dir => mkdir_parents ps fs
      | None => mkdir_parents ps (<[p := Dir]> fs)
      end
  end.

Definition nonempty_prefixes (p : Path) : list Path :=
  (λ n, take n p) <$> seq 1 (length p).

(** ** Constants of the module *)

Definition CACHE_DIR : string := ".cache".

Definition INFERENCE_OPERATIONS : list string :=
  ["PaddleCopyToDevice"; "PaddleCopyToHost"; "PaddleModelInfer"].

(** ** Configuration objects of the native library *)

Inductive Precision := Int8 | Float32 | Half.      (* inference.Config.Precision *)
Inductive PrecisionMode := PM_INT8 | PM_FP32 | PM_FP16.  (* tensorrt.export.PrecisionMode *)

Definition shape : Type := list nat.
Definition shape_triple : Type := shape * shape * shape.

(** The methods called on an [inference.Config], in call order. *)
Inductive config_call :=
  | enable_use_gpu (memory_pool_mb : nat) (gpu_id : option nat)
  | collect_shape_range_info (path : Path)
  | disable_glog_info
  | exp_disable_mixed_precision_ops (ops : list string)
  | enable_new_ir (flag : bool)
  | enable_new_executor
  | set_optimization_level (level : nat)
  | enable_custom_device (device : string)
  | delete_pass (name : string)
  | disable_gpu
  | enable_mkldnn
  | enable_mkldnn_bfloat16
  | set_mkldnn_cache_capacity (capacity : Z)
  | disable_mkldnn
  | set_cpu_math_library_num_threads (threads : Z)
  | enable_memory_optim
  | set_optim_cache_dir (dir : Path)
  | enable_tensorrt_engine (workspace_size max_batch_size min_subgraph_size : Z)
      (precision_mode : Precision) (use_static use_calib_mode : bool)
  | enable_tuned_tensorrt_dynamic_shape (path : Path) (allow_rebuild_at_runtime : bool)
  | set_trt_dynamic_shape_info (min_shapes max_shapes opt_shapes : dict shape).

Record Config := {
  cfg_model_file : Path;
  cfg_params_file : Path;
  cfg_calls : list config_call;
}.

Definition new_Config (model_file params_file : Path) : Config :=
  {| cfg_model_file := model_file; cfg_params_file := params_file; cfg_calls := [] |}.

Definition call (c : config_call) (config : Config) : Config :=
  {| cfg_model_file := cfg_model_file config;
     cfg_params_file := cfg_params_file config;
     cfg_calls := cfg_calls config ++ [c] |}.

Definition collect_path_of (c : config_call) : option Path :=
  match c with
  | collect_shape_range_info p => Some p
  | _ => None
  end.

(** The path a predictor records its shape ranges to, when asked to. *)
Definition cfg_collect_path (config : Config) : option Path :=
  last (omap collect_path_of (cfg_calls config)).

(** Values assigned to attributes of a [TensorRTConfig]. *)
Inductive setting :=
  | SPrecisionMode (m : PrecisionMode)
  | SPath (p : Path)
  | SValue (repr : string).

Record TensorRTConfig := {
  trt_inputs : list shape_triple;       (* one [Input] per declared input *)
  trt_attrs : dict setting;             (* attributes assigned so far *)
}.

Definition setattr (name : string) (v : setting) (c : TensorRTConfig) : TensorRTConfig :=
  {| trt_inputs := trt_inputs c; trt_attrs := dict_set name v (trt_attrs c) |}.

Inductive log_level := DEBUG_level | INFO | WARNING.

Inductive log_msg :=
  | MsgLatexOcrMkldnnOnly
  | MsgRunModeUpdated
  | MsgDeviceIdSet
  | MsgMkldnnUnavailable
  | MsgShapeRangeWillBeCollected (path : Path)
  | MsgShapeRangeRemoved (path : Path)
  | MsgShapeRangeExists (path : Path)
  | MsgTensorRTConfigLacks (attr_name : string).

(** [PaddlePredictorOption], with the fields this module reads or writes. *)
Record PaddlePredictorOption {scalar : Type} := {
  model_name : string;
  device_type : string;
  device_id : option nat;
  run_mode : string;
  cpu_threads : Z;
  opt_enable_new_ir : bool;
  opt_delete_pass : list string;
  trt_max_workspace_size : Z;
  trt_max_batch_size : Z;
  trt_min_subgraph_size : Z;
  trt_use_static : bool;
  trt_use_calib_mode : bool;
  trt_use_dynamic_shapes : bool;
  trt_collect_shape_range_info : bool;
  trt_shape_range_info_path : option Path;
  trt_discard_cached_shape_range_info : bool;
  trt_allow_rebuild_at_runtime : bool;
  trt_dynamic_shapes : option (dict shape_triple);
  trt_dynamic_shape_input_data : option (dict (list scalar * list scalar * list scalar));
}.
Arguments PaddlePredictorOption scalar : clear implicits.

Definition set_run_mode {scalar} (m : string) (o : PaddlePredictorOption scalar) :=
  {| model_name := model_name o; device_type := device_type o; device_id := device_id o;
     run_mode := m; cpu_threads := cpu_threads o;
     opt_enable_new_ir := opt_enable_new_ir o; opt_delete_pass := opt_delete_pass o;
     trt_max_workspace_size := trt_max_workspace_size o;
     trt_max_batch_size := trt_max_batch_size o;
     trt_min_subgraph_size := trt_min_subgraph_size o;
     trt_use_static := trt_use_static o; trt_use_calib_mode := trt_use_calib_mode o;
     trt_use_dynamic_shapes := trt_use_dynamic_shapes o;
     trt_collect_shape_range_info := trt_collect_shape_range_info o;
     trt_shape_range_info_path := trt_shape_range_info_path o;
     trt_discard_cached_shape_range_info := trt_discard_cached_shape_range_info o;
     trt_allow_rebuild_at_runtime := trt_allow_rebuild_at_runtime o;
     trt_dynamic_shapes := trt_dynamic_shapes o;
     trt_dynamic_shape_input_data := trt_dynamic_shape_input_data o |}.

(* option.device_id = i *)
Definition set_device_id {scalar} (i : option nat) (o : PaddlePredictorOption scalar) :=
  {| model_name := model_name o; device_type := device_type o; device_id := i;
     run_mode := run_mode o; cpu_threads := cpu_threads o;
     opt_enable_new_ir := opt_enable_new_ir o; opt_delete_pass := opt_delete_pass o;
     trt_max_workspace_size := trt_max_workspace_size o;
     trt_max_batch_size := trt_max_batch_size o;
     trt_min_subgraph_size := trt_min_subgraph_size o;
     trt_use_static := trt_use_static o; trt_use_calib_mode := trt_use_calib_mode o;
     trt_use_dynamic_shapes := trt_use_dynamic_shapes o;
     trt_collect_shape_range_info := trt_collect_shape_range_info o;
     trt_shape_range_info_path := trt_shape_range_info_path o;
     trt_discard_cached_shape_range_info := trt_discard_cached_shape_range_info o;
     trt_allow_rebuild_at_runtime := trt_allow_rebuild_at_runtime o;
     trt_dynamic_shapes := trt_dynamic_shapes o;
     trt_dynamic_shape_input_data := trt_dynamic_shape_input_data o |}.

(** ** The world the module runs in *)

Section StaticInfer.

(** The numbers sample data holds and arrays store. *)
Context {scalar : Type}.
(** The element [np.ones] fills an array of a given dtype with. *)
Variable one : np_dtype → scalar.
(** The conversion [np.array(data, dtype=dtype)] applies to each element:
    numpy raises, [OverflowError] for one, on a number the element type
    cannot hold. *)
Variable cast : np_dtype → scalar → result scalar.

Record ndarray := {
  arr_shape : shape;
  arr_dtype : np_dtype;
  arr_data : list scalar;
  arr_c_contiguous : bool;
}.

Definition size_of (s : shape) : nat := foldr Nat.mul 1 s.

Definition np_ones (s : shape) (dtype : np_dtype) : ndarray :=
  {| arr_shape := s; arr_dtype := dtype;
     arr_data := replicate (size_of s) (one dtype); arr_c_contiguous := true |}.

(** [np.array(data, dtype=dtype).reshape(s)], for a flat list [data]: the
    elements are converted first, in order, and the array is reshaped
    then. *)
Definition np_array_reshape (data : list scalar) (dtype : np_dtype) (s : shape) : result ndarray :=
  result_bind (comprehension (cast dtype) data) (λ converted,
  if decide (length converted = size_of s)
  then Ok {| arr_shape := s; arr_dtype := dtype;
             arr_data := converted; arr_c_contiguous := true |}
  else Raise (ValueError (CannotReshape (length converted) s))).

(** [np.ascontiguousarray(a)]: the result has at least one dimension. *)
Definition np_ascontiguousarray (a : ndarray) : ndarray :=
  {| arr_shape := match arr_shape a with [] => [1] | s => s end;
     arr_dtype := arr_dtype a;
     arr_data := arr_data a; arr_c_contiguous := true |}.

(** A [paddle.Tensor]: an array placed on a device. *)
Record Tensor := { t_numpy : ndarray; t_place : string }.

Definition to_tensor (a : ndarray) (place : string) : Tensor :=
  {| t_numpy := a; t_place := place |}.

(** What the native library knows of a model once its files are loaded.
    The computation of the engine is opaque: [run_tensors] is what
    [predictor.run(x)] returns, [run_handles] what an output handle holds
    after [predictor.run()] on the inputs bound to the input handles. *)
Record model_info := {
  input_names : list string;
  input_type : string → DataType;
  output_names : list string;
  run_tensors : list Tensor → list Tensor;
  run_handles : dict ndarray → string → ndarray;
}.

(** Everything the module imports from outside this file: the flags, the
    per-model TensorRT settings, the capabilities of the linked native
    runtime, the host, the artifact locator and the device-string helper. *)
Record runtime := {
  DEBUG : bool;
  USE_PIR_TRT : bool;
  TRT_CFG : dict (dict setting);
  TensorRTConfig_attrs : list string;    (* hasattr(trt_config, name) *)
  Config_attrs : list string;            (* hasattr(config, name) *)
  is_compiled_with_rocm : bool;
  vendor_id_raw : string;                (* cpuinfo, "" when absent *)
  enable_mkldnn_fails : bool;
  enable_mkldnn_bfloat16_fails : bool;
  get_model_paths : Path → string → dict (Path * Path);
  load_model : Path → Path → model_info;
  constr_device : string → option (list nat) → string;
  (** The files [tensorrt.export.convert] leaves on disk for a model path
      and a configuration, which names [save_model_dir]. *)
  converted_files : Path → TensorRTConfig → list Path;
  (** Whether an object is finalized as soon as its last reference goes
      away (CPython), rather than at some later collection. *)
  reference_counting : bool;
}.

Variable rt : runtime.

Record Predictor := { pid : nat; p_config : Config }.

Record Handle := { h_predictor : Predictor; h_name : string }.

Inductive event :=
  | EvCreatePredictor (id : nat) (config : Config)
  | EvDestroyPredictor (id : nat)
  | EvReshape (id : nat) (name : string) (s : shape)
  | EvCopyFromCpu (id : nat) (name : string) (a : ndarray)
  | EvRun (id : nat)
  | EvCopyToCpu (id : nat) (name : string)
  | EvRunTensors (id : nat) (x : list Tensor)
  | EvConvert (model_path : Path) (trt_config : TensorRTConfig)
  | EvMkdir (p : Path)
  | EvUnlink (p : Path)
  | EvLog (level : log_level) (msg : log_msg).

Record world := {
  fs : gmap Path fnode;
  trace : list event;
  option_obj : PaddlePredictorOption scalar;   (* the object [self._option] names *)
}.

Definition model_of (p : Predictor) : model_info :=
  load_model rt (cfg_model_file (p_config p)) (cfg_params_file (p_config p)).

Definition get_input_names (p : Predictor) : list string := input_names (model_of p).
Definition get_output_names (p : Predictor) : list string := output_names (model_of p).
Definition get_input_handle (p : Predictor) (name : string) : Handle :=
  {| h_predictor := p; h_name := name |}.
Definition get_output_handle (p : Predictor) (name : string) : Handle :=
  {| h_predictor := p; h_name := name |}.
Definition handle_type (h : Handle) : DataType :=
  input_type (model_of (h_predictor h)) (h_name h).

(** ** The monad of the embedded code: exceptions over a threaded world *)

Definition M (A : Type) : Type := world → result A * world.

#[global] Instance M_ret : MRet M := λ A a w, (Ok a, w).
#[global] Instance M_bind : MBind M := λ A B k m w,
  match m w with
  | (Ok a, w') => k a w'
  | (Raise e, w') => (Raise e, w')
  end.

Definition raise {A} (e : exn) : M A := λ w, (Raise e, w).

Definition lift {A} (r : result A) : M A := λ w, (r, w).

(** [assert b], as the interpreter runs it by default (not under [-O],
    which drops assertions). *)
Definition assert (b : bool) : M () := if b then mret () else raise AssertionError.

(** [for x in l: body] *)
Fixpoint for_ {A} (l : list A) (body : A → M ()) : M () :=
  match l with
  | [] => mret ()
  | x :: l' => body x;; for_ l' body
  end.

(** A loop that updates local variables [s]. *)
Fixpoint for_acc {A S} (l : list A) (body : A → S → M S) (s : S) : M S :=
  match l with
  | [] => mret s
  | x :: l' => s' ← body x s; for_acc l' body s'
  end.

(** [for x in d], where [d] may be [None] *)
Definition iterable {V} (d : option (dict V)) : M (dict V) :=
  match d with
  | Some d => mret d
  | None => raise (TypeError NoneNotIterable)
  end.

(** [d[k]] *)
Definition dict_getitem {V} (k : string) (d : dict V) : M V :=
  match dict_get k d with
  | Some v => mret v
  | None => raise (KeyError k)
  end.

Definition emit (e : event) : M () := λ w,
  (Ok (), {| fs := fs w; trace := trace w ++ [e]; option_obj := option_obj w |}).

Definition logging (level : log_level) (msg : log_msg) : M () := emit (EvLog level msg).

Definition get_option : M (PaddlePredictorOption scalar) := λ w, (Ok (option_obj w), w).

Definition put_option (o : PaddlePredictorOption scalar) : M () := λ w,
  (Ok (), {| fs := fs w; trace := trace w; option_obj := o |}).

Definition is_create (e : event) : bool :=
  match e with EvCreatePredictor _ _ => true | _ => false end.

(** [lazy_paddle.inference.create_predictor(config)]; predictors are
    numbered in creation order. *)
Definition create_predictor (config : Config) : M Predictor := λ w,
  let p := {| pid := length (filter is_create (trace w)); p_config := config |} in
  (Ok p, {| fs := fs w; trace := trace w ++ [EvCreatePredictor (pid p) config];
            option_obj := option_obj w |}).

(** The destructor of a native predictor: one that collects shape ranges
    writes them to its file only now. *)
Definition destroy_predictor (p : Predictor) : M () := λ w,
  (Ok (), {| fs := match cfg_collect_path (p_config p) with
                   | Some path => <[path := File]> (fs w)
                   | None => fs w
                   end;
             trace := trace w ++ [EvDestroyPredictor (pid p)];
             option_obj := option_obj w |}).

(** A local variable goes out of scope on return: its predictor is
    destroyed at once under reference counting, and at an unspecified later
    time otherwise. Nothing is said of an exit by exception, where the
    traceback keeps the frame and its locals alive. *)
Definition release_local (p : Predictor) : M () :=
  if reference_counting rt then destroy_predictor p else mret ().

Definition handle_reshape (h : Handle) (s : shape) : M () :=
  emit (EvReshape (pid (h_predictor h)) (h_name h) s).

Definition handle_copy_from_cpu (h : Handle) (a : ndarray) : M () :=
  emit (EvCopyFromCpu (pid (h_predictor h)) (h_name h) a).

Definition predictor_run (p : Predictor) : M () := emit (EvRun (pid p)).

(** The arrays bound to the input handles of predictor [id] when it last
    ran: [(current bindings, bindings at the last run)]. *)
Definition track_inputs (id : nat) (st : dict ndarray * dict ndarray) (e : event)
  : dict ndarray * dict ndarray :=
  match e with
  | EvCopyFromCpu id' name a => if decide (id' = id) then (dict_set name a st.1, st.2) else st
  | EvRun id' => if decide (id' = id) then (st.1, st.1) else st
  | _ => st
  end.

Definition inputs_at_last_run (id : nat) (tr : list event) : dict ndarray :=
  (foldl (track_inputs id) ([], []) tr).2.

Definition handle_copy_to_cpu (h : Handle) : M ndarray := λ w,
  let id := pid (h_predictor h) in
  (Ok (run_handles (model_of (h_predictor h)) (inputs_at_last_run id (trace w)) (h_name h)),
   {| fs := fs w; trace := trace w ++ [EvCopyToCpu id (h_name h)];
      option_obj := option_obj w |}).

(** [predictor.run(x)] of the tensor interface *)
Definition predictor_run_tensors (p : Predictor) (x : list Tensor) : M (list Tensor) :=
  emit (EvRunTensors (pid p) x);; mret (run_tensors (model_of p) x).

Definition path_exists (p : Path) : M bool := λ w,
  (Ok (bool_decide (is_Some (fs w !! p))), w).

Definition path_mkdir_parents (p : Path) : M () := λ w,
  match mkdir_parents (nonempty_prefixes p) (fs w) with
  | Some fs' => (Ok (), {| fs := fs'; trace := trace w ++ [EvMkdir p];
                           option_obj := option_obj w |})
  | None => (Raise (OSError p), w)
  end.

Definition path_unlink (p : Path) : M () := λ w,
  match fs w !! p with
  | Some File => (Ok (), {| fs := delete p (fs w); trace := trace w ++ [EvUnlink p];
                            option_obj := option_obj w |})
  | _ => (Raise (OSError p), w)
  end.

(** ** [_collect_trt_shape_range_info] (old TensorRT route)

    [_create] passes the device id of the option object as [gpu_id], which
    it has set by then; the binding of [enable_use_gpu] takes no other
    value than an integer. *)

Definition sample_triple : Type := list scalar * list scalar * list scalar.

(** The loop that fills [min_arrs], [opt_arrs] and [max_arrs]. *)
Definition candidate_arrays (predictor : Predictor) (dynamic_shapes : dict shape_triple)
    (dynamic_shape_input_data : dict sample_triple)
  : M (dict ndarray * dict ndarray * dict ndarray) :=
  for_acc dynamic_shapes
    (λ '(name, candidate_shapes) '(min_arrs, opt_arrs, max_arrs),
       let handle := get_input_handle predictor name in
       dtype ← lift (_pd_dtype_to_np_dtype (handle_type handle));
       let '(min_shape, opt_shape, max_shape) := candidate_shapes in
       match dict_get name dynamic_shape_input_data with
       | Some (data0, data1, data2) =>
           min_arr ← lift (np_array_reshape data0 dtype min_shape);
           opt_arr ← lift (np_array_reshape data1 dtype opt_shape);
           max_arr ← lift (np_array_reshape data2 dtype max_shape);
           mret (dict_set name min_arr min_arrs,
                 dict_set name opt_arr opt_arrs,
                 dict_set name max_arr max_arrs)
       | None =>
           mret (dict_set name (np_ones min_shape dtype) min_arrs,
                 dict_set name (np_ones opt_shape dtype) opt_arrs,
                 dict_set name (np_ones max_shape dtype) max_arrs)
       end)
    ([], [], []).

(** The inner loop of the feeding pass: one reshape and one copy per input. *)
Definition feed (predictor : Predictor) (arrs : dict ndarray) : M () :=
  for_ arrs (λ '(name, arr),
    let handle := get_input_handle predictor name in
    handle_reshape handle (arr_shape arr);;
    handle_copy_from_cpu handle arr).

Definition _collect_trt_shape_range_info
    (model_file model_params : Path) (gpu_id : option nat)
    (shape_range_info_path : Path)
    (dynamic_shapes : option (dict shape_triple))
    (dynamic_shape_input_data : option (dict sample_triple)) : M () :=
  let dynamic_shape_input_data := default [] dynamic_shape_input_data in
  let config := new_Config model_file model_params in
  let config := call (enable_use_gpu 100 gpu_id) config in
  let config := call (collect_shape_range_info shape_range_info_path) config in
  let config := call disable_glog_info config in
  predictor ← create_predictor config;
  let input_names := get_input_names predictor in
  dynamic_shapes ← iterable dynamic_shapes;
  for_ (dict_keys dynamic_shapes) (λ name,
    if decide (name ∈ input_names) then mret ()
    else raise (ValueError (InvalidInputName name "dynamic_shapes")));;
  for_ input_names (λ name,
    if decide (name ∈ dict_keys dynamic_shapes) then mret ()
    else raise (ValueError (InputNameNotFound name "dynamic_shapes")));;
  for_ (dict_keys dynamic_shape_input_data) (λ name,
    if decide (name ∈ input_names) then mret ()
    else raise (ValueError (InvalidInputName name "dynamic_shape_input_data")));;
  '(min_arrs, opt_arrs, max_arrs) ←
    candidate_arrays predictor dynamic_shapes dynamic_shape_input_data;
  (* `opt_arrs` is used twice to ensure it is the most frequently used. *)
  for_ [min_arrs; opt_arrs; opt_arrs; max_arrs] (λ arrs,
    feed predictor arrs;;
    predictor_run predictor);;
  (* Nothing flushes the shape range info here: it reaches the file when
     [predictor] is destroyed. *)
  release_local predictor.

(** ** [_convert_trt] (PIR TensorRT route) *)

Definition hasattr_trt_config (trt_config : TensorRTConfig) (attr_name : string) : bool :=
  bool_decide (attr_name ∈ TensorRTConfig_attrs rt ++ dict_keys (trt_attrs trt_config)).

Definition _set_trt_config (model_name : string) (trt_config : TensorRTConfig) : M TensorRTConfig :=
  match dict_get model_name (TRT_CFG rt) with
  | Some settings =>
      for_acc settings (λ '(attr_name, value) trt_config,
        (if hasattr_trt_config trt_config attr_name then mret ()
         else logging WARNING (MsgTensorRTConfigLacks attr_name));;
        mret (setattr attr_name value trt_config)) trt_config
  | None => mret trt_config
  end.

Definition _get_input_names (model_file params_file : Path) : M (list string) :=
  let config := new_Config model_file params_file in
  let config := call disable_glog_info config in
  predictor ← create_predictor config;
  let names := get_input_names predictor in
  release_local predictor;;
  mret names.

(** [convert(model_path, trt_config)]: the native compiler runs and saves
    the converted model. *)
Definition convert (model_path : Path) (trt_config : TensorRTConfig) : M () := λ w,
  (Ok (), {| fs := foldr (λ p files, <[p := File]> files) (fs w)
                     (converted_files rt model_path trt_config);
             trace := trace w ++ [EvConvert model_path trt_config];
             option_obj := option_obj w |}).

Definition _convert_trt (model_name mode : string)
    (pp_model_file pp_params_file trt_save_path : Path)
    (trt_dynamic_shapes : option (dict shape_triple)) : M () :=
  input_names ← _get_input_names pp_model_file pp_params_file;
  trt_dynamic_shapes ← iterable trt_dynamic_shapes;
  for_ (dict_keys trt_dynamic_shapes) (λ name,
    if decide (name ∈ input_names) then mret ()
    else raise (ValueError (InvalidInputName name "trt_dynamic_shapes")));;
  for_ input_names (λ name,
    if decide (name ∈ dict_keys trt_dynamic_shapes) then mret ()
    else raise (ValueError (InputNameNotFound name "trt_dynamic_shapes")));;
  let precision_map : dict PrecisionMode :=
    [("trt_int8", PM_INT8); ("trt_fp32", PM_FP32); ("trt_fp16", PM_FP16)] in
  trt_inputs ← for_acc input_names (λ name trt_inputs,
    trt_input ← dict_getitem name trt_dynamic_shapes;
    mret (trt_inputs ++ [trt_input])) [];
  let trt_config := {| trt_inputs := trt_inputs; trt_attrs := [] |} in
  trt_config ← _set_trt_config model_name trt_config;
  precision_mode ← dict_getitem mode precision_map;
  let trt_config := setattr "precision_mode" (SPrecisionMode precision_mode) trt_config in
  let trt_config := setattr "save_model_dir" (SPath trt_save_path) trt_config in
  pp_model_path ← lift (with_suffix pp_model_file "");
  convert pp_model_path trt_config.

(** ** [StaticInfer._configure_trt] *)

Definition hasattr_config (name : string) : bool :=
  bool_decide (name ∈ Config_attrs rt).

Definition StaticInfer__configure_trt (self_model_file_prefix : string)
    (model_file params_file cache_dir : Path) : M Config :=
  o ← get_option;
  if USE_PIR_TRT rt then
    let trt_save_path := path_div (cache_dir ++ ["trt"]) self_model_file_prefix in
    _convert_trt (model_name o) (run_mode o) model_file params_file trt_save_path
      (trt_dynamic_shapes o);;
    model_file ← lift (with_suffix trt_save_path ".json");
    params_file ← lift (with_suffix trt_save_path ".pdiparams");
    mret (new_Config model_file params_file)
  else
    let PRECISION_MAP : dict Precision :=
      [("trt_int8", Int8); ("trt_fp32", Float32); ("trt_fp16", Half)] in
    let config := new_Config model_file params_file in
    let config := call (set_optim_cache_dir (cache_dir ++ ["optim_cache"])) config in
    precision_mode ← dict_getitem (run_mode o) PRECISION_MAP;
    let config :=
      call (enable_tensorrt_engine (trt_max_workspace_size o) (trt_max_batch_size o)
              (trt_min_subgraph_size o) precision_mode (trt_use_static o)
              (trt_use_calib_mode o)) config in
    if trt_use_dynamic_shapes o then
      if trt_collect_shape_range_info o then
        (* NOTE: We always use a shape range info file. *)
        let trt_shape_range_info_path :=
          match trt_shape_range_info_path o with
          | Some p => p
          | None => cache_dir ++ ["shape_range_info.pbtxt"]
          end in
        found ← path_exists trt_shape_range_info_path;
        should_collect_shape_range_info ←
          (if negb found then
             path_mkdir_parents (parent trt_shape_range_info_path);;
             logging INFO (MsgShapeRangeWillBeCollected trt_shape_range_info_path);;
             mret true
           else if trt_discard_cached_shape_range_info o then
             path_unlink trt_shape_range_info_path;;
             logging INFO (MsgShapeRangeRemoved trt_shape_range_info_path);;
             mret true
           else
             logging INFO (MsgShapeRangeExists trt_shape_range_info_path);;
             mret false);
        (if should_collect_shape_range_info : bool then
           _collect_trt_shape_range_info model_file params_file (device_id o)
             trt_shape_range_info_path (trt_dynamic_shapes o)
             (trt_dynamic_shape_input_data o)
         else mret ());;
        mret (call (enable_tuned_tensorrt_dynamic_shape trt_shape_range_info_path
                      (trt_allow_rebuild_at_runtime o)) config)
      else
        match trt_dynamic_shapes o with
        | Some dynamic_shapes =>
            '(_, _, _, config) ← for_acc dynamic_shapes
              (λ '(key, shapes) '(min_shapes, opt_shapes, max_shapes, config),
                 let min_shapes := dict_set key shapes.1.1 min_shapes in
                 let opt_shapes := dict_set key shapes.1.2 opt_shapes in
                 let max_shapes := dict_set key shapes.2 max_shapes in
                 mret (min_shapes, opt_shapes, max_shapes,
                       call (set_trt_dynamic_shape_info min_shapes max_shapes opt_shapes)
                         config))
              ([], [], [], config);
            mret config
        | None => raise (RuntimeError NoDynamicShapeInformation)
        end
    else mret config.

(** ** [StaticInfer._create] *)

(** [if hasattr(config, name): config.method(...)] *)
Definition call_if_present (name : string) (c : config_call) (config : Config) : Config :=
  if hasattr_config name then call c config else config.

(** The block of [_create] that normalises [run_mode] and [device_id] on
    the option object. *)
Definition normalize_option : M () :=
  o ← get_option;
  (if decide (model_name o = "LaTeX_OCR_rec") then
     (if str_contains "GenuineIntel" (vendor_id_raw rt)
         && negb (bool_decide (run_mode o = "mkldnn"))
      then logging WARNING MsgLatexOcrMkldnnOnly
      else mret ());;
     put_option (set_run_mode "mkldnn" o);;
     logging DEBUG_level MsgRunModeUpdated
   else mret ());;
  o ← get_option;
  if bool_decide (device_type o ∈ ["gpu"; "dcu"]) && bool_decide (device_id o = None)
  then
    put_option (set_device_id (Some 0) o);;
    logging DEBUG_level MsgDeviceIdSet
  else mret ().

(** The block of [_create] that configures the device: the chain of
    [if]/[elif] on [device_type]. *)
Definition configure_device (o : PaddlePredictorOption scalar) (config : Config) : M Config :=
  if decide (device_type o = "gpu") then
    let config := call (exp_disable_mixed_precision_ops ["feed"; "fetch"]) config in
    let config := call (enable_use_gpu 100 (device_id o)) config in
    if negb (String.prefix "trt" (run_mode o)) then
      let config :=
        call_if_present "enable_new_ir" (enable_new_ir (opt_enable_new_ir o)) config in
      let config := call_if_present "enable_new_executor" enable_new_executor config in
      mret (call (set_optimization_level 3) config)
    else mret config
  else if decide (device_type o = "npu") then
    let config := call (enable_custom_device "npu") config in
    mret (call_if_present "enable_new_executor" enable_new_executor config)
  else if decide (device_type o = "xpu") then
    mret (call_if_present "enable_new_executor" enable_new_executor config)
  else if decide (device_type o = "mlu") then
    let config := call (enable_custom_device "mlu") config in
    mret (call_if_present "enable_new_executor" enable_new_executor config)
  else if decide (device_type o = "dcu") then
    let config := call (enable_use_gpu 100 (device_id o)) config in
    let config := call_if_present "enable_new_executor" enable_new_executor config in
    (* XXX: is_compiled_with_rocm() must be True on dcu platform ? *)
    if is_compiled_with_rocm rt then
      (* Delete unsupported passes in dcu *)
      let config := call (delete_pass "conv2d_add_act_fuse_pass") config in
      mret (call (delete_pass "conv2d_add_fuse_pass") config)
    else mret config
  else
    assert (bool_decide (device_type o = "cpu"));;
    let config := call disable_gpu config in
    config ←
      (if str_contains "mkldnn" (run_mode o) then
         config ←
           (if enable_mkldnn_fails rt then
              logging WARNING MsgMkldnnUnavailable;; mret config
            else
              let config := call enable_mkldnn config in
              if str_contains "bf16" (run_mode o) then
                if enable_mkldnn_bfloat16_fails rt then
                  logging WARNING MsgMkldnnUnavailable;; mret config
                else mret (call enable_mkldnn_bfloat16 config)
              else mret config);
         mret (call (set_mkldnn_cache_capacity (-1)) config)
       else mret (call_if_present "disable_mkldnn" disable_mkldnn config));
    let config := call (set_cpu_math_library_num_threads (cpu_threads o)) config in
    let config :=
      call_if_present "enable_new_ir" (enable_new_ir (opt_enable_new_ir o)) config in
    let config := call_if_present "enable_new_executor" enable_new_executor config in
    mret (call (set_optimization_level 3) config).

Definition StaticInfer__create (self_model_dir : Path) (self_model_file_prefix : string)
  : M Predictor :=
  let model_paths := get_model_paths rt self_model_dir self_model_file_prefix in
  match dict_get "paddle" model_paths with
  | None => raise (RuntimeError NoValidPaddleModel)
  | Some (model_file, params_file) =>
      normalize_option;;
      o ← get_option;
      (* for TRT *)
      config ←
        (if String.prefix "trt" (run_mode o) then
           assert (bool_decide (device_type o = "gpu"));;
           let cache_dir := self_model_dir ++ [CACHE_DIR; "paddle"] in
           StaticInfer__configure_trt self_model_file_prefix model_file params_file cache_dir
         else mret (new_Config model_file params_file));
      config ← configure_device o config;
      let config := call enable_memory_optim config in
      let config := foldl (λ config del_p, call (delete_pass del_p) config) config
                      (opt_delete_pass o) in
      (* Disable paddle inference logging *)
      let config := if negb (DEBUG rt) then call disable_glog_info config else config in
      create_predictor config
  end.

(** ** The execution pipelines *)

Record PaddleCopyToDevice := { ctd_device_type : string; ctd_device_id : option nat }.

Definition PaddleCopyToDevice__call__ (self : PaddleCopyToDevice) (arrs : list ndarray)
  : M (list Tensor) :=
  let device_id :=
    match ctd_device_id self with
    | Some i => Some [i]
    | None => None
    end in
  let device := constr_device rt (ctd_device_type self) device_id in
  mret ((λ i, to_tensor i device) <$> arrs).

Definition PaddleCopyToHost__call__ (paddle_tensors : list Tensor) : M (list ndarray) :=
  mret (t_numpy <$> paddle_tensors).

Record PaddleModelInfer := { mi_predictor : Predictor }.

Definition PaddleModelInfer__call__ (self : PaddleModelInfer) (x : list Tensor)
  : M (list Tensor) :=
  predictor_run_tensors (mi_predictor self) x.

Record PaddleInferChainLegacy := {
  legacy_predictor : Predictor;
  input_handles : list Handle;
  output_handles : list Handle;
}.

Definition PaddleInferChainLegacy__init__ (predictor : Predictor) : PaddleInferChainLegacy :=
  {| legacy_predictor := predictor;
     input_handles := get_input_handle predictor <$> get_input_names predictor;
     output_handles := get_output_handle predictor <$> get_output_names predictor |}.

Definition PaddleInferChainLegacy__call__ (self : PaddleInferChainLegacy) (x : list ndarray)
  : M (list ndarray) :=
  for_ (zip x (input_handles self)) (λ '(input_, input_handle),
    handle_reshape input_handle (arr_shape input_);;
    handle_copy_from_cpu input_handle input_);;
  predictor_run (legacy_predictor self);;
  for_acc (output_handles self) (λ o outputs,
    a ← handle_copy_to_cpu o; mret (outputs ++ [a])) [].

(** [self.infer]: either [_concatenate(copy_to_device, model_infer,
    copy_to_host)], which threads its argument through the three callables
    in turn, or the legacy chain. *)
Inductive pipeline :=
  | Concatenated (copy_to_device : PaddleCopyToDevice) (model_infer : PaddleModelInfer)
  | Legacy (chain : PaddleInferChainLegacy).

Definition _concatenate {X Y Z W} (c1 : X → M Y) (c2 : Y → M Z) (c3 : Z → M W) : X → M W :=
  λ x, x ← c1 x; x ← c2 x; c3 x.

Definition pipeline__call__ (infer : pipeline) (x : list ndarray) : M (list ndarray) :=
  match infer with
  | Concatenated copy_to_device model_infer =>
      _concatenate (PaddleCopyToDevice__call__ copy_to_device)
        (PaddleModelInfer__call__ model_infer) PaddleCopyToHost__call__ x
  | Legacy chain => PaddleInferChainLegacy__call__ chain x
  end.

(** ** [StaticInfer] *)

Record StaticInfer := {
  model_dir : Path;
  model_file_prefix : string;
  predictor : Predictor;
  infer : pipeline;
}.

Definition _use_legacy_api (o : PaddlePredictorOption scalar) : bool :=
  negb (bool_decide (device_type o ∈ ["cpu"; "gpu"; "dcu"])).

Definition StaticInfer__init__ (model_dir : Path) (model_prefix : string)
    (option : PaddlePredictorOption scalar) : M StaticInfer :=
  put_option option;;                    (* self._option = option *)
  predictor ← StaticInfer__create model_dir model_prefix;
  o ← get_option;
  let infer :=
    if negb (_use_legacy_api o) then
      let device_type := device_type o in
      let device_type := if decide (device_type = "dcu") then "gpu" else device_type in
      let copy_to_device :=
        {| ctd_device_type := device_type; ctd_device_id := device_id o |} in
      let model_infer := {| mi_predictor := predictor |} in
      Concatenated copy_to_device model_infer
    else Legacy (PaddleInferChainLegacy__init__ predictor) in
  mret {| model_dir := model_dir; model_file_prefix := model_prefix;
          predictor := predictor; infer := infer |}.

Definition StaticInfer__call__ (self : StaticInfer) (x : list ndarray) : M (list ndarray) :=
  let names := get_input_names (predictor self) in
  if negb (bool_decide (length names = length x)) then
    raise (ValueError (InputCountMismatch (length names) (length x)))
  else
    x ← lift (_sort_inputs x names);
    let x := np_ascontiguousarray <$> x in
    pipeline__call__ (infer self) x.

End StaticInfer.

Arguments ndarray scalar : clear implicits.
Arguments Tensor scalar : clear implicits.
Arguments model_info scalar : clear implicits.
Arguments runtime scalar : clear implicits.
Arguments event scalar : clear implicits.
Arguments world scalar : clear implicits.
Arguments M scalar A : clear implicits.
Arguments sample_triple scalar : clear implicits.

(** * Post-processing of detection results

    A shallow embedding of [DetPostProcess.apply] of
    [paddlex/inference/components/task_related/det.py], which keeps the
    boxes whose score exceeds the threshold and whose class id is not
    negative. *)

Section DetPostProcess.

(** The numbers held in the array of boxes. *)
Context {number : Type}.
(** [x > y], as numpy compares an element of the array with a Python
    number. *)
Variable gt : number → number → bool.
(** The literal [-1]. *)
Variable minus_one : number.

(** A two-dimensional array: its number of columns and its rows, each of
    that length. *)
Record array2d := { d_cols : nat; d_rows : list (list number) }.

Definition well_formed (a : array2d) : Prop :=
  Forall (λ row, length row = d_cols a) (d_rows a).

(** [a[:, j]]: the index is checked against the second dimension, whether
    or not there are rows. *)
Definition column (j : nat) (a : array2d) : result (list number) :=
  if decide (j < d_cols a) then comprehension (λ row, getitem row j) (d_rows a)
  else Raise IndexError.

(** [a[mask, :]] for a boolean [mask]: the rows at which the mask holds,
    in their order, in a new array. *)
Fixpoint compress {A} (mask : list bool) (rows : list A) : list A :=
  match mask, rows with
  | b :: mask', row :: rows' => if b then row :: compress mask' rows' else compress mask' rows'
  | _, _ => []
  end.

Definition mask_rows (mask : list bool) (a : array2d) : result array2d :=
  if decide (length mask = length (d_rows a))
  then Ok {| d_cols := d_cols a; d_rows := compress mask (d_rows a) |}
  else Raise IndexError.

(** The attributes [__init__] stores; its defaults are a threshold of
    [0.5] and no labels. *)
Record DetPostProcess {L : Type} := { threshold : number; labels : L }.
Arguments DetPostProcess L : clear implicits.

(** The dictionary [apply] returns, with its two keys. *)
Record det_result {L : Type} := { res_boxes : array2d; res_labels : L }.
Arguments det_result L : clear implicits.

Definition DetPostProcess_apply {L} (self : DetPostProcess L) (boxes : array2d)
  : result (det_result L) :=
  result_bind (column 1 boxes) (λ scores,
  result_bind (column 0 boxes) (λ classes,
  let expect_boxes :=
    zip_with andb ((λ s, gt s (threshold self)) <$> scores)
                  ((λ c, gt c minus_one) <$> classes) in
  result_bind (mask_rows expect_boxes boxes) (λ boxes,
  Ok {| res_boxes := boxes; res_labels := labels self |}))).

(** Whether a row is kept: its score, in column 1, exceeds the threshold
    and its class id, in column 0, exceeds [-1]. *)
Definition kept {L} (self : DetPostProcess L) (row : list number) : bool :=
  match row with
  | class_id :: score :: _ => gt score (threshold self) && gt class_id minus_one
  | _ => false
  end.

End DetPostProcess.

Arguments array2d number : clear implicits.
Arguments DetPostProcess number L : clear implicits.
Arguments det_result number L : clear implicits.

(** * Observations on traces, and the vocabulary of the proofs *)

(** The arrays predictor [id] was fed, by name and shape, grouped by the
    run that consumed them: [(completed runs, feeds no run has followed)]. *)
Definition observe_feed {scalar} (id : nat) (st : list (dict shape) * dict shape)
    (ev : event scalar) : list (dict shape) * dict shape :=
  match ev with
  | EvCopyFromCpu id' name a =>
      if decide (id' = id) then (st.1, st.2 ++ [(name, arr_shape a)]) else st
  | EvRun id' => if decide (id' = id) then (st.1 ++ [st.2], []) else st
  | _ => st
  end.

Definition feeds_by_run {scalar} (id : nat) (evs : list (event scalar))
  : list (dict shape) * dict shape :=
  foldl (observe_feed id) ([], []) evs.

Definition is_run {scalar} (ev : event scalar) : bool :=
  match ev with
  | EvRun _ | EvRunTensors _ _ => true
  | _ => false
  end.

Definition min_shapes (ds : dict shape_triple) : dict shape := (λ kv, (kv.1, kv.2.1.1)) <$> ds.
Definition opt_shapes (ds : dict shape_triple) : dict shape := (λ kv, (kv.1, kv.2.1.2)) <$> ds.
Definition max_shapes (ds : dict shape_triple) : dict shape := (λ kv, (kv.1, kv.2.2)) <$> ds.

(** The world after further events. *)
Definition add_events {scalar} (evs : list (event scalar)) (w : world scalar) : world scalar :=
  {| fs := fs w; trace := trace w ++ evs; option_obj := option_obj w |}.

(** The events of one feeding pass. *)
Definition feed_events {scalar} (id : nat) (arrs : dict (ndarray scalar)) : list (event scalar) :=
  arrs ≫= λ kv, [EvReshape id kv.1 (arr_shape kv.2); EvCopyFromCpu id kv.1 kv.2].

Definition shapes_of {scalar} (arrs : dict (ndarray scalar)) : dict shape :=
  (λ kv, (kv.1, arr_shape kv.2)) <$> arrs.


(** The shape range info file of a configuration: the user's path, or the
    default one under the cache directory. *)
Definition shape_range_info_path_of {scalar} (cache_dir : Path)
    (o : PaddlePredictorOption scalar) : Path :=
  match trt_shape_range_info_path o with
  | Some p => p
  | None => cache_dir ++ ["shape_range_info.pbtxt"]
  end.

(** The world once [path.unlink()] has removed a file. *)
Definition unlinked {scalar} (path : Path) (w : world scalar) : world scalar :=
  {| fs := delete path (fs w); trace := trace w ++ [EvUnlink path];
     option_obj := option_obj w |}.


Definition is_log {scalar} (ev : event scalar) : bool :=
  match ev with
  | EvLog _ _ => true
  | _ => false
  end.

(** The log record that follows the assignment [option.device_id = 0]. *)
Definition is_device_id_set {scalar} (ev : event scalar) : bool :=
  match ev with
  | EvLog DEBUG_level MsgDeviceIdSet => true
  | _ => false
  end.

(** The [Config] methods that set up TensorRT. *)
Definition is_trt_call (c : config_call) : bool :=
  match c with
  | collect_shape_range_info _
  | enable_tensorrt_engine _ _ _ _ _ _
  | enable_tuned_tensorrt_dynamic_shape _ _
  | set_trt_dynamic_shape_info _ _ _ => true
  | _ => false
  end.

(** Events of accelerator compilation: a conversion, or a predictor built
    from a configuration that sets up TensorRT. *)
Definition is_trt_event {scalar} (ev : event scalar) : bool :=
  match ev with
  | EvConvert _ _ => true
  | EvCreatePredictor _ config => bool_decide (Exists (λ c, is_trt_call c = true) (cfg_calls config))
  | _ => false
  end.

(** The sample data of an input, when given, has as many elements as each
    of its three declared shapes. *)
Definition samples_fit {scalar} (ds : dict shape_triple)
    (data : dict (sample_triple scalar)) : Prop :=
  ∀ name s d, (name, s) ∈ ds → dict_get name data = Some d →
    length d.1.1 = size_of s.1.1 ∧ length d.1.2 = size_of s.1.2 ∧ length d.2 = size_of s.2.

(** The sample data of an input, when given, converts to the numpy type of
    the input: [np.array] accepts every number of it. *)
Definition samples_convert {scalar} (cast : np_dtype → scalar → result scalar)
    (types : string → DataType) (data : dict (sample_triple scalar)) : Prop :=
  ∀ name d t x, dict_get name data = Some d →
    _pd_dtype_to_np_dtype (types name) = Ok t →
    x ∈ d.1.1 ++ d.1.2 ++ d.2 → ∃ y, cast t x = Ok y.

(** What a calibration run leaves behind: the option object is untouched;
    a run that returns has executed four inference runs, and its profile
    is on disk at that time only where the interpreter destroys the local
    predictor on return; a run that raises has executed none. *)
Definition calibration_outcome {scalar} (rt : runtime scalar) (path : Path)
    (w : world scalar) (out : result () * world scalar) : Prop :=
  ∃ evs,
    option_obj out.2 = option_obj w ∧ trace out.2 = trace w ++ evs ∧
    ((out.1 = Ok () ∧
      fs out.2 = (if reference_counting rt then <[path := File]> (fs w) else fs w) ∧
      length (filter (λ ev, is_run ev) evs) = 4) ∨
     ((∃ e, out.1 = Raise e) ∧ fs out.2 = fs w ∧ filter (λ ev, is_run ev) evs = [])).

(** Computations that leave the option object alone and extend the trace
    with events that all satisfy [Q]. *)
Definition appends {scalar} (Q : event scalar → Prop) {A} (m : M scalar A) : Prop :=
  ∀ w, ∃ evs, trace (m w).2 = trace w ++ evs ∧
              option_obj (m w).2 = option_obj w ∧ Forall Q evs.

Definition quiet_event {scalar} (ev : event scalar) : Prop := is_device_id_set ev = false.

(** Computations that always return. *)
Definition returns {scalar A} (m : M scalar A) : Prop := ∀ w, ∃ a, (m w).1 = Ok a.

(** Whether [_create] assigns [device_id]. *)
Definition defaults_device_id {scalar} (o : PaddlePredictorOption scalar) : bool :=
  bool_decide (device_type o ∈ ["gpu"; "dcu"]) && bool_decide (device_id o = None).

(** Configurations free of TensorRT set-up. *)
Definition clean (config : Config) : Prop :=
  Forall (λ c, is_trt_call c = false) (cfg_calls config).

(** The last touches [_create] gives a configuration. *)
Definition finish_config {scalar} (rt : runtime scalar) (o : PaddlePredictorOption scalar)
    (config : Config) : Config :=
  let config := call enable_memory_optim config in
  let config := foldl (λ config del_p, call (delete_pass del_p) config) config
                  (opt_delete_pass o) in
  if negb (DEBUG rt) then call disable_glog_info config else config.

(** A dynamic-shape configuration whose keys differ from the declared
    input names is rejected with one of the two name errors. *)
Definition name_mismatch (keys names : list string) (param : string) (e : exn) : Prop :=
  (∃ name, name ∈ keys ∧ (name ∉ names) ∧ e = ValueError (InvalidInputName name param)) ∨
  (∃ name, name ∈ names ∧ (name ∉ keys) ∧ e = ValueError (InputNameNotFound name param)).

(** Events that feed a predictor, run it, or compile an engine. *)
Definition feeds_or_compiles {scalar} (ev : event scalar) : bool :=
  match ev with
  | EvReshape _ _ _ | EvCopyFromCpu _ _ _ | EvRun _ | EvRunTensors _ _ | EvConvert _ _ => true
  | _ => false
  end.

(** The world in which [_create] runs: [self._option] is the caller's
    option object. *)
Definition bound {scalar} (o : PaddlePredictorOption scalar) (w : world scalar)
  : world scalar :=
  {| fs := fs w; trace := trace w; option_obj := o |}.

(** ** A concrete setting

    A runtime with one model whose inputs are [names], all of element type
    [FLOAT32]; integers stand for the numbers held in arrays. *)
Module Ex.

Definition one (_ : np_dtype) : Z := 1%Z.

(** The conversion of an integer to an element type: out of the range of
    an integer type it is an [OverflowError]. *)
Definition cast (t : np_dtype) (z : Z) : result Z :=
  let within (lo hi : Z) := if bool_decide (lo ≤ z < hi)%Z then Ok z else Raise OverflowError in
  match t with
  | np_uint8 => within 0%Z 256%Z
  | np_int8 => within (-128)%Z 128%Z
  | np_int32 => within (-2147483648)%Z 2147483648%Z
  | np_int64 => within (-9223372036854775808)%Z 9223372036854775808%Z
  | _ => Ok z
  end.

(** The two files a converted model is saved to, next to
    [save_model_dir]. *)
Definition saved_model (c : TensorRTConfig) : list Path :=
  match dict_get "save_model_dir" (trt_attrs c) with
  | Some (SPath p) =>
      match reverse p with
      | name :: rest =>
          [reverse rest ++ [name +:+ ".json"]; reverse rest ++ [name +:+ ".pdiparams"]]
      | [] => []
      end
  | _ => []
  end.

Definition model (names : list string) : model_info Z :=
  {| input_names := names;
     input_type := λ _, FLOAT32;
     output_names := ["out"];
     run_tensors := λ x, x;
     run_handles := λ bound _, default (np_ones one [] np_float32) (snd <$> head bound) |}.

Definition rt (names : list string) (refcount : bool) : runtime Z :=
  {| DEBUG := false;
     USE_PIR_TRT := false;
     TRT_CFG := [];
     TensorRTConfig_attrs := [];
     Config_attrs := ["enable_new_ir"; "enable_new_executor"; "disable_mkldnn"];
     is_compiled_with_rocm := false;
     vendor_id_raw := "GenuineIntel";
     enable_mkldnn_fails := false;
     enable_mkldnn_bfloat16_fails := false;
     get_model_paths := λ dir prefix,
       [("paddle", (dir ++ [prefix +:+ ".json"], dir ++ [prefix +:+ ".pdiparams"]))];
     load_model := λ _ _, model names;
     constr_device := λ device_type _, device_type;
     converted_files := λ _ c, saved_model c;
     reference_counting := refcount |}.

Definition shapes_x : dict shape_triple := [("x", ([1; 3], [2; 3], [4; 3]))].

Definition opt (name device mode : string) (id : option nat) (discard : bool)
  : PaddlePredictorOption Z :=
  {| model_name := name;
     device_type := device;
     device_id := id;
     run_mode := mode;
     cpu_threads := 8%Z;
     opt_enable_new_ir := true;
     opt_delete_pass := [];
     trt_max_workspace_size := 1073741824%Z;
     trt_max_batch_size := 32%Z;
     trt_min_subgraph_size := 3%Z;
     trt_use_static := false;
     trt_use_calib_mode := false;
     trt_use_dynamic_shapes := true;
     trt_collect_shape_range_info := true;
     trt_shape_range_info_path := None;
     trt_discard_cached_shape_range_info := discard;
     trt_allow_rebuild_at_runtime := false;
     trt_dynamic_shapes := Some shapes_x;
     trt_dynamic_shape_input_data := None |}.

Definition models : Path := ["models"; "resnet"].
Definition cache_dir : Path := models ++ [CACHE_DIR; "paddle"].
Definition profile : Path := cache_dir ++ ["shape_range_info.pbtxt"].

Definition world0 (files : gmap Path fnode) (o : PaddlePredictorOption Z) : world Z :=
  {| fs := files; trace := []; option_obj := o |}.

Definition array (n : Z) : ndarray Z :=
  {| arr_shape := [1]; arr_dtype := np_float32; arr_data := [n]; arr_c_contiguous := false |}.

(** A facade over a model that declares its inputs in the order [b, a]. *)
Definition facade_ba : StaticInfer :=
  {| model_dir := models;
     model_file_prefix := "inference";
     predictor := {| pid := 0; p_config := new_Config (models ++ ["inference.json"])
                                             (models ++ ["inference.pdiparams"]) |};
     infer := Concatenated {| ctd_device_type := "cpu"; ctd_device_id := None |}
                {| mi_predictor :=
                     {| pid := 0; p_config := new_Config (models ++ ["inference.json"])
                                                (models ++ ["inference.pdiparams"]) |} |} |}.

End Ex.

(** The configuration of the predictor a calibration run creates. *)
Definition calibration_config (model_file model_params : Path) (gpu_id : option nat)
    (shape_range_info_path : Path) : Config :=
  call disable_glog_info
    (call (collect_shape_range_info shape_range_info_path)
       (call (enable_use_gpu 100 gpu_id) (new_Config model_file model_params))).

(** The table [PRECISION_MAP] of [_configure_trt] and the table
    [precision_map] of [_convert_trt]. *)
Definition PRECISION_MAP : dict Precision :=
  [("trt_int8", Int8); ("trt_fp32", Float32); ("trt_fp16", Half)].

Definition precision_map : dict PrecisionMode :=
  [("trt_int8", PM_INT8); ("trt_fp32", PM_FP32); ("trt_fp16", PM_FP16)].

(** A configuration after further method calls. *)
Definition with_calls (config : Config) (calls : list config_call) : Config :=
  {| cfg_model_file := cfg_model_file config;
     cfg_params_file := cfg_params_file config;
     cfg_calls := cfg_calls config ++ calls |}.

(** A plain file name: not empty, not [.], and without a slash. *)
Definition plain_name (s : string) : bool :=
  negb (str_contains "/" s) && negb (bool_decide (s = "")) && negb (bool_decide (s = ".")).

(** The file system once [convert] has saved a converted model. *)
Definition with_files (paths : list Path) (files : gmap Path fnode) : gmap Path fnode :=
  foldr (λ p files, <[p := File]> files) files paths.

(** The device types [_create] has a branch for. *)
Definition device_types : list string := ["gpu"; "npu"; "xpu"; "mlu"; "dcu"; "cpu"].

(** The option object as the first block of [_create] leaves it. *)
Definition normalized {scalar} (o : PaddlePredictorOption scalar)
  : PaddlePredictorOption scalar :=
  let o := if decide (model_name o = "LaTeX_OCR_rec") then set_run_mode "mkldnn" o else o in
  if defaults_device_id o then set_device_id (Some 0) o else o.

(** The native calls of one inference. *)
Definition is_inference_event {scalar} (ev : event scalar) : bool :=
  match ev with
  | EvReshape _ _ _ | EvCopyFromCpu _ _ _ | EvRun _ | EvCopyToCpu _ _ | EvRunTensors _ _ => true
  | _ => false
  end.

(** The events of feeding arrays to handles, pair by pair. *)
Definition handle_feed_events {scalar} (feeds : list (ndarray scalar * Handle))
  : list (event scalar) :=
  feeds ≫= λ ah, [EvReshape (pid (h_predictor ah.2)) (h_name ah.2) (arr_shape ah.1);
                  EvCopyFromCpu (pid (h_predictor ah.2)) (h_name ah.2) ah.1].

(** The events of fetching from handles. *)
Definition handle_fetch_events {scalar} (handles : list Handle) : list (event scalar) :=
  (λ h, EvCopyToCpu (pid (h_predictor h)) (h_name h)) <$> handles.

(** The array calibration builds for one input and one of its candidate
    shapes: the sample given for it, converted to the element type of the
    input and reshaped, or ones; [conv] is what the conversion yields
    where it succeeds. *)
Definition candidate_array {scalar} (one : np_dtype → scalar)
    (conv : np_dtype → scalar → scalar) (dtype : np_dtype) (s : shape)
    (sample : option (list scalar)) : ndarray scalar :=
  match sample with
  | Some d => {| arr_shape := s; arr_dtype := dtype; arr_data := conv dtype <$> d;
                 arr_c_contiguous := true |}
  | None => np_ones one s dtype
  end.

(** The arrays of one feeding pass, input by input in the order of
    [dynamic_shapes]; [shape_of] and [sample_of] pick the pass (min, opt or
    max) out of the triples. *)
Definition pass_arrays {scalar} (one : np_dtype → scalar) (conv : np_dtype → scalar → scalar)
    (dtype_of : string → np_dtype) (data : dict (sample_triple scalar))
    (shape_of : shape_triple → shape) (sample_of : sample_triple scalar → list scalar)
    (ds : dict shape_triple) : dict (ndarray scalar) :=
  (λ kv, (kv.1, candidate_array one conv (dtype_of kv.1) (shape_of kv.2)
                  (sample_of <$> dict_get kv.1 data))) <$> ds.

(** ** Further concrete settings

    A runtime like [Ex.rt], with the element types of the inputs, the PIR
    flag, the failure of MKL-DNN and the TensorRT settings as parameters,
    and a facade on the legacy chain. *)
Module Ex2.

Definition model (names : list string) (types : string → DataType) : model_info Z :=
  {| input_names := names;
     input_type := types;
     output_names := ["out"];
     run_tensors := λ x, x;
     run_handles := λ bound _, default (np_ones Ex.one [] np_float32) (snd <$> head bound) |}.

Definition rt (names : list string) (types : string → DataType) (pir mkldnn_fails : bool)
    (cfg : dict (dict setting)) : runtime Z :=
  {| DEBUG := false;
     USE_PIR_TRT := pir;
     TRT_CFG := cfg;
     TensorRTConfig_attrs := ["precision_mode"; "save_model_dir"; "workspace_size"];
     Config_attrs := ["enable_new_ir"; "enable_new_executor"; "disable_mkldnn"];
     is_compiled_with_rocm := false;
     vendor_id_raw := "GenuineIntel";
     enable_mkldnn_fails := mkldnn_fails;
     enable_mkldnn_bfloat16_fails := false;
     get_model_paths := λ dir prefix,
       [("paddle", (dir ++ [prefix +:+ ".json"], dir ++ [prefix +:+ ".pdiparams"]))];
     load_model := λ _ _, model names types;
     constr_device := λ device_type _, device_type;
     converted_files := λ _ c, Ex.saved_model c;
     reference_counting := true |}.

Definition float32 (_ : string) : DataType := FLOAT32.
Definition uint8 (_ : string) : DataType := UINT8.

Definition settings : dict setting :=
  [("workspace_size", SValue "1 << 30"); ("ops_run_float", SValue "{'pd_op.softmax'}")].

Definition predictor_ba : Predictor :=
  {| pid := 0; p_config := new_Config (Ex.models ++ ["inference.json"])
                             (Ex.models ++ ["inference.pdiparams"]) |}.

(** A facade on npu over a model that declares its inputs in the order
    [b, a]. *)
Definition facade_npu : StaticInfer :=
  {| model_dir := Ex.models;
     model_file_prefix := "inference";
     predictor := predictor_ba;
     infer := Legacy (PaddleInferChainLegacy__init__
                        (rt ["b"; "a"] float32 false false []) predictor_ba) |}.

(** Boxes as rows of class id, score and four coordinates, in thousandths. *)
Definition boxes : array2d Z :=
  {| d_cols := 6;
     d_rows := [[0; 900; 10; 10; 50; 50]; [1; 300; 0; 0; 5; 5]; [-1; 950; 1; 1; 2; 2]]%Z |}.

Definition det : DetPostProcess Z (option (list string)) :=
  {| threshold := 500%Z; labels := Some ["cat"; "dog"] |}.

Definition shapes_ab : dict shape_triple :=
  [("a", ([1; 3], [2; 3], [4; 3])); ("b", ([1], [8], [16]))].

(** An option for the old TensorRT route with the dynamic shapes given
    outright: nothing is collected. *)
Definition opt_explicit (mode : string) (shapes : option (dict shape_triple))
  : PaddlePredictorOption Z :=
  {| model_name := "ResNet50";
     device_type := "gpu";
     device_id := Some 0;
     run_mode := mode;
     cpu_threads := 8%Z;
     opt_enable_new_ir := true;
     opt_delete_pass := [];
     trt_max_workspace_size := 1073741824%Z;
     trt_max_batch_size := 32%Z;
     trt_min_subgraph_size := 3%Z;
     trt_use_static := false;
     trt_use_calib_mode := false;
     trt_use_dynamic_shapes := true;
     trt_collect_shape_range_info := false;
     trt_shape_range_info_path := None;
     trt_discard_cached_shape_range_info := false;
     trt_allow_rebuild_at_runtime := false;
     trt_dynamic_shapes := shapes;
     trt_dynamic_shape_input_data := None |}.

End Ex2.

(** * Properties *)

(** ** [_sort_inputs] *)

Lemma insert_keyed_perm {X} (x : X * string) l : insert_keyed x l ≡ₚ x :: l.
Proof.
  induction l as [|y l IH]; simpl; [done|].
  destruct (String.ltb y.2 x.2); [|done].
  rewrite IH. apply Permutation_swap.
Qed.

Lemma sorted_keyed_perm {X} (l : list (X * string)) : sorted_keyed l ≡ₚ l.
Proof.
  induction l as [|x l IH]; simpl; [done|].
  rewrite insert_keyed_perm. by rewrite IH.
Qed.

Lemma insert_keyed_fmap {X Y} (h : X * string → Y * string) x l :
  (∀ z, (h z).2 = z.2) →
  insert_keyed (h x) (h <$> l) = h <$> insert_keyed x l.
Proof.
  intros Hh. induction l as [|y l IH]; csimpl; [done|].
  rewrite !Hh. destruct (String.ltb y.2 x.2); csimpl; [|done].
  by rewrite IH.
Qed.

Lemma sorted_keyed_fmap {X Y} (h : X * string → Y * string) l :
  (∀ z, (h z).2 = z.2) →
  sorted_keyed (h <$> l) = h <$> sorted_keyed l.
Proof.
  intros Hh. unfold sorted_keyed. induction l as [|x l IH]; csimpl; [done|].
  rewrite IH. by apply insert_keyed_fmap.
Qed.

Lemma sorted_range_perm names : sorted_range names ≡ₚ seq 0 (length names).
Proof.
  unfold sorted_range. rewrite sorted_keyed_perm.
  rewrite fst_zip; [done|]. by rewrite length_seq.
Qed.

Lemma comprehension_Ok {A B} (f : A → result B) (g : A → B) l :
  Forall (λ x, f x = Ok (g x)) l → comprehension f l = Ok (g <$> l).
Proof.
  induction 1 as [|x l Hx _ IH]; simpl; [done|].
  by rewrite Hx; simpl; rewrite IH.
Qed.

Lemma comprehension_lookup {A B} (f : A → result B) l r :
  comprehension f l = Ok r →
  length r = length l ∧ ∀ i x, l !! i = Some x → ∃ y, f x = Ok y ∧ r !! i = Some y.
Proof.
  revert r. induction l as [|x l IH]; intros r; simpl.
  - intros [= <-]. split; [done|]. intros i x. by rewrite lookup_nil.
  - destruct (f x) as [y|e] eqn:Hy; simpl; [|done].
    destruct (comprehension f l) as [ys|e] eqn:Hys; simpl; [|done].
    intros [= <-]. destruct (IH ys eq_refl) as [Hlen Hl]. split; [simpl; by rewrite Hlen|].
    intros [|i] x'; simpl; [intros [= <-]; eauto|]. apply Hl.
Qed.

(** In a permutation of [0, n), every [i < n] has an index. *)
Lemma list_index_perm (σ : list nat) n i :
  σ ≡ₚ seq 0 n → i < n →
  ∃ k, list_index i σ = Ok k ∧ σ !! k = Some i.
Proof.
  intros Hσ Hi. unfold list_index.
  destruct (list_find (λ j, j = i) σ) as [[k j]|] eqn:Hf.
  - apply list_find_Some in Hf as (Hk & -> & _). eauto.
  - apply list_find_None in Hf.
    assert (i ∈ σ) as Hin by (rewrite Hσ, elem_of_seq; lia).
    rewrite Forall_forall in Hf. by destruct (Hf i Hin).
Qed.

Lemma list_index_Ok (σ : list nat) i k :
  list_index i σ = Ok k → σ !! k = Some i.
Proof.
  unfold list_index.
  destruct (list_find _ σ) as [[k' j]|] eqn:Hf; [|done].
  intros [= <-]. by apply list_find_Some in Hf as (Hk & -> & _).
Qed.

Lemma comprehension_total {A B} (f : A → result B) l :
  Forall (λ x, ∃ y, f x = Ok y) l → ∃ r, comprehension f l = Ok r.
Proof.
  induction 1 as [|x l [y Hy] _ [ys IH]]; simpl; [eauto|].
  rewrite Hy; simpl. rewrite IH; simpl. eauto.
Qed.

Lemma sorted_range_length names : length (sorted_range names) = length names.
Proof. by rewrite (Permutation_length (sorted_range_perm names)), length_seq. Qed.

(** What [_sort_inputs] computes when the two lists have one length: the
    result holds at [i] the input found at the position of [i] in the sorted
    index list. *)
Lemma _sort_inputs_spec {A} (inputs : list A) names :
  length inputs = length names →
  ∃ r, _sort_inputs inputs names = Ok r ∧ length r = length inputs ∧
       ∀ i, i < length inputs →
            ∃ k, sorted_range names !! k = Some i ∧ r !! i = inputs !! k.
Proof.
  intros Hlen. unfold _sort_inputs.
  pose proof (sorted_range_perm names) as Hσ.
  pose proof (sorted_range_length names) as Hσlen.
  set (σ := sorted_range names) in *.
  destruct (comprehension_total
    (λ i, result_bind (list_index i σ) (getitem inputs)) (seq 0 (length inputs))) as [r Hr].
  { apply Forall_forall. intros i Hi. apply elem_of_seq in Hi.
    destruct (list_index_perm σ (length names) i) as (k & Hk & Hlk); [done|lia|].
    rewrite Hk; simpl. unfold getitem.
    destruct (lookup_lt_is_Some_2 inputs k) as [x Hx].
    { apply lookup_lt_Some in Hlk. lia. }
    rewrite Hx. eauto. }
  exists r. split; [done|].
  apply comprehension_lookup in Hr as [Hrlen Hr]. rewrite length_seq in Hrlen.
  split; [done|]. intros i Hi.
  destruct (Hr i i) as (y & Hy & Hri); [by apply lookup_seq_lt|].
  destruct (list_index i σ) as [k|] eqn:Hk; simpl in Hy; [|done].
  exists k. split; [by apply list_index_Ok|].
  unfold getitem in Hy. destruct (inputs !! k); [|done]. congruence.
Qed.

(** C10: for lists of equal length [_sort_inputs] returns a permutation of
    its inputs, of the same length: no tensor is dropped or duplicated. *)
Theorem sort_inputs_is_permutation {A} (inputs : list A) (names : list string) :
  length inputs = length names →
  ∃ r, _sort_inputs inputs names = Ok r ∧ r ≡ₚ inputs ∧ length r = length inputs.
Proof.
  intros Hlen. destruct (_sort_inputs_spec inputs names Hlen) as (r & Hr & Hrlen & Hlk).
  exists r. split; [done|]. split; [|done].
  pose proof (sorted_range_perm names) as Hσ.
  pose proof (sorted_range_length names) as Hσlen.
  set (σ := sorted_range names) in *.
  set (pos i := match list_find (λ j, j = i) σ with Some (k, _) => k | None => i end).
  assert (Hpos : ∀ i, i < length inputs →
                      σ !! pos i = Some i ∧ r !! i = inputs !! pos i).
  { intros i Hi. destruct (Hlk i Hi) as (k & Hk & Hri).
    destruct (list_index_perm σ (length names) i) as (k' & Hk' & Hlk'); [done|lia|].
    unfold list_index in Hk'. unfold pos.
    destruct (list_find _ σ) as [[k'' ?]|]; [|done].
    injection Hk' as ->. split; [done|].
    rewrite Hri. f_equal.
    apply NoDup_alt with (l := σ) (x := i); [|done..].
    rewrite Hσ. apply NoDup_seq. }
  apply Permutation_inj. split; [done|].
  exists (λ i, if decide (i < length inputs) then pos i else i). split.
  - intros i j Hij. repeat case_decide.
    + destruct (Hpos i) as [Hi _]; [done|]. destruct (Hpos j) as [Hj _]; [done|].
      rewrite Hij in Hi. congruence.
    + destruct (Hpos i) as [Hi _]; [done|]. apply lookup_lt_Some in Hi. lia.
    + destruct (Hpos j) as [Hj _]; [done|]. apply lookup_lt_Some in Hj. lia.
    + done.
  - intros i. case_decide as Hi; [by apply Hpos|].
    rewrite !lookup_ge_None_2; [done|lia..].
Qed.

Lemma zip3_fst {A B C} (l1 : list A) (l2 : list B) (l3 : list C) :
  length l1 = length l2 →
  (λ z : A * B * C, (z.1.1, z.2)) <$> zip (zip l1 l2) l3 = zip l1 l3.
Proof.
  revert l2 l3. induction l1 as [|x l1 IH]; intros [|y l2] [|z l3]; csimpl; try done.
  intros [= Hlen]. by rewrite IH.
Qed.

Lemma zip3_snd {A B C} (l1 : list A) (l2 : list B) (l3 : list C) :
  length l1 = length l2 →
  (λ z : A * B * C, (z.1.2, z.2)) <$> zip (zip l1 l2) l3 = zip l2 l3.
Proof.
  revert l2 l3. induction l1 as [|x l1 IH]; intros [|y l2] [|z l3]; csimpl; try done.
  intros [= Hlen]. by rewrite IH.
Qed.

(** Tensors listed in sorted-name order come back in declared order. *)
Lemma _sort_inputs_sorted_by_name {A} (xs : list A) names :
  length xs = length names →
  _sort_inputs (sorted_by_name xs names) names = Ok xs.
Proof.
  intros Hlen.
  set (l3 := zip (zip (seq 0 (length names)) xs) names).
  assert (Hσ : sorted_range names = (λ z, z.1.1) <$> sorted_keyed l3).
  { unfold sorted_range.
    rewrite <-(zip3_fst (seq 0 (length names)) xs names) by (by rewrite length_seq).
    rewrite (sorted_keyed_fmap (λ z, (z.1.1, z.2))) by done.
    rewrite <-list_fmap_compose. done. }
  assert (Hc : sorted_by_name xs names = (λ z, z.1.2) <$> sorted_keyed l3).
  { unfold sorted_by_name.
    rewrite <-(zip3_snd (seq 0 (length names)) xs names) by (by rewrite length_seq).
    rewrite (sorted_keyed_fmap (λ z, (z.1.2, z.2))) by done.
    rewrite <-list_fmap_compose. done. }
  assert (Hel : ∀ z, z ∈ sorted_keyed l3 → xs !! z.1.1 = Some z.1.2).
  { intros z. rewrite sorted_keyed_perm. intros Hz.
    apply list_elem_of_lookup in Hz as [i Hz]. unfold l3 in Hz.
    apply lookup_zip_with_Some in Hz as (ab & s & -> & Hab & _).
    apply lookup_zip_with_Some in Hab as (a & b & -> & Ha & Hb).
    apply lookup_seq in Ha as [-> _]. done. }
  assert (Hclen : length (sorted_by_name xs names) = length names).
  { rewrite Hc, length_fmap, (Permutation_length (sorted_keyed_perm l3)). unfold l3.
    rewrite !length_zip_with, length_seq. lia. }
  destruct (_sort_inputs_spec (sorted_by_name xs names) names Hclen)
    as (r & Hr & Hrlen & Hlk).
  rewrite Hr. f_equal. apply list_eq. intros i.
  destruct (decide (i < length names)) as [Hi|Hi].
  - destruct (Hlk i) as (k & Hk & ->); [lia|].
    rewrite Hσ, list_lookup_fmap in Hk. rewrite Hc, list_lookup_fmap.
    destruct (sorted_keyed l3 !! k) as [z|] eqn:Hz; [|done].
    simpl in *. injection Hk as <-. symmetry. apply Hel.
    by eapply list_elem_of_lookup_2.
  - rewrite !lookup_ge_None_2; [done|lia..].
Qed.

Example sorted_by_name_ba : sorted_by_name ["tb"; "ta"] ["b"; "a"] = ["ta"; "tb"].
Proof. reflexivity. Qed.

Lemma comprehension_app {A B} (f : A → result B) l1 l2 :
  comprehension f (l1 ++ l2)
  = result_bind (comprehension f l1) (λ r1,
    result_bind (comprehension f l2) (λ r2, Ok (r1 ++ r2))).
Proof.
  induction l1 as [|x l1 IH]; simpl.
  - by destruct (comprehension f l2).
  - destruct (f x) as [y|e]; simpl; [|done]. rewrite IH.
    destruct (comprehension f l1) as [r1|e]; simpl; [|done].
    by destruct (comprehension f l2).
Qed.

Lemma list_index_absent (σ : list nat) i :
  i ∉ σ → list_index i σ = Raise (ValueError (NotInList i)).
Proof.
  intros Hi. unfold list_index.
  destruct (list_find (λ j, j = i) σ) as [[k j]|] eqn:Hf; [|done].
  apply list_find_Some in Hf as (Hk & -> & _).
  exfalso. apply Hi. by eapply list_elem_of_lookup_2.
Qed.

(** X1: more inputs than declared names: the comprehension reaches the index
    [len(names)], which the sorted index list does not hold, and
    [list.index] raises; the surplus is not dropped in silence. *)
Theorem sort_inputs_rejects_surplus_inputs {A} (inputs : list A) (names : list string) :
  length names < length inputs →
  _sort_inputs inputs names = Raise (ValueError (NotInList (length names))).
Proof.
  intros Hlen. unfold _sort_inputs.
  pose proof (sorted_range_perm names) as Hσ.
  set (σ := sorted_range names) in *.
  set (n := length names) in *.
  replace (length inputs) with (n + S (length inputs - S n)) by lia.
  rewrite seq_app, comprehension_app. simpl.
  destruct (comprehension_total
    (λ i, result_bind (list_index i σ) (getitem inputs)) (seq 0 n)) as [r Hr].
  { apply Forall_forall. intros i Hi. apply elem_of_seq in Hi.
    destruct (list_index_perm σ n i) as (k & Hk & Hlk); [done|lia|].
    rewrite Hk; simpl. unfold getitem.
    destruct (lookup_lt_is_Some_2 inputs k) as [x Hx].
    { apply lookup_lt_Some in Hlk.
      rewrite (Permutation_length Hσ), length_seq in Hlk. lia. }
    rewrite Hx. eauto. }
  rewrite Hr. simpl. rewrite list_index_absent; [done|].
  rewrite Hσ, elem_of_seq. lia.
Qed.




(** ** Stepping through the monad *)

Section MonadSteps.
Context {scalar : Type}.
Variable one : np_dtype → scalar.
Variable cast : np_dtype → scalar → result scalar.
Variable rt : runtime scalar.

Implicit Types (w : world scalar) (ev : event scalar) (evs : list (event scalar)).

(** *** Stepping through the monad *)

Lemma bind_unfold {A B} (m : M scalar A) (k : A → M scalar B) w :
  (m ≫= k) w = match m w with
               | (Ok a, w') => k a w'
               | (Raise e, w') => (Raise e, w')
               end.
Proof. done. Qed.

Lemma bind_Ok {A B} (m : M scalar A) (k : A → M scalar B) w a w' :
  m w = (Ok a, w') → (m ≫= k) w = k a w'.
Proof. intros H. by rewrite bind_unfold, H. Qed.

Lemma bind_Raise {A B} (m : M scalar A) (k : A → M scalar B) w e w' :
  m w = (Raise e, w') → (m ≫= k) w = (Raise e, w').
Proof. intros H. by rewrite bind_unfold, H. Qed.

Lemma bind_inv_Ok {A B} (m : M scalar A) (k : A → M scalar B) w b w' :
  (m ≫= k) w = (Ok b, w') → ∃ a w1, m w = (Ok a, w1) ∧ k a w1 = (Ok b, w').
Proof. rewrite bind_unfold. destruct (m w) as [[a|e] w1]; [eauto|done]. Qed.

(** A name check: the loop passes when every name is allowed and raises at
    the first that is not. *)
Lemma for_check_pass (allowed names : list string) (err : string → exn) w :
  Forall (λ name, name ∈ allowed) names →
  for_ names (λ name, if decide (name ∈ allowed) then mret () else raise (err name)) w
  = (Ok (), w).
Proof.
  induction 1 as [|name names Hn _ IH]; simpl; [done|].
  rewrite bind_unfold. by rewrite decide_True.
Qed.

Lemma for_check_fail (allowed names : list string) (err : string → exn) w :
  ¬ Forall (λ name, name ∈ allowed) names →
  ∃ name, name ∈ names ∧ (name ∉ allowed) ∧
    for_ names (λ name, if decide (name ∈ allowed) then mret () else raise (err name)) w
    = (Raise (err name), w).
Proof.
  induction names as [|name names IH]; intros Hn.
  - destruct Hn. constructor.
  - simpl. rewrite bind_unfold. destruct (decide (name ∈ allowed)) as [Hin|Hin].
    + destruct IH as (n & ? & ? & ?).
      { intros HF. apply Hn. by constructor. }
      exists n. split; [by right|]. done.
    + exists name. split; [by left|]. done.
Qed.

End MonadSteps.

(** ** The name checks of the calibrator and of the compiler *)

Section NameValidation.
Context {scalar : Type}.
Variable one : np_dtype → scalar.
Variable cast : np_dtype → scalar → result scalar.
Variable rt : runtime scalar.

Implicit Types (w : world scalar) (ev : event scalar) (evs : list (event scalar)).

Lemma mismatch_cases (keys names : list string) :
  ¬ (∀ name, name ∈ keys ↔ name ∈ names) →
  ¬ Forall (λ name, name ∈ names) keys ∨
  (Forall (λ name, name ∈ names) keys ∧ ¬ Forall (λ name, name ∈ keys) names).
Proof.
  intros Hne.
  destruct (decide (Forall (λ name, name ∈ names) keys)) as [H1|H1]; [|by left].
  right. split; [done|]. intros H2. apply Hne. intros name.
  rewrite Forall_forall in H1, H2. naive_solver.
Qed.

Lemma collect_name_mismatch model_file model_params gpu_id path ds data w :
  let names := input_names (load_model rt model_file model_params) in
  ¬ (∀ name, name ∈ dict_keys ds ↔ name ∈ names) →
  ∃ e w', _collect_trt_shape_range_info one cast rt model_file model_params gpu_id path
            (Some ds) data w = (Raise e, w') ∧
          name_mismatch (dict_keys ds) names "dynamic_shapes" e ∧
          fs w' = fs w ∧
          ∃ evs, trace w' = trace w ++ evs ∧ Forall (λ ev, feeds_or_compiles ev = false) evs.
Proof.
  intros names Hne. unfold _collect_trt_shape_range_info.
  rewrite bind_unfold. cbn [create_predictor].
  set (p := {| pid := _; p_config := _ |}).
  set (w1 := {| fs := fs w; trace := _; option_obj := _ |}).
  assert (Hnames : get_input_names rt p = names) by done.
  rewrite Hnames. rewrite bind_unfold. cbn [iterable mret M_ret].
  destruct (mismatch_cases _ _ Hne) as [H1|[H1 H2]].
  - destruct (for_check_fail names (dict_keys ds)
      (λ name, ValueError (InvalidInputName name "dynamic_shapes")) w1 H1)
      as (name & Hin & Hnin & Hrun).
    rewrite (bind_Raise _ _ _ _ _ Hrun).
    eexists _, w1. split; [done|]. split; [left; eauto|]. split; [done|].
    exists [EvCreatePredictor (pid p) (p_config p)]. split; [done|]. by repeat constructor.
  - rewrite (bind_Ok _ _ _ _ _ (for_check_pass names (dict_keys ds) _ w1 H1)).
    destruct (for_check_fail (dict_keys ds) names
      (λ name, ValueError (InputNameNotFound name "dynamic_shapes")) w1 H2)
      as (name & Hin & Hnin & Hrun).
    rewrite (bind_Raise _ _ _ _ _ Hrun).
    eexists _, w1. split; [done|]. split; [right; eauto|]. split; [done|].
    exists [EvCreatePredictor (pid p) (p_config p)]. split; [done|]. by repeat constructor.
Qed.

Lemma get_input_names_run model_file params_file w :
  ∃ w' evs, _get_input_names rt model_file params_file w
            = (Ok (input_names (load_model rt model_file params_file)), w') ∧
            fs w' = fs w ∧ option_obj w' = option_obj w ∧
            trace w' = trace w ++ evs ∧
            Forall (λ ev, feeds_or_compiles ev = false) evs.
Proof.
  unfold _get_input_names. rewrite bind_unfold. cbn [create_predictor].
  unfold release_local, destroy_predictor. destruct (reference_counting rt).
  - rewrite bind_unfold. cbn. eexists _, [_; _]. split; [done|].
    split; [done|]. split; [done|]. split; [by rewrite <-app_assoc|]. by repeat constructor.
  - rewrite bind_unfold. cbn. eexists _, [_]. split; [done|].
    split; [done|]. split; [done|]. split; [done|]. by repeat constructor.
Qed.

Lemma convert_name_mismatch model_name mode pp_model_file pp_params_file trt_save_path ds w :
  let names := input_names (load_model rt pp_model_file pp_params_file) in
  ¬ (∀ name, name ∈ dict_keys ds ↔ name ∈ names) →
  ∃ e w', _convert_trt rt model_name mode pp_model_file pp_params_file trt_save_path
            (Some ds) w = (Raise e, w') ∧
          name_mismatch (dict_keys ds) names "trt_dynamic_shapes" e ∧
          fs w' = fs w ∧
          ∃ evs, trace w' = trace w ++ evs ∧ Forall (λ ev, feeds_or_compiles ev = false) evs.
Proof.
  intros names Hne. unfold _convert_trt.
  destruct (get_input_names_run pp_model_file pp_params_file w)
    as (w1 & evs & Hrun1 & Hfs & _ & Htr & Hevs).
  rewrite (bind_Ok _ _ _ _ _ Hrun1). fold names.
  rewrite bind_unfold. cbn [iterable mret M_ret].
  destruct (mismatch_cases _ _ Hne) as [H1|[H1 H2]].
  - destruct (for_check_fail names (dict_keys ds)
      (λ name, ValueError (InvalidInputName name "trt_dynamic_shapes")) w1 H1)
      as (name & Hin & Hnin & Hrun).
    rewrite (bind_Raise _ _ _ _ _ Hrun).
    eexists _, w1. split; [done|]. split; [left; eauto|]. eauto.
  - rewrite (bind_Ok _ _ _ _ _ (for_check_pass names (dict_keys ds) _ w1 H1)).
    destruct (for_check_fail (dict_keys ds) names
      (λ name, ValueError (InputNameNotFound name "trt_dynamic_shapes")) w1 H2)
      as (name & Hin & Hnin & Hrun).
    rewrite (bind_Raise _ _ _ _ _ Hrun).
    eexists _, w1. split; [done|]. split; [right; eauto|]. eauto.
Qed.

End NameValidation.

(** ** The feeding pass *)

Section Feeding.
Context {scalar : Type}.
Variable one : np_dtype → scalar.
Variable cast : np_dtype → scalar → result scalar.
Variable rt : runtime scalar.

Implicit Types (w : world scalar) (ev : event scalar) (evs : list (event scalar)).

Lemma add_events_nil w : add_events [] w = w.
Proof. destruct w. unfold add_events. simpl. by rewrite app_nil_r. Qed.

Lemma add_events_app evs1 evs2 w :
  add_events evs2 (add_events evs1 w) = add_events (evs1 ++ evs2) w.
Proof. unfold add_events. simpl. by rewrite app_assoc. Qed.

Lemma emit_run ev w : emit ev w = (Ok (), add_events [ev] w).
Proof. done. Qed.

Lemma dict_set_fresh {V} (k : string) (v : V) (d : dict V) :
  k ∉ dict_keys d → dict_set k v d = d ++ [(k, v)].
Proof.
  unfold dict_keys. induction d as [|[k' v'] d IH]; csimpl; [done|].
  rewrite not_elem_of_cons. intros [Hne Hnin].
  rewrite decide_False by done. by rewrite IH.
Qed.

Lemma feed_run (p : Predictor) (arrs : dict (ndarray scalar)) w :
  feed p arrs w = (Ok (), add_events (feed_events (pid p) arrs) w).
Proof.
  unfold feed. revert w. induction arrs as [|[name arr] arrs IH]; intros w.
  - by rewrite add_events_nil.
  - cbn [for_]. rewrite bind_unfold.
    unfold handle_reshape, handle_copy_from_cpu. rewrite bind_unfold, !emit_run.
    rewrite IH, !add_events_app. done.
Qed.

Lemma observe_feed_events id (arrs : dict (ndarray scalar)) st :
  foldl (observe_feed id) st (feed_events id arrs) = (st.1, st.2 ++ shapes_of arrs).
Proof.
  revert st. induction arrs as [|[name arr] arrs IH]; intros [c pend].
  - simpl. by rewrite app_nil_r.
  - unfold feed_events in *. csimpl. rewrite decide_True by done.
    rewrite IH. simpl. by rewrite <-app_assoc.
Qed.

End Feeding.

(** ** The candidate arrays *)

Section CandidateArrays.
Context {scalar : Type}.
Variable one : np_dtype → scalar.
Variable cast : np_dtype → scalar → result scalar.
Variable rt : runtime scalar.

Implicit Types (w : world scalar) (ev : event scalar) (evs : list (event scalar)).

Lemma for_acc_app {A S} (l1 l2 : list A) (body : A → S → M scalar S) (s : S) w :
  for_acc (l1 ++ l2) body s w = (for_acc l1 body s ≫= for_acc l2 body) w.
Proof.
  revert s w. induction l1 as [|x l1 IH]; intros s w; [done|].
  cbn [for_acc app]. rewrite !bind_unfold.
  destruct (body x s w) as [[s'|e] w1]; [|done]. rewrite IH. by rewrite bind_unfold.
Qed.

Lemma shapes_of_snoc (d : dict (ndarray scalar)) name a :
  shapes_of (d ++ [(name, a)]) = shapes_of d ++ [(name, arr_shape a)].
Proof. unfold shapes_of. by rewrite fmap_app. Qed.

Lemma lift_inv_Ok {A} (r : result A) w a w' :
  lift r w = (Ok a, w') → r = Ok a ∧ w' = w.
Proof. unfold lift. by intros [= -> ->]. Qed.

(** *** [np.array(data, dtype).reshape(s)] *)

Lemma np_array_reshape_shape data dtype s a :
  np_array_reshape cast data dtype s = Ok a → arr_shape a = s.
Proof.
  unfold np_array_reshape. destruct (comprehension _ _) as [converted|e]; [|done].
  cbn [result_bind]. case_decide; [|done]. by intros [= <-].
Qed.

Lemma np_array_reshape_exact (conv : np_dtype → scalar → scalar) data dtype s :
  (∀ x, x ∈ data → cast dtype x = Ok (conv dtype x)) →
  length data = size_of s →
  np_array_reshape cast data dtype s
  = Ok {| arr_shape := s; arr_dtype := dtype; arr_data := conv dtype <$> data;
          arr_c_contiguous := true |}.
Proof.
  intros Hconv Hlen. unfold np_array_reshape.
  rewrite (comprehension_Ok _ (conv dtype)) by by apply Forall_forall.
  cbn [result_bind]. rewrite decide_True; [done|]. by rewrite length_fmap.
Qed.

Lemma np_array_reshape_Ok data dtype s :
  (∀ x, x ∈ data → ∃ y, cast dtype x = Ok y) →
  length data = size_of s →
  ∃ a, np_array_reshape cast data dtype s = Ok a.
Proof.
  intros Hconv Hlen. unfold np_array_reshape.
  destruct (comprehension_total (cast dtype) data) as [converted Hc];
    [by apply Forall_forall|].
  rewrite Hc. cbn [result_bind].
  apply comprehension_lookup in Hc as [Hl _].
  rewrite decide_True by congruence. eauto.
Qed.

(** A number numpy cannot convert ends the construction of the array with
    the exception of the conversion, whatever the shape asked for. *)
Lemma np_array_reshape_raises data dtype s pre x post e :
  data = pre ++ x :: post →
  (∀ y, y ∈ pre → ∃ z, cast dtype y = Ok z) →
  cast dtype x = Raise e →
  np_array_reshape cast data dtype s = Raise e.
Proof.
  intros -> Hpre Hx. unfold np_array_reshape.
  assert (Hc : comprehension (cast dtype) (pre ++ x :: post) = Raise e); [|by rewrite Hc].
  induction pre as [|y pre IH]; cbn [app comprehension].
  - by rewrite Hx.
  - destruct (Hpre y) as [z ->]; [apply list_elem_of_here|]. cbn [result_bind].
    rewrite IH; [done|]. intros y' Hy'. apply Hpre. by apply list_elem_of_further.
Qed.

(** *** The candidate arrays *)

(** Whenever the loop that builds the candidate arrays returns, the three
    dictionaries hold one array per key of [dynamic_shapes], in its order
    and of its min, opt and max shape. *)
Lemma candidate_arrays_shapes (p : Predictor) ds data w mins opts maxs w' :
  NoDup (dict_keys ds) →
  candidate_arrays one cast rt p ds data w = (Ok (mins, opts, maxs), w') →
  w' = w ∧
  dict_keys mins = dict_keys ds ∧ dict_keys opts = dict_keys ds ∧
  dict_keys maxs = dict_keys ds ∧
  shapes_of mins = min_shapes ds ∧ shapes_of opts = opt_shapes ds ∧
  shapes_of maxs = max_shapes ds.
Proof.
  revert mins opts maxs w'.
  induction ds as [|[name [[mn op] mx]] ds IH] using rev_ind;
    intros mins opts maxs w' Hnd Hrun.
  { cbn in Hrun. by injection Hrun as <- <- <- <-. }
  unfold dict_keys in Hnd. rewrite fmap_app in Hnd. apply NoDup_app in Hnd as (Hnd & Hfresh & _).
  assert (Hname : name ∉ dict_keys ds).
  { intros Hin. apply (Hfresh name Hin). by left. }
  unfold candidate_arrays in Hrun. rewrite for_acc_app in Hrun.
  apply bind_inv_Ok in Hrun as ([[mins0 opts0] maxs0] & w1 & Hrun0 & Hstep).
  destruct (IH mins0 opts0 maxs0 w1 Hnd Hrun0) as (-> & Hk0 & Hk1 & Hk2 & Hs0 & Hs1 & Hs2).
  cbn [for_acc] in Hstep.
  apply bind_inv_Ok in Hstep as ([[mins1 opts1] maxs1] & w2 & Hbody & Hret).
  cbn [mret M_ret] in Hret. injection Hret as -> -> -> ->.
  apply bind_inv_Ok in Hbody as (t & w3 & Ht & Hbody).
  apply lift_inv_Ok in Ht as [Ht ->].
  assert (Hnew : ∃ a0 a1 a2,
            w' = w ∧ arr_shape a0 = mn ∧ arr_shape a1 = op ∧ arr_shape a2 = mx ∧
            mins = dict_set name a0 mins0 ∧ opts = dict_set name a1 opts0 ∧
            maxs = dict_set name a2 maxs0).
  { destruct (dict_get name data) as [[[d0 d1] d2]|].
    - apply bind_inv_Ok in Hbody as (a0 & w4 & Ha0 & Hbody).
      apply lift_inv_Ok in Ha0 as [Ha0 ->].
      apply bind_inv_Ok in Hbody as (a1 & w4 & Ha1 & Hbody).
      apply lift_inv_Ok in Ha1 as [Ha1 ->].
      apply bind_inv_Ok in Hbody as (a2 & w4 & Ha2 & Hbody).
      apply lift_inv_Ok in Ha2 as [Ha2 ->].
      cbn [mret M_ret] in Hbody. injection Hbody as <- <- <- <-.
      exists a0, a1, a2.
      by rewrite (np_array_reshape_shape _ _ _ _ Ha0), (np_array_reshape_shape _ _ _ _ Ha1),
           (np_array_reshape_shape _ _ _ _ Ha2).
    - cbn [mret M_ret] in Hbody. injection Hbody as <- <- <- <-.
      by exists (np_ones one mn t), (np_ones one op t), (np_ones one mx t). }
  destruct Hnew as (a0 & a1 & a2 & -> & <- & <- & <- & -> & -> & ->).
  rewrite (dict_set_fresh name _ mins0), (dict_set_fresh name _ opts0),
    (dict_set_fresh name _ maxs0) by congruence.
  unfold min_shapes, opt_shapes, max_shapes, dict_keys in *.
  rewrite !fmap_app, !shapes_of_snoc. csimpl.
  by rewrite Hk0, Hk1, Hk2, Hs0, Hs1, Hs2.
Qed.

(** The loop returns when every input has a supported element type and its
    sample data, where given, has the declared sizes and converts. *)
Lemma candidate_arrays_returns (p : Predictor) ds data w :
  (∀ name, name ∈ dict_keys ds →
           ∃ t, _pd_dtype_to_np_dtype (input_type (model_of rt p) name) = Ok t) →
  samples_fit ds data →
  samples_convert cast (input_type (model_of rt p)) data →
  ∃ arrs, candidate_arrays one cast rt p ds data w = (Ok arrs, w).
Proof.
  intros Hty Hfit Hconv. unfold candidate_arrays.
  generalize (@nil (string * ndarray scalar), @nil (string * ndarray scalar),
              @nil (string * ndarray scalar)) as acc.
  induction ds as [|[name [[mn op] mx]] ds IH]; intros [[mins opts] maxs].
  { by eexists. }
  cbn [for_acc]. rewrite bind_unfold.
  destruct (Hty name) as [t Ht]; [apply list_elem_of_here|].
  rewrite bind_unfold. unfold handle_type, get_input_handle; cbn [h_predictor h_name].
  rewrite Ht. cbn [lift].
  assert (IH' : ∀ acc, ∃ arrs,
            for_acc ds
              (λ '(name, candidate_shapes) '(min_arrs, opt_arrs, max_arrs),
                 let handle := get_input_handle p name in
                 dtype ← lift (_pd_dtype_to_np_dtype (handle_type rt handle));
                 let '(min_shape, opt_shape, max_shape) := candidate_shapes in
                 match dict_get name data with
                 | Some (data0, data1, data2) =>
                     min_arr ← lift (np_array_reshape cast data0 dtype min_shape);
                     opt_arr ← lift (np_array_reshape cast data1 dtype opt_shape);
                     max_arr ← lift (np_array_reshape cast data2 dtype max_shape);
                     mret (dict_set name min_arr min_arrs,
                           dict_set name opt_arr opt_arrs,
                           dict_set name max_arr max_arrs)
                 | None =>
                     mret (dict_set name (np_ones one min_shape dtype) min_arrs,
                           dict_set name (np_ones one opt_shape dtype) opt_arrs,
                           dict_set name (np_ones one max_shape dtype) max_arrs)
                 end) acc w = (Ok arrs, w)).
  { apply IH.
    - intros n Hn. apply Hty. by apply list_elem_of_further.
    - intros n s d Hn. apply Hfit. by apply list_elem_of_further. }
  destruct (dict_get name data) as [[[d0 d1] d2]|] eqn:Hd.
  - destruct (Hfit name (mn, op, mx) (d0, d1, d2)) as (H0 & H1 & H2);
      [apply list_elem_of_here|done|]. simpl in H0, H1, H2.
    destruct (np_array_reshape_Ok d0 t mn) as [a0 Ha0]; [|done|].
    { intros x Hx. apply (Hconv name _ t x Hd Ht). cbn [fst snd].
      rewrite !elem_of_app. auto. }
    destruct (np_array_reshape_Ok d1 t op) as [a1 Ha1]; [|done|].
    { intros x Hx. apply (Hconv name _ t x Hd Ht). cbn [fst snd].
      rewrite !elem_of_app. auto. }
    destruct (np_array_reshape_Ok d2 t mx) as [a2 Ha2]; [|done|].
    { intros x Hx. apply (Hconv name _ t x Hd Ht). cbn [fst snd].
      rewrite !elem_of_app. auto. }
    rewrite Ha0, Ha1, Ha2.
    repeat (rewrite bind_unfold; cbn [lift]; cbn beta iota).
    cbn [mret M_ret]. apply IH'.
  - cbn [mret M_ret]. apply IH'.
Qed.

Lemma candidate_arrays_run (p : Predictor) ds data w :
  NoDup (dict_keys ds) →
  (∀ name, name ∈ dict_keys ds →
           ∃ t, _pd_dtype_to_np_dtype (input_type (model_of rt p) name) = Ok t) →
  samples_fit ds data →
  samples_convert cast (input_type (model_of rt p)) data →
  ∃ mins opts maxs,
    candidate_arrays one cast rt p ds data w = (Ok (mins, opts, maxs), w) ∧
    dict_keys mins = dict_keys ds ∧ dict_keys opts = dict_keys ds ∧
    dict_keys maxs = dict_keys ds ∧
    shapes_of mins = min_shapes ds ∧ shapes_of opts = opt_shapes ds ∧
    shapes_of maxs = max_shapes ds.
Proof.
  intros Hnd Hty Hfit Hconv.
  destruct (candidate_arrays_returns p ds data w Hty Hfit Hconv) as [[[mins opts] maxs] Hrun].
  exists mins, opts, maxs. split; [done|].
  by destruct (candidate_arrays_shapes p ds data w mins opts maxs w Hnd Hrun) as (_ & ?).
Qed.

End CandidateArrays.

(** ** The calibration sequence *)

Section CalibrationSequence.
Context {scalar : Type}.
Variable one : np_dtype → scalar.
Variable cast : np_dtype → scalar → result scalar.
Variable rt : runtime scalar.

Implicit Types (w : world scalar) (ev : event scalar) (evs : list (event scalar)).

Lemma filter_is_run_feed_events id (arrs : dict (ndarray scalar)) :
  filter (λ ev, is_run ev) (feed_events id arrs) = [].
Proof.
  unfold feed_events. induction arrs as [|[name a] arrs IH]; csimpl; [done|].
  rewrite !filter_cons_False by (simpl; congruence). done.
Qed.

Lemma release_local_run (p : Predictor) w :
  ∃ evs, (release_local rt p w).1 = Ok () ∧
         trace (release_local rt p w).2 = trace w ++ evs ∧
         option_obj (release_local rt p w).2 = option_obj w ∧
         Forall (λ ev, ev = EvDestroyPredictor (pid p)) evs.
Proof.
  unfold release_local. destruct (reference_counting rt).
  - exists [EvDestroyPredictor (pid p)]. simpl. by repeat constructor.
  - exists []. simpl. by rewrite app_nil_r.
Qed.

Lemma observe_feed_destroy id evs st :
  Forall (λ ev, ∃ i, ev = @EvDestroyPredictor scalar i) evs →
  foldl (observe_feed id) st evs = st.
Proof. induction 1 as [|ev evs [i ->] _ IH]; [done|]. simpl. apply IH. Qed.

Lemma filter_is_run_destroy evs :
  Forall (λ ev, ∃ i, ev = @EvDestroyPredictor scalar i) evs →
  filter (λ ev, is_run ev) evs = [].
Proof.
  induction 1 as [|ev evs [i ->] _ IH]; [done|].
  rewrite filter_cons_False by (simpl; congruence). done.
Qed.

(** A name check leaves the world alone, whatever its outcome. *)
Lemma for_check_world (allowed names : list string) (err : string → exn) w :
  (for_ names (λ name, if decide (name ∈ allowed) then mret () else raise (err name)) w).2 = w.
Proof.
  destruct (decide (Forall (λ name, name ∈ allowed) names)) as [H|H].
  - by rewrite for_check_pass.
  - destruct (for_check_fail allowed names err w H) as (n & _ & _ & ->). done.
Qed.

Lemma create_predictor_run config w :
  create_predictor config w
  = (Ok {| pid := length (filter (λ ev, is_create ev) (trace w)); p_config := config |},
     add_events [EvCreatePredictor (length (filter (λ ev, is_create ev) (trace w))) config] w).
Proof. done. Qed.

(** What a calibration run that returns has done. *)
Lemma calibration_run_inv model_file model_params gpu_id path ds data w w' :
  let id := length (filter (λ ev, is_create ev) (trace w)) in
  NoDup (dict_keys ds) →
  _collect_trt_shape_range_info one cast rt model_file model_params gpu_id path
    (Some ds) data w = (Ok (), w') →
  ∃ evs,
    trace w' = trace w ++ evs ∧
    feeds_by_run id evs = ([min_shapes ds; opt_shapes ds; opt_shapes ds; max_shapes ds], []) ∧
    length (filter (λ ev, is_run ev) evs) = 4.
Proof.
  intros id Hnd. unfold _collect_trt_shape_range_info.
  rewrite (bind_Ok _ _ _ _ _ (create_predictor_run _ w)). fold id.
  set (p := {| pid := id; p_config := _ |}).
  set (w1 := add_events _ w).
  rewrite bind_unfold. cbn [iterable mret M_ret]. cbn beta iota.
  rewrite bind_unfold.
  lazymatch goal with |- context [for_ ?l ?b w1] =>
    pose proof (for_check_world (get_input_names rt p) l
      (λ name, ValueError (InvalidInputName name "dynamic_shapes")) w1) as Hw;
    destruct (for_ l b w1) as [[[]|e] w2]; simpl in Hw; subst w2; [|done] end.
  rewrite bind_unfold.
  lazymatch goal with |- context [for_ ?l ?b w1] =>
    pose proof (for_check_world (dict_keys ds) l
      (λ name, ValueError (InputNameNotFound name "dynamic_shapes")) w1) as Hw;
    destruct (for_ l b w1) as [[[]|e] w2]; simpl in Hw; subst w2; [|done] end.
  rewrite bind_unfold.
  lazymatch goal with |- context [for_ ?l ?b w1] =>
    pose proof (for_check_world (get_input_names rt p) l
      (λ name, ValueError (InvalidInputName name "dynamic_shape_input_data")) w1) as Hw;
    destruct (for_ l b w1) as [[[]|e] w2]; simpl in Hw; subst w2; [|done] end.
  rewrite bind_unfold.
  destruct (candidate_arrays one cast rt p ds (default [] data) w1)
    as [[[[mins opts] maxs]|e] w2] eqn:Hcand; [|done].
  destruct (candidate_arrays_shapes one cast rt p ds (default [] data) w1 mins opts maxs w2
              Hnd Hcand) as (-> & _ & _ & _ & Hs0 & Hs1 & Hs2).
  cbn [for_]. unfold predictor_run.
  repeat (rewrite bind_unfold; rewrite ?feed_run, ?emit_run; cbn beta iota).
  cbn [mret M_ret].
  unfold w1. rewrite !add_events_app.
  match goal with
  | |- context [release_local rt p (add_events ?l w)] => set (evs := l)
  end.
  destruct (release_local_run p (add_events evs w)) as (evs' & Hok & Htr & _ & Hevs').
  intros Hrun. exists (evs ++ evs').
  assert (Hw' : w' = (release_local rt p (add_events evs w)).2) by by rewrite Hrun.
  subst w'. clear Hrun.
  split; [by rewrite Htr, app_assoc|].
  assert (Hd : Forall (λ ev, ∃ i, ev = @EvDestroyPredictor scalar i) evs').
  { eapply Forall_impl; [done|]. simpl. eauto. }
  split.
  - unfold feeds_by_run. rewrite foldl_app, observe_feed_destroy by done.
    unfold evs. rewrite !foldl_app. cbn [foldl observe_feed].
    change (pid p) with id.
    rewrite observe_feed_events. cbn [fst snd]. rewrite decide_True by done.
    cbn [foldl observe_feed fst snd].
    rewrite observe_feed_events. cbn [fst snd]. rewrite decide_True by done.
    cbn [foldl observe_feed fst snd].
    rewrite observe_feed_events. cbn [fst snd]. rewrite decide_True by done.
    cbn [foldl observe_feed fst snd].
    rewrite observe_feed_events. cbn [fst snd]. rewrite decide_True by done.
    cbn [foldl observe_feed fst snd].
    by rewrite Hs0, Hs1, Hs2.
  - rewrite filter_app, (filter_is_run_destroy evs') by done. unfold evs.
    rewrite !filter_app, !filter_is_run_feed_events. done.
Qed.

(** When a calibration run returns. *)
Lemma calibration_run_returns model_file model_params gpu_id path ds data w :
  let m := load_model rt model_file model_params in
  (∀ name, name ∈ dict_keys ds ↔ name ∈ input_names m) →
  (∀ name, name ∈ dict_keys (default [] data) → name ∈ input_names m) →
  (∀ name, name ∈ dict_keys ds → ∃ t, _pd_dtype_to_np_dtype (input_type m name) = Ok t) →
  samples_fit ds (default [] data) →
  samples_convert cast (input_type m) (default [] data) →
  ∃ w',
    _collect_trt_shape_range_info one cast rt model_file model_params gpu_id path
      (Some ds) data w = (Ok (), w').
Proof.
  intros m Hnames Hdata Hty Hfit Hconv. unfold _collect_trt_shape_range_info.
  rewrite (bind_Ok _ _ _ _ _ (create_predictor_run _ w)).
  set (p := {| pid := _; p_config := _ |}).
  set (w1 := add_events _ w).
  assert (Hm : model_of rt p = m) by done.
  assert (Hin : get_input_names rt p = input_names m) by done.
  rewrite Hin. rewrite bind_unfold. cbn [iterable mret M_ret]. cbn beta iota.
  rewrite (bind_Ok _ _ _ _ _ (for_check_pass (input_names m) (dict_keys ds) _ w1
    ltac:(apply Forall_forall; intros ??; by apply Hnames))).
  rewrite (bind_Ok _ _ _ _ _ (for_check_pass (dict_keys ds) (input_names m) _ w1
    ltac:(apply Forall_forall; intros ??; by apply Hnames))).
  rewrite (bind_Ok _ _ _ _ _ (for_check_pass (input_names m) (dict_keys (default [] data)) _ w1
    ltac:(apply Forall_forall; intros ??; by apply Hdata))).
  destruct (candidate_arrays_returns one cast rt p ds (default [] data) w1)
    as ([[mins opts] maxs] & Hrun); [by rewrite Hm|done|by rewrite Hm|].
  rewrite (bind_Ok _ _ _ _ _ Hrun). cbn [for_].
  unfold predictor_run.
  repeat (rewrite bind_unfold; rewrite ?feed_run, ?emit_run; cbn beta iota).
  cbn [mret M_ret].
  match goal with
  | |- context [release_local rt p ?w2] =>
      destruct (release_local_run p w2) as (evs' & Hok & _);
      exists (release_local rt p w2).2
  end.
  rewrite <-Hok. apply surjective_pairing.
Qed.

(** C1: every calibration run that returns has fed the throwaway predictor
    it created exactly the shape sets min, opt, opt, max, each feed
    followed by one inference run, four runs in all, and nothing else was
    fed or run; and a run returns when its [dynamic_shapes] pass the name
    checks, the inputs have a supported element type and the sample data
    given have the declared sizes and hold numbers numpy converts to the
    element types. *)
Theorem calibration_feeds_min_opt_opt_max
    model_file model_params (gpu_id : nat) path ds data w :
  let m := load_model rt model_file model_params in
  let id := length (filter (λ ev, is_create ev) (trace w)) in
  let run :=
    _collect_trt_shape_range_info one cast rt model_file model_params (Some gpu_id) path
      (Some ds) data w in
  NoDup (dict_keys ds) →
  (∀ w', run = (Ok (), w') →
     ∃ evs,
       trace w' = trace w ++ evs ∧
       feeds_by_run id evs
       = ([min_shapes ds; opt_shapes ds; opt_shapes ds; max_shapes ds], []) ∧
       length (filter (λ ev, is_run ev) evs) = 4) ∧
  ((∀ name, name ∈ dict_keys ds ↔ name ∈ input_names m) →
   (∀ name, name ∈ dict_keys (default [] data) → name ∈ input_names m) →
   (∀ name, name ∈ dict_keys ds → ∃ t, _pd_dtype_to_np_dtype (input_type m name) = Ok t) →
   samples_fit ds (default [] data) →
   samples_convert cast (input_type m) (default [] data) →
   ∃ w', run = (Ok (), w')).
Proof.
  intros m id run Hnd. split.
  - intros w' Hrun. by apply (calibration_run_inv _ _ _ _ _ _ _ _ Hnd Hrun).
  - apply calibration_run_returns.
Qed.

End CalibrationSequence.

(** ** What a calibration run leaves behind *)

Section CalibrationOutcome.
Context {scalar : Type}.
Variable one : np_dtype → scalar.
Variable cast : np_dtype → scalar → result scalar.
Variable rt : runtime scalar.

Implicit Types (w : world scalar) (ev : event scalar) (evs : list (event scalar)).

Lemma lift_bind_world {A B} (r : result A) (k : A → M scalar B) w :
  (∀ a, (k a w).2 = w) → ((lift r ≫= k) w).2 = w.
Proof. intros Hk. rewrite bind_unfold. unfold lift. destruct r; [apply Hk|done]. Qed.

(** Building the candidate arrays performs no native call. *)
Lemma candidate_arrays_world (p : Predictor) ds data w :
  (candidate_arrays one cast rt p ds data w).2 = w.
Proof.
  unfold candidate_arrays. generalize (@nil (string * ndarray scalar)) at 1 as a0.
  generalize (@nil (string * ndarray scalar)) at 1 as a1.
  generalize (@nil (string * ndarray scalar)) as a2.
  induction ds as [|[name [[mn op] mx]] ds IH]; intros a2 a1 a0; [done|].
  cbn [for_acc]. rewrite bind_unfold.
  match goal with |- context [(lift ?r ≫= ?k) w] =>
    assert (Hstep : ∀ t, (k t w).2 = w ∧ ∀ s, (k t w).1 = Ok s → (k t w) = (Ok s, w)) end.
  { intros t. destruct (dict_get name data) as [[[d0 d1] d2]|].
    - unfold lift. rewrite !bind_unfold.
      destruct (np_array_reshape cast d0 t mn); [|done]. rewrite !bind_unfold.
      destruct (np_array_reshape cast d1 t op); [|done]. rewrite !bind_unfold.
      destruct (np_array_reshape cast d2 t mx); [|done].
      split; [done|]. by intros s [= <-].
    - split; [done|]. by intros s [= <-]. }
  rewrite bind_unfold. unfold lift at 1.
  destruct (_pd_dtype_to_np_dtype _) as [t|e]; [|done].
  destruct (Hstep t) as [Hw Hs]. revert Hw Hs.
  match goal with |- context [match ?x with _ => _ end] => destruct x as [[[[b0 b1] b2]|e] w1] end;
    simpl; intros -> Hs; [|done].
  apply IH.
Qed.

Lemma collect_outcome model_file model_params gpu_id path ods data w :
  calibration_outcome rt path w
    (_collect_trt_shape_range_info one cast rt model_file model_params gpu_id
       path ods data w).
Proof.
  unfold _collect_trt_shape_range_info.
  rewrite (bind_Ok _ _ _ _ _ (create_predictor_run _ w)).
  set (p := {| pid := _; p_config := _ |}).
  set (ev0 := EvCreatePredictor _ _).
  remember (add_events [ev0] w) as w1 eqn:Hw1.
  assert (Hfail : ∀ e, calibration_outcome rt path w (@Raise () e, w1)).
  { intros e. exists [ev0]. subst w1. simpl.
    split; [done|]. split; [done|]. right. eauto. }
  rewrite bind_unfold.
  destruct ods as [ds|]; cbn [iterable mret M_ret raise]; [|apply Hfail].
  rewrite bind_unfold.
  lazymatch goal with |- context [for_ ?l ?b w1] =>
    pose proof (for_check_world (get_input_names rt p) l
      (λ name, ValueError (InvalidInputName name "dynamic_shapes")) w1) as Hw;
    destruct (for_ l b w1) as [[[]|e] w2]; simpl in Hw; subst w2; [|apply Hfail] end.
  rewrite bind_unfold.
  lazymatch goal with |- context [for_ ?l ?b w1] =>
    pose proof (for_check_world (dict_keys ds) l
      (λ name, ValueError (InputNameNotFound name "dynamic_shapes")) w1) as Hw;
    destruct (for_ l b w1) as [[[]|e] w2]; simpl in Hw; subst w2; [|apply Hfail] end.
  rewrite bind_unfold.
  lazymatch goal with |- context [for_ ?l ?b w1] =>
    pose proof (for_check_world (get_input_names rt p) l
      (λ name, ValueError (InvalidInputName name "dynamic_shape_input_data")) w1) as Hw;
    destruct (for_ l b w1) as [[[]|e] w2]; simpl in Hw; subst w2; [|apply Hfail] end.
  rewrite bind_unfold.
  pose proof (candidate_arrays_world p ds (default [] data) w1) as Hw.
  destruct (candidate_arrays _ _ _ _ _ _ w1) as [[[[mins opts] maxs]|e] w2];
    simpl in Hw; subst w2; [|apply Hfail].
  cbn [for_]. unfold predictor_run.
  repeat (rewrite bind_unfold; rewrite ?feed_run, ?emit_run; cbn beta iota).
  cbn [mret M_ret]. subst w1. rewrite !add_events_app.
  match goal with
  | |- context [release_local rt p (add_events ?l w)] => set (evs := l)
  end.
  unfold release_local, destroy_predictor.
  assert (Hruns : length (filter (λ ev, is_run ev) evs) = 4).
  { unfold evs. rewrite !filter_app, !filter_is_run_feed_events. done. }
  unfold calibration_outcome. destruct (reference_counting rt).
  - exists (evs ++ [EvDestroyPredictor (pid p)]). cbn [fst snd add_events option_obj trace fs].
    split; [done|]. split; [by rewrite app_assoc|]. left. split; [done|]. split; [done|].
    rewrite filter_app, length_app, Hruns. done.
  - exists evs. cbn [fst snd add_events option_obj trace fs mret M_ret]. split; [done|]. split; [done|]. left. done.
Qed.

End CalibrationOutcome.

(** ** [_configure_trt] on the profile-driven route *)

Section ProfileRoute.
Context {scalar : Type}.
Variable one : np_dtype → scalar.
Variable cast : np_dtype → scalar → result scalar.
Variable rt : runtime scalar.

Implicit Types (w : world scalar) (ev : event scalar) (evs : list (event scalar)).

Lemma configure_trt_profile_route prefix model_file params_file cache_dir w :
  let o := option_obj w in
  let path := shape_range_info_path_of cache_dir o in
  USE_PIR_TRT rt = false →
  trt_use_dynamic_shapes o = true →
  trt_collect_shape_range_info o = true →
  run_mode o ∈ ["trt_int8"; "trt_fp32"; "trt_fp16"] →
  ∃ config,
    StaticInfer__configure_trt one cast rt prefix model_file params_file cache_dir w =
    match fs w !! path with
    | None =>
        (path_mkdir_parents (parent path);;
         logging INFO (MsgShapeRangeWillBeCollected path);;
         _collect_trt_shape_range_info one cast rt model_file params_file (device_id o)
           path (trt_dynamic_shapes o) (trt_dynamic_shape_input_data o);;
         mret config) w
    | Some _ =>
        if trt_discard_cached_shape_range_info o then
          (path_unlink path;;
           logging INFO (MsgShapeRangeRemoved path);;
           _collect_trt_shape_range_info one cast rt model_file params_file (device_id o)
             path (trt_dynamic_shapes o) (trt_dynamic_shape_input_data o);;
           mret config) w
        else (Ok config, add_events [EvLog INFO (MsgShapeRangeExists path)] w)
    end.
Proof.
  intros o path Hpir Hdyn Hcol Hmode.
  unfold StaticInfer__configure_trt. rewrite bind_unfold. cbn [get_option]. fold o.
  rewrite Hpir, Hdyn, Hcol.
  assert (∃ prec, dict_getitem (run_mode o)
            [("trt_int8", Int8); ("trt_fp32", Float32); ("trt_fp16", Half)] w
          = (Ok prec, w)) as [prec Hprec].
  { rewrite !elem_of_cons, elem_of_nil in Hmode.
    destruct Hmode as [->|[->|[->|[]]]]; eauto. }
  rewrite (bind_Ok _ _ _ _ _ Hprec).
  eexists. subst path. unfold shape_range_info_path_of.
  set (path := match trt_shape_range_info_path o with Some p => p | None => _ end).
  rewrite bind_unfold. unfold path_exists at 1.
  destruct (fs w !! path) as [node|] eqn:Hlk.
  - rewrite bool_decide_eq_true_2 by eauto. cbn [negb].
    destruct (trt_discard_cached_shape_range_info o).
    + rewrite !bind_unfold.
      destruct (path_unlink path w) as [[[]|e] w1]; [|done].
      rewrite !bind_unfold. unfold logging. rewrite !emit_run. cbn [mret M_ret]. cbn beta iota.
      rewrite !bind_unfold. reflexivity.
    + rewrite bind_unfold. unfold logging. rewrite !bind_unfold, emit_run. reflexivity.
  - rewrite bool_decide_eq_false_2 by (intros [? ?]; done). cbn [negb].
    rewrite !bind_unfold.
    destruct (path_mkdir_parents (parent path) w) as [[[]|e] w1]; [|done].
    rewrite !bind_unfold. unfold logging. rewrite !emit_run. cbn [mret M_ret]. cbn beta iota.
    rewrite !bind_unfold. reflexivity.
Qed.

End ProfileRoute.

(** ** Reuse of the shape range info file *)

Section ProfileCache.
Context {scalar : Type}.
Variable one : np_dtype → scalar.
Variable cast : np_dtype → scalar → result scalar.
Variable rt : runtime scalar.

Implicit Types (w : world scalar) (ev : event scalar) (evs : list (event scalar)).

(** The file-system effect of a successful calibration under reference
    counting: the profile is a file at [path]. *)
Lemma collect_writes_profile model_file model_params gpu_id path ods data w w' :
  reference_counting rt = true →
  _collect_trt_shape_range_info one cast rt model_file model_params gpu_id path ods data w
  = (Ok (), w') →
  fs w' !! path = Some File ∧ option_obj w' = option_obj w.
Proof.
  intros Hrc Hrun.
  destruct (collect_outcome one cast rt model_file model_params gpu_id path ods data w)
    as (evs & Hopt & _ & [(_ & Hfs & _)|([e He] & _)]); rewrite Hrun in *; simpl in *.
  - rewrite Hrc in Hfs. rewrite Hfs, lookup_insert_eq. done.
  - done.
Qed.

Lemma configure_trt_skips prefix model_file params_file cache_dir w :
  let o := option_obj w in
  let path := shape_range_info_path_of cache_dir o in
  USE_PIR_TRT rt = false →
  trt_use_dynamic_shapes o = true →
  trt_collect_shape_range_info o = true →
  run_mode o ∈ ["trt_int8"; "trt_fp32"; "trt_fp16"] →
  is_Some (fs w !! path) →
  trt_discard_cached_shape_range_info o = false →
  ∃ config,
    StaticInfer__configure_trt one cast rt prefix model_file params_file cache_dir w
    = (Ok config, add_events [EvLog INFO (MsgShapeRangeExists path)] w).
Proof.
  intros o path Hpir Hdyn Hcol Hmode [node Hnode] Hdis.
  destruct (configure_trt_profile_route one cast rt prefix model_file params_file cache_dir w
              Hpir Hdyn Hcol Hmode) as [config Hrun].
  fold o path in Hrun. rewrite Hnode, Hdis in Hrun. eauto.
Qed.

(** X25: on the profile-driven TensorRT route, an existing shape range info
    file and no invalidation flag skip calibration altogether; with
    [trt_discard_cached_shape_range_info] an existing file is deleted and
    the calibrator runs again, which leaves the profile on disk only under
    reference counting; and, the interpreter being one that destroys the
    calibration predictor on return, a second configuration after a
    successful one runs nothing. *)
Theorem shape_range_profile_generated_once prefix model_file params_file cache_dir w :
  let o := option_obj w in
  let path := shape_range_info_path_of cache_dir o in
  let configure :=
    StaticInfer__configure_trt one cast rt prefix model_file params_file cache_dir in
  let calibrate :=
    _collect_trt_shape_range_info one cast rt model_file params_file (device_id o) path
      (trt_dynamic_shapes o) (trt_dynamic_shape_input_data o) in
  USE_PIR_TRT rt = false →
  trt_use_dynamic_shapes o = true →
  trt_collect_shape_range_info o = true →
  run_mode o ∈ ["trt_int8"; "trt_fp32"; "trt_fp16"] →
  (* an existing file and no invalidation: calibration is skipped *)
  (is_Some (fs w !! path) → trt_discard_cached_shape_range_info o = false →
   ∃ config, configure w = (Ok config, add_events [EvLog INFO (MsgShapeRangeExists path)] w)) ∧
  (* invalidation: the file is removed and the calibrator runs again *)
  (fs w !! path = Some File → trt_discard_cached_shape_range_info o = true →
   (∃ config, configure w =
      (calibrate;; mret config)
        (add_events [EvLog INFO (MsgShapeRangeRemoved path)] (unlinked path w))) ∧
   ∀ config w', configure w = (Ok config, w') →
     ∃ evs, trace w' = trace w ++ [EvUnlink path; EvLog INFO (MsgShapeRangeRemoved path)] ++ evs ∧
            length (filter (λ ev, is_run ev) evs) = 4 ∧
            fs w' !! path = (if reference_counting rt then Some File else None)) ∧
  (* a second call after a successful one runs nothing *)
  (reference_counting rt = true → trt_discard_cached_shape_range_info o = false →
   ∀ config1 w1, configure w = (Ok config1, w1) →
     ∃ config2,
       configure w1 = (Ok config2, add_events [EvLog INFO (MsgShapeRangeExists path)] w1)).
Proof.
  intros o path configure calibrate Hpir Hdyn Hcol Hmode.
  destruct (configure_trt_profile_route one cast rt prefix model_file params_file cache_dir w
              Hpir Hdyn Hcol Hmode) as [config Hrun].
  fold o path configure calibrate in Hrun.
  split; [|split].
  - intros Hfound Hdis. by apply configure_trt_skips.
  - intros Hfile Hdis. rewrite Hfile, Hdis in Hrun.
    assert (Hunlink : path_unlink path w = (Ok (), unlinked path w)).
    { unfold path_unlink. by rewrite Hfile. }
    rewrite (bind_Ok _ _ _ _ _ Hunlink) in Hrun.
    rewrite bind_unfold in Hrun. unfold logging in Hrun. rewrite emit_run in Hrun.
    split; [by exists config|].
    intros config' w' Hok. rewrite Hok in Hrun. symmetry in Hrun.
    apply bind_inv_Ok in Hrun as ([] & w2 & Hcal & Hret).
    injection Hret as _ ->.
    destruct (collect_outcome one cast rt model_file params_file (device_id o) path
                (trt_dynamic_shapes o) (trt_dynamic_shape_input_data o)
                (add_events [EvLog INFO (MsgShapeRangeRemoved path)] (unlinked path w)))
      as (evs & _ & Htr & Hcase).
    fold calibrate in Htr, Hcase. rewrite Hcal in Htr, Hcase. simpl in Htr, Hcase.
    destruct Hcase as [(_ & Hfs & Hruns)|([e He] & _)]; [|done].
    exists evs. split; [by rewrite Htr, <-!app_assoc|]. split; [done|].
    rewrite Hfs. destruct (reference_counting rt).
    + by rewrite lookup_insert_eq.
    + by rewrite lookup_delete_eq.
  - intros Hrc Hdis config1 w1 Hok.
    assert (Hpost : is_Some (fs w1 !! path) ∧ option_obj w1 = o).
    { rewrite Hok in Hrun. symmetry in Hrun. destruct (fs w !! path) as [node|] eqn:Hnode.
      - rewrite Hdis in Hrun. injection Hrun as _ Hw1. subst w1. simpl. by rewrite Hnode.
      - apply bind_inv_Ok in Hrun as ([] & wa & Hmk & Hrun).
        apply bind_inv_Ok in Hrun as ([] & wb & Hlog & Hrun).
        apply bind_inv_Ok in Hrun as ([] & wc & Hcal & Hret).
        injection Hret as _ ->.
        apply collect_writes_profile in Hcal as [Hfile Hopt]; [|done].
        split; [by rewrite Hfile|]. rewrite Hopt.
        unfold logging in Hlog. rewrite emit_run in Hlog. injection Hlog as <-.
        unfold path_mkdir_parents in Hmk.
        destruct (mkdir_parents _ _); [|done]. by injection Hmk as <-. }
    destruct Hpost as [Hfound Hopt].
    destruct (configure_trt_skips prefix model_file params_file cache_dir w1) as [config2 H2];
      rewrite ?Hopt; try done.
    exists config2. by rewrite Hopt in H2.
Qed.

End ProfileCache.

(** ** Computations that only add events *)

Section Frames.
Context {scalar : Type}.
Variable one : np_dtype → scalar.
Variable cast : np_dtype → scalar → result scalar.
Variable rt : runtime scalar.

Implicit Types (w : world scalar) (ev : event scalar) (evs : list (event scalar)).

Section appends.
Variable Q : event scalar → Prop.

Lemma appends_ret {A} (a : A) : appends Q (mret a).
Proof. intros w. exists []. simpl. by rewrite app_nil_r. Qed.

Lemma appends_raise {A} e : appends Q (@raise scalar A e).
Proof. intros w. exists []. simpl. by rewrite app_nil_r. Qed.

Lemma appends_lift {A} (r : result A) : appends Q (lift r).
Proof. intros w. exists []. simpl. by rewrite app_nil_r. Qed.

Lemma appends_bind {A B} (m : M scalar A) (k : A → M scalar B) :
  appends Q m → (∀ a, appends Q (k a)) → appends Q (m ≫= k).
Proof.
  intros Hm Hk w. rewrite bind_unfold. destruct (Hm w) as (evs1 & Ht1 & Ho1 & HQ1).
  destruct (m w) as [[a|e] w1]; simpl in *.
  - destruct (Hk a w1) as (evs2 & Ht2 & Ho2 & HQ2).
    exists (evs1 ++ evs2). rewrite Ht2, Ht1, Ho2, Ho1, app_assoc.
    split; [done|]. split; [done|]. by apply Forall_app.
  - eauto.
Qed.

Lemma appends_emit ev : Q ev → appends Q (emit ev).
Proof. intros HQ w. exists [ev]. simpl. by repeat constructor. Qed.

Lemma appends_logging l msg : Q (EvLog l msg) → appends Q (logging l msg).
Proof. apply appends_emit. Qed.

Lemma appends_assert b : appends Q (assert b).
Proof. destruct b; [apply appends_ret|apply appends_raise]. Qed.

Lemma appends_get_option : appends Q get_option.
Proof. intros w. exists []. simpl. by rewrite app_nil_r. Qed.

Lemma appends_iterable {V} (d : option (dict V)) : appends Q (iterable d).
Proof. destruct d; [apply appends_ret|apply appends_raise]. Qed.

Lemma appends_dict_getitem {V} k (d : dict V) : appends Q (dict_getitem k d).
Proof. unfold dict_getitem. destruct (dict_get k d); [apply appends_ret|apply appends_raise]. Qed.

Lemma appends_for {A} (l : list A) (body : A → M scalar ()) :
  (∀ x, appends Q (body x)) → appends Q (for_ l body).
Proof.
  intros Hb. induction l as [|x l IH]; simpl; [apply appends_ret|].
  apply appends_bind; [apply Hb|done].
Qed.

Lemma appends_for_acc {A S} (l : list A) (body : A → S → M scalar S) s :
  (∀ x s, appends Q (body x s)) → appends Q (for_acc l body s).
Proof.
  intros Hb. revert s. induction l as [|x l IH]; intros s; simpl; [apply appends_ret|].
  apply appends_bind; [apply Hb|done].
Qed.

Lemma appends_create_predictor config :
  (∀ id, Q (EvCreatePredictor id config)) → appends Q (create_predictor config).
Proof. intros HQ w. eexists [_]. simpl. split; [done|]. split; [done|]. by repeat constructor. Qed.

Lemma appends_release_local p :
  Q (EvDestroyPredictor (pid p)) → appends Q (release_local rt p).
Proof.
  intros HQ w. unfold release_local. destruct (reference_counting rt).
  - exists [EvDestroyPredictor (pid p)]. simpl. by repeat constructor.
  - exists []. simpl. by rewrite app_nil_r.
Qed.

Lemma appends_path_exists p : appends Q (path_exists p).
Proof. intros w. exists []. simpl. by rewrite app_nil_r. Qed.

Lemma appends_path_mkdir_parents p : Q (EvMkdir p) → appends Q (path_mkdir_parents p).
Proof.
  intros HQ w. unfold path_mkdir_parents. destruct (mkdir_parents _ _).
  - exists [EvMkdir p]. simpl. by repeat constructor.
  - exists []. simpl. by rewrite app_nil_r.
Qed.

Lemma appends_path_unlink p : Q (EvUnlink p) → appends Q (path_unlink p).
Proof.
  intros HQ w. unfold path_unlink. destruct (fs w !! p) as [[]|].
  - exists [EvUnlink p]. simpl. by repeat constructor.
  - exists []. simpl. by rewrite app_nil_r.
  - exists []. simpl. by rewrite app_nil_r.
Qed.

Lemma appends_convert model_path trt_config :
  Q (EvConvert model_path trt_config) → appends Q (convert rt model_path trt_config).
Proof. intros HQ w. eexists [_]. simpl. split; [done|]. split; [done|]. by repeat constructor. Qed.

Lemma appends_handle_copy_to_cpu h :
  Q (EvCopyToCpu (pid (h_predictor h)) (h_name h)) → appends Q (handle_copy_to_cpu rt h).
Proof. intros HQ w. eexists [_]. simpl. split; [done|]. split; [done|]. by repeat constructor. Qed.

End appends.

(** Symbolic proof of [appends] goals: follow the structure of the code. *)
Ltac appends_step :=
  match goal with
  | |- appends _ (mret _) => apply appends_ret
  | |- appends _ (raise _) => apply appends_raise
  | |- appends _ (lift _) => apply appends_lift
  | |- appends _ (assert _) => apply appends_assert
  | |- appends _ get_option => apply appends_get_option
  | |- appends _ (iterable _) => apply appends_iterable
  | |- appends _ (dict_getitem _ _) => apply appends_dict_getitem
  | |- appends _ (path_exists _) => apply appends_path_exists
  | |- appends _ (_ ≫= _) => apply appends_bind; [|intros]
  | |- appends _ (for_ _ _) => apply appends_for; intros
  | |- appends _ (for_acc _ _ _) => apply appends_for_acc; intros
  | |- appends _ (emit _) => apply appends_emit
  | |- appends _ (logging _ _) => apply appends_logging
  | |- appends _ (handle_reshape _ _) => apply appends_emit
  | |- appends _ (handle_copy_from_cpu _ _) => apply appends_emit
  | |- appends _ (predictor_run _) => apply appends_emit
  | |- appends _ (convert _ _ _) => apply appends_convert
  | |- appends _ (create_predictor _) => apply appends_create_predictor; intros
  | |- appends _ (release_local _ _) => apply appends_release_local
  | |- appends _ (path_mkdir_parents _) => apply appends_path_mkdir_parents
  | |- appends _ (path_unlink _) => apply appends_path_unlink
  | |- appends _ (handle_copy_to_cpu _ _) => apply appends_handle_copy_to_cpu
  | |- appends _ (if ?b then _ else _) => destruct b
  | |- appends _ (match ?x with _ => _ end) => destruct x
  | |- appends _ (let '(_, _) := ?x in _) => destruct x
  | |- appends _ ?m =>
      match m with
      | context [match ?x with _ => _ end] => destruct x; cbn beta iota
      end
  end.



Lemma collect_appends model_file model_params gpu_id path ods data :
  appends quiet_event
    (_collect_trt_shape_range_info one cast rt model_file model_params gpu_id path ods data).
Proof.
  unfold _collect_trt_shape_range_info, candidate_arrays, feed.
  repeat appends_step; done.
Qed.

Lemma convert_trt_appends model_name mode pp_model_file pp_params_file trt_save_path ods :
  appends quiet_event
    (_convert_trt rt model_name mode pp_model_file pp_params_file trt_save_path ods).
Proof.
  unfold _convert_trt, _get_input_names, _set_trt_config.
  repeat appends_step; done.
Qed.

Lemma configure_trt_appends prefix model_file params_file cache_dir :
  appends quiet_event
    (StaticInfer__configure_trt one cast rt prefix model_file params_file cache_dir).
Proof.
  unfold StaticInfer__configure_trt.
  repeat first [apply collect_appends | apply convert_trt_appends | appends_step]; done.
Qed.

Lemma pipeline_appends (infer : pipeline) x :
  appends quiet_event (pipeline__call__ rt infer x).
Proof.
  destruct infer as [ctd mi|chain]; simpl.
  - unfold _concatenate, PaddleCopyToDevice__call__, PaddleModelInfer__call__,
      PaddleCopyToHost__call__, predictor_run_tensors.
    repeat appends_step; done.
  - unfold PaddleInferChainLegacy__call__. repeat appends_step; done.
Qed.

Lemma call_appends (self : StaticInfer) x :
  appends quiet_event (StaticInfer__call__ rt self x).
Proof.
  unfold StaticInfer__call__.
  repeat first [apply pipeline_appends | appends_step]; done.
Qed.

End Frames.

(** ** [StaticInfer.__call__] *)

Section FacadeCall.
Context {scalar : Type}.
Variable one : np_dtype → scalar.
Variable cast : np_dtype → scalar → result scalar.
Variable rt : runtime scalar.

Implicit Types (w : world scalar) (ev : event scalar) (evs : list (event scalar)).

(** *** Computations that always return *)

Lemma returns_ret {A} (a : A) : returns (mret a : M scalar A).
Proof. intros w. by exists a. Qed.

Lemma returns_bind {A B} (m : M scalar A) (k : A → M scalar B) :
  returns m → (∀ a, returns (k a)) → returns (m ≫= k).
Proof.
  intros Hm Hk w. rewrite bind_unfold. destruct (Hm w) as [a Ha].
  destruct (m w) as [r w1]; simpl in Ha; subst r. apply Hk.
Qed.

Lemma returns_emit ev : returns (emit ev).
Proof. intros w. by exists (). Qed.

Lemma returns_for {A} (l : list A) (body : A → M scalar ()) :
  (∀ x, returns (body x)) → returns (for_ l body).
Proof.
  intros Hb. induction l as [|x l IH]; simpl; [apply returns_ret|].
  apply returns_bind; [apply Hb|done].
Qed.

Lemma returns_for_acc {A S} (l : list A) (body : A → S → M scalar S) s :
  (∀ x s, returns (body x s)) → returns (for_acc l body s).
Proof.
  intros Hb. revert s. induction l as [|x l IH]; intros s; simpl; [apply returns_ret|].
  apply returns_bind; [apply Hb|done].
Qed.

Lemma returns_handle_copy_to_cpu h : returns (handle_copy_to_cpu rt h).
Proof. intros w. eexists. done. Qed.

(** Neither pipeline raises: what the native engine does is total here. *)
Lemma pipeline_returns (infer : pipeline) x : returns (pipeline__call__ rt infer x).
Proof.
  destruct infer as [ctd mi|chain]; simpl.
  - unfold _concatenate, PaddleCopyToDevice__call__, PaddleModelInfer__call__,
      PaddleCopyToHost__call__, predictor_run_tensors.
    repeat first [apply returns_bind; [|intros] | apply returns_ret | apply returns_emit].
  - unfold PaddleInferChainLegacy__call__.
    repeat first [apply returns_bind; [|intros] | apply returns_ret | apply returns_emit
                 | apply returns_for; intros [??] | apply returns_for_acc; intros
                 | apply returns_handle_copy_to_cpu].
Qed.

Lemma sorted_by_name_length {A} (xs : list A) names :
  length xs = length names → length (sorted_by_name xs names) = length names.
Proof.
  intros Hlen. unfold sorted_by_name.
  rewrite length_fmap, (Permutation_length (sorted_keyed_perm _)), length_zip_with. lia.
Qed.

Lemma call_run (self : StaticInfer) x w :
  length x = length (get_input_names rt (predictor self)) →
  ∃ x', _sort_inputs x (get_input_names rt (predictor self)) = Ok x' ∧
        StaticInfer__call__ rt self x w
        = pipeline__call__ rt (infer self) (np_ascontiguousarray <$> x') w.
Proof.
  intros Hlen. unfold StaticInfer__call__.
  rewrite bool_decide_eq_true_2 by done. cbn [negb].
  destruct (_sort_inputs_spec x _ Hlen) as (x' & Hx' & _).
  exists x'. split; [done|]. rewrite Hx'. done.
Qed.

(** C6: a call with a number of tensors other than the number of declared
    inputs raises the count [ValueError] and leaves the world as it was (no
    native call, no state change); a later call with the right number of
    tensors goes through. *)
Theorem call_rejects_wrong_input_count (self : StaticInfer) x w :
  let names := get_input_names rt (predictor self) in
  length x ≠ length names →
  StaticInfer__call__ rt self x w
  = (Raise (ValueError (InputCountMismatch (length names) (length x))), w) ∧
  ∀ x', length x' = length names →
        ∃ out, (StaticInfer__call__ rt self x' (StaticInfer__call__ rt self x w).2).1 = Ok out.
Proof.
  intros names Hne.
  assert (Hrun : StaticInfer__call__ rt self x w
    = (Raise (ValueError (InputCountMismatch (length names) (length x))), w)).
  { unfold StaticInfer__call__. fold names.
    rewrite bool_decide_eq_false_2 by (intros ?; by apply Hne). done. }
  split; [done|]. intros x' Hlen. rewrite Hrun. simpl.
  destruct (call_run self x' w Hlen) as (y & _ & ->).
  apply pipeline_returns.
Qed.

Lemma call_sorted_by_name (self : StaticInfer) (xs : list (ndarray scalar)) w :
  let names := get_input_names rt (predictor self) in
  length xs = length names →
  StaticInfer__call__ rt self (sorted_by_name xs names) w
  = pipeline__call__ rt (infer self) (np_ascontiguousarray <$> xs) w.
Proof.
  intros names Hlen. unfold StaticInfer__call__. fold names.
  rewrite bool_decide_eq_true_2 by (by rewrite sorted_by_name_length).
  cbn [negb]. by rewrite _sort_inputs_sorted_by_name.
Qed.

(** C5: a call whose tensors are listed in the sorted order of the input
    names hands them to the pipeline in the declared order of the names; for
    a predictor declaring [b, a] and a caller passing [ta, tb], the pipeline
    receives [tb, ta]. *)
Theorem call_reorders_to_declared_order (self : StaticInfer) (xs : list (ndarray scalar)) w :
  let names := get_input_names rt (predictor self) in
  length xs = length names →
  StaticInfer__call__ rt self (sorted_by_name xs names) w
  = pipeline__call__ rt (infer self) (np_ascontiguousarray <$> xs) w ∧
  (∀ ta tb, names = ["b"; "a"] →
     StaticInfer__call__ rt self [ta; tb] w
     = pipeline__call__ rt (infer self) [np_ascontiguousarray tb; np_ascontiguousarray ta] w).
Proof.
  intros names Hlen. split; [by apply call_sorted_by_name|].
  intros ta tb Hnames.
  pose proof (call_sorted_by_name self [tb; ta] w) as H. fold names in H.
  rewrite Hnames in H. by apply H.
Qed.

End FacadeCall.

(** ** The blocks of [_create] *)

Section OptionNormalisation.
Context {scalar : Type}.
Variable one : np_dtype → scalar.
Variable cast : np_dtype → scalar → result scalar.
Variable rt : runtime scalar.

Implicit Types (w : world scalar) (ev : event scalar) (evs : list (event scalar)).
Implicit Types (o : PaddlePredictorOption scalar).

Ltac run_option_steps :=
  unfold logging, emit, put_option, get_option;
  repeat (rewrite bind_unfold;
          cbn [mret M_ret option_obj fs trace set_run_mode set_device_id device_type
               device_id model_name run_mode]);
  cbn [mret M_ret option_obj fs trace set_run_mode set_device_id device_type device_id
       model_name run_mode].

Lemma normalize_option_run w :
  let o := option_obj w in
  ∃ evs o',
    normalize_option rt w
    = (Ok (), {| fs := fs w; trace := trace w ++ evs; option_obj := o' |}) ∧
    Forall (λ ev, is_log ev = true) evs ∧
    length (filter (λ ev, is_device_id_set ev) evs) = (if defaults_device_id o then 1 else 0) ∧
    device_type o' = device_type o ∧
    model_name o' = model_name o ∧
    run_mode o' = (if decide (model_name o = "LaTeX_OCR_rec") then "mkldnn" else run_mode o) ∧
    device_id o' = (if defaults_device_id o then Some 0 else device_id o).
Proof.
  intros o. assert (Ho : option_obj w = o) by done. clearbody o.
  unfold normalize_option, defaults_device_id.
  rewrite bind_unfold. unfold get_option at 1. cbn beta iota. rewrite Ho.
  destruct (decide (model_name o = "LaTeX_OCR_rec")) as [Hm|Hm].
  - destruct (str_contains "GenuineIntel" (vendor_id_raw rt)
              && negb (bool_decide (run_mode o = "mkldnn")));
      run_option_steps;
      destruct (bool_decide (device_type o ∈ ["gpu"; "dcu"]) && bool_decide (device_id o = None));
      run_option_steps;
      rewrite <-?app_assoc; eexists _, _; (split; [reflexivity|]);
      (split; [by repeat constructor|]); done.
  - run_option_steps. rewrite ?Ho.
    destruct (bool_decide (device_type o ∈ ["gpu"; "dcu"]) && bool_decide (device_id o = None));
      run_option_steps.
    + eexists [_], _. split; [reflexivity|]. split; [by repeat constructor|]. done.
    + exists [], o. rewrite app_nil_r. split; [destruct w; simpl in *; by subst|]. done.
Qed.


Lemma clean_call c config : is_trt_call c = false → clean config → clean (call c config).
Proof. intros Hc Hcfg. unfold clean, call. simpl. apply Forall_app. by repeat constructor. Qed.

Lemma clean_call_if_present name c config :
  is_trt_call c = false → clean config → clean (call_if_present rt name c config).
Proof. intros. unfold call_if_present. destruct (hasattr_config rt name); [by apply clean_call|done]. Qed.

Lemma elem_call_here c config : c ∈ cfg_calls (call c config).
Proof. unfold call. simpl. apply elem_of_app. right. by left. Qed.

Lemma elem_call_there c c' config : c ∈ cfg_calls config → c ∈ cfg_calls (call c' config).
Proof. intros. unfold call. simpl. apply elem_of_app. by left. Qed.

Lemma elem_call_if_present c name c' config :
  c ∈ cfg_calls config → c ∈ cfg_calls (call_if_present rt name c' config).
Proof.
  intros. unfold call_if_present. destruct (hasattr_config rt name); [by apply elem_call_there|done].
Qed.

Lemma configure_device_run o config w :
  ∃ evs,
    (configure_device rt o config w).2 = add_events evs w ∧
    Forall (λ ev, is_log ev = true) evs ∧
    Forall (λ ev, is_device_id_set ev = false) evs ∧
    ∀ config', (configure_device rt o config w).1 = Ok config' →
      (device_type o ≠ "gpu" → clean config → clean config') ∧
      (device_type o ∈ ["gpu"; "dcu"] → enable_use_gpu 100 (device_id o) ∈ cfg_calls config').
Proof.
  unfold configure_device, assert, logging.
  repeat match goal with
         | |- context [decide ?P] => destruct (decide P)
         | |- context [if ?b then _ else _] => destruct b eqn:?
         end.
  all: repeat (rewrite bind_unfold; rewrite ?emit_run; cbn [mret M_ret raise fst snd]).
  all: cbn [mret M_ret raise fst snd].
  all: first [ exists []; rewrite add_events_nil; split; [reflexivity|]
             | eexists [_]; split; [reflexivity|] ].
  all: split; [by repeat constructor|].
  all: split; [by repeat constructor|].
  all: intros config' [= <-].
  all: split; [intros Hne Hclean|intros Hin].
  all: try done.
  all: try by repeat first [apply clean_call; [done|] | apply clean_call_if_present; [done|]].
  all: try by repeat first [apply elem_call_here | apply elem_call_there
                           | apply elem_call_if_present].
  all: rewrite !elem_of_cons, elem_of_nil in Hin; destruct Hin as [?|[?|[]]]; congruence.
Qed.

End OptionNormalisation.

(** ** [StaticInfer._create] *)

Section Create.
Context {scalar : Type}.
Variable one : np_dtype → scalar.
Variable cast : np_dtype → scalar → result scalar.
Variable rt : runtime scalar.

Implicit Types (w : world scalar) (ev : event scalar) (evs : list (event scalar)).
Implicit Types (o : PaddlePredictorOption scalar).

Lemma foldl_delete_pass_calls config passes :
  cfg_calls (foldl (λ config del_p, call (delete_pass del_p) config) config passes)
  = cfg_calls config ++ (delete_pass <$> passes).
Proof.
  revert config. induction passes as [|p ps IH]; intros config; csimpl.
  - by rewrite app_nil_r.
  - rewrite IH. unfold call. simpl. by rewrite <-app_assoc.
Qed.

Lemma finish_config_clean o config : clean config → clean (finish_config rt o config).
Proof.
  intros Hc. unfold finish_config.
  assert (clean (foldl (λ config del_p, call (delete_pass del_p) config)
                   (call enable_memory_optim config) (opt_delete_pass o))) as Hf.
  { unfold clean. rewrite foldl_delete_pass_calls. apply Forall_app. split.
    - by apply clean_call.
    - apply Forall_fmap, Forall_forall. done. }
  destruct (negb (DEBUG rt)); [by apply clean_call|done].
Qed.

Lemma finish_config_elem o config c :
  c ∈ cfg_calls config → c ∈ cfg_calls (finish_config rt o config).
Proof.
  intros Hc. unfold finish_config.
  assert (c ∈ cfg_calls (foldl (λ config del_p, call (delete_pass del_p) config)
                   (call enable_memory_optim config) (opt_delete_pass o))) as Hf.
  { rewrite foldl_delete_pass_calls. apply elem_of_app. left. by apply elem_call_there. }
  destruct (negb (DEBUG rt)); [by apply elem_call_there|done].
Qed.

Lemma log_not_trt_event ev : is_log ev = true → is_trt_event ev = false.
Proof. by destruct ev. Qed.

Lemma log_events_not_trt evs :
  Forall (λ ev, is_log ev = true) evs → Forall (λ ev, is_trt_event ev = false) evs.
Proof. intros H. eapply Forall_impl; [done|]. apply log_not_trt_event. Qed.

Lemma create_event_not_trt id config :
  clean config → is_trt_event (@EvCreatePredictor scalar id config) = false.
Proof.
  intros Hc. simpl. apply bool_decide_eq_false_2. intros Hex.
  apply Exists_exists in Hex as (c & Hin & Hc').
  unfold clean in Hc. rewrite Forall_forall in Hc. specialize (Hc c Hin). congruence.
Qed.

Lemma filter_nil_Forall (f : event scalar → bool) evs :
  Forall (λ ev, f ev = false) evs → filter (λ ev, f ev) evs = [].
Proof.
  induction 1 as [|ev evs Hev _ IH]; [done|].
  rewrite filter_cons_False by (rewrite Hev; intros []). done.
Qed.

(** What [_create] does once the model files are found. *)
Lemma create_run md prefix w mf pf :
  dict_get "paddle" (get_model_paths rt md prefix) = Some (mf, pf) →
  let o := option_obj w in
  ∃ evs r w',
    StaticInfer__create one cast rt md prefix w = (r, w') ∧
    trace w' = trace w ++ evs ∧
    device_type (option_obj w') = device_type o ∧
    device_id (option_obj w') = (if defaults_device_id o then Some 0 else device_id o) ∧
    run_mode (option_obj w')
      = (if decide (model_name o = "LaTeX_OCR_rec") then "mkldnn" else run_mode o) ∧
    (∃ pre post,
       evs = pre ++ post ∧ Forall (λ ev, is_log ev = true) pre ∧
       length (filter (λ ev, is_device_id_set ev) pre)
       = (if defaults_device_id o then 1 else 0) ∧
       Forall (λ ev, is_device_id_set ev = false) post) ∧
    (∀ p, r = Ok p →
          ∃ evs0, evs = evs0 ++ [EvCreatePredictor (pid p) (p_config p)] ∧
                  (device_type o ∈ ["gpu"; "dcu"] →
                   enable_use_gpu 100 (device_id (option_obj w')) ∈ cfg_calls (p_config p))) ∧
    (device_type o ≠ "gpu" →
     Forall (λ ev, is_trt_event ev = false) evs ∧
     (String.prefix "trt" (run_mode (option_obj w')) = true →
      r = Raise AssertionError ∧ Forall (λ ev, is_log ev = true) evs ∧ fs w' = fs w)).
Proof.
  intros Hpaths o. unfold StaticInfer__create. rewrite Hpaths.
  destruct (normalize_option_run rt w) as (evs_n & o' & Hn & Hlog_n & Hcnt_n & Hdt & _ & Hrm & Hid).
  fold o in Hcnt_n, Hdt, Hrm, Hid.
  rewrite (bind_Ok _ _ _ _ _ Hn).
  set (w_n := {| fs := fs w; trace := trace w ++ evs_n; option_obj := o' |}).
  rewrite bind_unfold. unfold get_option at 1. cbn beta iota. cbn [option_obj w_n].
  fold (finish_config rt o').
  rewrite bind_unfold.
  destruct (String.prefix "trt" (run_mode o')) eqn:Htrt.
  - (* TensorRT requested *)
    rewrite bind_unfold. unfold assert.
    destruct (decide (device_type o' = "gpu")) as [Hgpu|Hgpu].
    + rewrite bool_decide_eq_true_2 by done. cbn [mret M_ret]. cbn beta iota.
      destruct (configure_trt_appends one cast rt prefix mf pf (md ++ [CACHE_DIR; "paddle"]) w_n)
        as (evs_t & Htr_t & Hopt_t & Hq_t).
      destruct (StaticInfer__configure_trt one cast rt prefix mf pf _ w_n) as [[config|e] w_t];
        simpl in Htr_t, Hopt_t.
      * destruct (configure_device_run rt o' config w_t) as (evs_d & Hw_d & _ & Hq_d & Hcfg).
        rewrite bind_unfold.
        destruct (configure_device rt o' config w_t) as [[config'|e] w_d]; simpl in Hw_d, Hcfg.
        -- subst w_d. rewrite create_predictor_run.
           set (id := length (filter _ (trace (add_events evs_d w_t)))).
           eexists ((evs_n ++ evs_t ++ evs_d) ++ [_]), _, _. split; [reflexivity|].
           cbn [trace add_events option_obj]. rewrite Htr_t, Hopt_t. cbn [trace w_n].
           split; [by rewrite <-!app_assoc|]. split; [done|]. split; [done|]. split; [done|].
           split.
           { eexists evs_n, _. split; [by rewrite <-!app_assoc|]. split; [done|].
             split; [done|]. rewrite !Forall_app. by repeat constructor. }
           split.
           { intros p [= <-]. eexists. split; [reflexivity|]. intros Hin. cbn [p_config].
             apply finish_config_elem.
             apply Hcfg; [done|]. by rewrite Hdt. }
           intros Hne. congruence.
        -- subst w_d. exists (evs_n ++ evs_t ++ evs_d), (Raise e), (add_events evs_d w_t).
           split; [reflexivity|].
           cbn [trace add_events option_obj]. rewrite Htr_t, Hopt_t. cbn [trace w_n].
           split; [by rewrite <-!app_assoc|]. split; [done|]. split; [done|]. split; [done|].
           split.
           { exists evs_n, (evs_t ++ evs_d). split; [done|]. split; [done|].
             split; [done|]. by apply Forall_app. }
           split; [done|]. intros Hne. congruence.
      * exists (evs_n ++ evs_t), (Raise e), w_t. split; [reflexivity|].
        rewrite Htr_t, Hopt_t. cbn [trace w_n].
        split; [by rewrite <-!app_assoc|]. split; [done|]. split; [done|]. split; [done|].
        split; [by exists evs_n, evs_t|].
        split; [done|]. intros Hne. congruence.
    + rewrite bool_decide_eq_false_2 by done. cbn [raise]. cbn beta iota.
      exists evs_n, (Raise AssertionError), w_n. split; [reflexivity|].
      cbn [trace option_obj fs w_n].
      split; [done|]. split; [done|]. split; [done|]. split; [done|].
      split; [exists evs_n, []; by rewrite app_nil_r|].
      split; [done|]. intros Hne. split; [by apply log_events_not_trt|]. done.
  - (* no TensorRT *)
    cbn [mret M_ret]. cbn beta iota.
    destruct (configure_device_run rt o' (new_Config mf pf) w_n) as (evs_d & Hw_d & Hlog_d & Hq_d & Hcfg).
    rewrite bind_unfold.
    destruct (configure_device rt o' (new_Config mf pf) w_n) as [[config'|e] w_d];
      simpl in Hw_d, Hcfg.
    + subst w_d. rewrite create_predictor_run.
      set (id := length (filter _ (trace (add_events evs_d w_n)))).
      eexists ((evs_n ++ evs_d) ++ [_]), _, _. split; [reflexivity|].
      cbn [trace add_events option_obj w_n].
      split; [by rewrite <-!app_assoc|]. split; [done|]. split; [done|]. split; [done|].
      split.
      { eexists evs_n, _. split; [by rewrite <-!app_assoc|]. split; [done|].
        split; [done|]. rewrite !Forall_app. by repeat constructor. }
      split.
      { intros p [= <-]. eexists. split; [reflexivity|]. intros Hin. cbn [p_config].
        apply finish_config_elem. apply Hcfg; [done|]. by rewrite Hdt. }
      intros Hne. split; [|intros H; congruence].
      apply Forall_app. split; [apply Forall_app; split; by apply log_events_not_trt|].
      repeat constructor. apply create_event_not_trt, finish_config_clean.
      apply Hcfg; [done|by rewrite Hdt|]. constructor.
    + subst w_d. exists (evs_n ++ evs_d), (Raise e), (add_events evs_d w_n).
      split; [reflexivity|]. cbn [trace add_events option_obj w_n].
      split; [by rewrite <-!app_assoc|]. split; [done|]. split; [done|]. split; [done|].
      split; [by exists evs_n, evs_d|].
      split; [done|]. intros Hne. split; [|intros H; congruence].
      apply Forall_app; split; by apply log_events_not_trt.
Qed.

End Create.

(** ** [StaticInfer.__init__] *)

Section Construction.
Context {scalar : Type}.
Variable one : np_dtype → scalar.
Variable cast : np_dtype → scalar → result scalar.
Variable rt : runtime scalar.

Implicit Types (w : world scalar) (ev : event scalar) (evs : list (event scalar)).
Implicit Types (o : PaddlePredictorOption scalar).

Lemma init_run md prefix o w :
  ∃ facade_of : Predictor → world scalar → StaticInfer,
    (∀ p w', predictor (facade_of p w') = p) ∧
    StaticInfer__init__ one cast rt md prefix o w =
    match StaticInfer__create one cast rt md prefix (bound o w) with
    | (Ok p, w') => (Ok (facade_of p w'), w')
    | (Raise e, w') => (Raise e, w')
    end.
Proof.
  exists (λ p w',
    {| model_dir := md; model_file_prefix := prefix; predictor := p;
       infer :=
         if negb (_use_legacy_api (option_obj w')) then
           Concatenated
             {| ctd_device_type :=
                  if decide (device_type (option_obj w') = "dcu") then "gpu"
                  else device_type (option_obj w');
                ctd_device_id := device_id (option_obj w') |}
             {| mi_predictor := p |}
         else Legacy (PaddleInferChainLegacy__init__ rt p) |}).
  split; [done|].
  unfold StaticInfer__init__. rewrite bind_unfold. unfold put_option at 1. cbn beta iota.
  fold (bound o w). rewrite bind_unfold.
  destruct (StaticInfer__create one cast rt md prefix (bound o w)) as [[p|e] w']; [|done].
  rewrite bind_unfold. unfold get_option at 1. done.
Qed.

(** Construction as a whole, once the model files are found. *)
Lemma init_outcome md prefix o w mf pf :
  dict_get "paddle" (get_model_paths rt md prefix) = Some (mf, pf) →
  ∃ evs r w',
    StaticInfer__init__ one cast rt md prefix o w = (r, w') ∧
    trace w' = trace w ++ evs ∧
    device_type (option_obj w') = device_type o ∧
    device_id (option_obj w') = (if defaults_device_id o then Some 0 else device_id o) ∧
    run_mode (option_obj w')
      = (if decide (model_name o = "LaTeX_OCR_rec") then "mkldnn" else run_mode o) ∧
    (∃ pre post,
       evs = pre ++ post ∧ Forall (λ ev, is_log ev = true) pre ∧
       length (filter (λ ev, is_device_id_set ev) pre)
       = (if defaults_device_id o then 1 else 0) ∧
       Forall (λ ev, is_device_id_set ev = false) post) ∧
    (∀ fac, r = Ok fac →
       ∃ evs0, evs = evs0 ++ [EvCreatePredictor (pid (predictor fac))
                                (p_config (predictor fac))] ∧
               (device_type o ∈ ["gpu"; "dcu"] →
                enable_use_gpu 100 (device_id (option_obj w'))
                ∈ cfg_calls (p_config (predictor fac)))) ∧
    (device_type o ≠ "gpu" →
     Forall (λ ev, is_trt_event ev = false) evs ∧
     (String.prefix "trt" (run_mode (option_obj w')) = true →
      r = Raise AssertionError ∧ Forall (λ ev, is_log ev = true) evs ∧ fs w' = fs w)).
Proof.
  intros Hpaths. destruct (init_run md prefix o w) as (facade_of & Hfac & Hinit).
  destruct (create_run one cast rt md prefix (bound o w) mf pf Hpaths)
    as (evs & r & w' & Hc & Htr & Hdt & Hid & Hrm & Hcnt & Hok & Hne).
  cbn [bound option_obj trace fs] in *. rewrite Hc in Hinit.
  exists evs. destruct r as [p|e].
  - exists (Ok (facade_of p w')), w'. split; [done|]. repeat (split; [done|]).
    split.
    + intros fac [= <-]. rewrite Hfac. by apply Hok.
    + intros Hgpu. destruct (Hne Hgpu) as [Htrt Hassert]. split; [done|].
      intros Hp. by destruct (Hassert Hp).
  - exists (Raise e), w'. split; [done|]. repeat (split; [done|]).
    intros Hgpu. destruct (Hne Hgpu) as [Htrt Hassert]. split; [done|].
    intros Hp. destruct (Hassert Hp) as ([= ->] & ? & ?). done.
Qed.

(** Without model files nothing happens: no native call, no mutation. *)
Lemma init_no_model md prefix o w :
  dict_get "paddle" (get_model_paths rt md prefix) = None →
  StaticInfer__init__ one cast rt md prefix o w
  = (Raise (RuntimeError NoValidPaddleModel), bound o w).
Proof.
  intros Hpaths. destruct (init_run md prefix o w) as (facade_of & _ & ->).
  unfold StaticInfer__create. by rewrite Hpaths.
Qed.

End Construction.

(** ** Construction, validation and conversion *)

Section Claims.
Context {scalar : Type}.
Variable one : np_dtype → scalar.
Variable cast : np_dtype → scalar → result scalar.
Variable rt : runtime scalar.

Implicit Types (w : world scalar) (ev : event scalar) (evs : list (event scalar)).
Implicit Types (o : PaddlePredictorOption scalar).

(** C2: when the keys of [dynamic_shapes] and the declared input names of
    the predictor differ, in either direction, the calibrator and the
    accelerator compiler both raise the [ValueError] that names the
    offending input, and up to that point no input has been fed, no
    inference run and nothing compiled. *)
Theorem dynamic_shape_names_must_match
    model_file params_file gpu_id path ds data model_name mode trt_save_path w :
  let names := input_names (load_model rt model_file params_file) in
  ¬ (∀ name, name ∈ dict_keys ds ↔ name ∈ names) →
  (∃ e w',
     _collect_trt_shape_range_info one cast rt model_file params_file gpu_id path
       (Some ds) data w = (Raise e, w') ∧
     name_mismatch (dict_keys ds) names "dynamic_shapes" e ∧
     fs w' = fs w ∧
     ∃ evs, trace w' = trace w ++ evs ∧ Forall (λ ev, feeds_or_compiles ev = false) evs) ∧
  (∃ e w',
     _convert_trt rt model_name mode model_file params_file trt_save_path (Some ds) w
     = (Raise e, w') ∧
     name_mismatch (dict_keys ds) names "trt_dynamic_shapes" e ∧
     fs w' = fs w ∧
     ∃ evs, trace w' = trace w ++ evs ∧ Forall (λ ev, feeds_or_compiles ev = false) evs).
Proof.
  intros names Hne. split.
  - by apply collect_name_mismatch.
  - by apply convert_name_mismatch.
Qed.

(** C4 (a defect of the code): the calibrator never flushes the profile
    itself. Where the interpreter does not destroy the local predictor on
    return, the file system is the same after the call as before it: the
    profile is not at [shape_range_info_path] when the calibrator returns. *)
Theorem profile_written_only_by_finalizer model_file model_params gpu_id path ods data w :
  reference_counting rt = false →
  fs (_collect_trt_shape_range_info one cast rt model_file model_params gpu_id path
        ods data w).2 = fs w.
Proof.
  intros Hrc.
  destruct (collect_outcome one cast rt model_file model_params gpu_id path ods data w)
    as (evs & _ & _ & [(_ & Hfs & _)|(_ & Hfs & _)]).
  - by rewrite Hrc in Hfs.
  - done.
Qed.

(** C7 (amended): on a device other than gpu no construction ever sets up
    TensorRT; and when the model files are found, the model is not
    [LaTeX_OCR_rec] and the run mode starts with [trt], construction fails
    on the assertion [device_type == "gpu"], having done nothing but log. *)
Theorem trt_on_non_gpu_is_rejected md prefix o w :
  device_type o ≠ "gpu" →
  (∃ evs, trace (StaticInfer__init__ one cast rt md prefix o w).2 = trace w ++ evs ∧
          Forall (λ ev, is_trt_event ev = false) evs) ∧
  (is_Some (dict_get "paddle" (get_model_paths rt md prefix)) →
   model_name o ≠ "LaTeX_OCR_rec" →
   String.prefix "trt" (run_mode o) = true →
   ∃ w' evs,
     StaticInfer__init__ one cast rt md prefix o w = (Raise AssertionError, w') ∧
     fs w' = fs w ∧ trace w' = trace w ++ evs ∧ Forall (λ ev, is_log ev = true) evs).
Proof.
  intros Hgpu. destruct (dict_get "paddle" (get_model_paths rt md prefix))
    as [[mf pf]|] eqn:Hpaths.
  - destruct (init_outcome one cast rt md prefix o w mf pf Hpaths)
      as (evs & r & w' & Hinit & Htr & _ & _ & Hrm & _ & _ & Hne).
    destruct (Hne Hgpu) as [Hclean Hassert]. rewrite Hinit. split; [by exists evs|].
    intros _ Hname Htrt. rewrite decide_False in Hrm by done. rewrite Hrm in Hassert.
    destruct (Hassert Htrt) as (-> & Hlog & Hfs). by exists w', evs.
  - rewrite (init_no_model one cast rt md prefix o w Hpaths). split.
    + exists []. simpl. by rewrite app_nil_r.
    + by intros [? ?].
Qed.

(** The last event of a list that begins with log records only, when it is
    not one of them, belongs to what follows them. *)
Lemma last_event_in_suffix (pre post evs0 : list (event scalar)) ev :
  pre ++ post = evs0 ++ [ev] → is_log ev = false →
  Forall (λ ev, is_log ev = true) pre →
  ∃ mid, post = mid ++ [ev].
Proof.
  intros Heq Hev Hpre. destruct post as [|x post _] using rev_ind.
  - rewrite app_nil_r in Heq. subst pre.
    apply Forall_app in Hpre as [_ Hlast]. inversion Hlast as [|?? Hl _]; subst.
    rewrite Hev in Hl. discriminate Hl.
  - rewrite app_assoc in Heq. apply app_inj_tail in Heq as [_ ->]. by exists post.
Qed.

(** C8: for every constructed facade, an unset [device_id] on gpu or dcu
    is set to 0 exactly once, and that before any predictor is created: the
    assignment lies among the log records that open construction, no later
    event repeats it, and the creation of the facade's predictor, with a
    configuration that enables the device with id 0, is the last event. A
    [device_id] that was set is left as it is, and no call of the facade
    touches the option object. *)
Theorem device_id_defaulted_once md prefix o w fac w' :
  StaticInfer__init__ one cast rt md prefix o w = (Ok fac, w') →
  (device_type o ∈ ["gpu"; "dcu"] → device_id o = None →
   device_id (option_obj w') = Some 0 ∧
   ∃ pre mid,
     trace w' = trace w ++ pre ++ mid ++ [EvCreatePredictor (pid (predictor fac))
                                            (p_config (predictor fac))] ∧
     Forall (λ ev, is_log ev = true) pre ∧
     length (filter (λ ev, is_device_id_set ev) pre) = 1 ∧
     Forall (λ ev, is_device_id_set ev = false) mid ∧
     enable_use_gpu 100 (Some 0) ∈ cfg_calls (p_config (predictor fac))) ∧
  (∀ d, device_id o = Some d →
        device_id (option_obj w') = Some d ∧
        ∃ evs, trace w' = trace w ++ evs ∧ filter (λ ev, is_device_id_set ev) evs = []) ∧
  (∀ x w1,
     option_obj (StaticInfer__call__ rt fac x w1).2 = option_obj w1 ∧
     ∃ evs, trace (StaticInfer__call__ rt fac x w1).2 = trace w1 ++ evs ∧
            filter (λ ev, is_device_id_set ev) evs = []).
Proof.
  intros Hinit.
  destruct (dict_get "paddle" (get_model_paths rt md prefix)) as [[mf pf]|] eqn:Hpaths;
    [|by rewrite (init_no_model one cast rt md prefix o w Hpaths) in Hinit].
  destruct (init_outcome one cast rt md prefix o w mf pf Hpaths)
    as (evs & r & w2 & Hinit' & Htr & Hdt & Hid & _ & Hord & Hok & _).
  rewrite Hinit in Hinit'. injection Hinit' as <- <-.
  destruct Hord as (pre & post & Hevs & Hlog & Hcnt & Hquiet).
  destruct (Hok fac eq_refl) as (evs0 & Hlast & Huse).
  split; [|split].
  - intros Hdev Hnone.
    assert (Hd : defaults_device_id o = true).
    { unfold defaults_device_id. rewrite Hnone.
      by rewrite !bool_decide_eq_true_2. }
    rewrite Hd in Hid, Hcnt. split; [done|].
    destruct (last_event_in_suffix pre post evs0
                (EvCreatePredictor (pid (predictor fac)) (p_config (predictor fac))))
      as (mid & ->); [by rewrite <-Hevs|done|done|].
    exists pre, mid. split; [by rewrite Htr, Hevs|]. split; [done|]. split; [done|].
    split; [by apply Forall_app in Hquiet as [? _]|]. rewrite <-Hid. by apply Huse.
  - intros d Hd.
    assert (Hdef : defaults_device_id o = false).
    { unfold defaults_device_id. rewrite Hd.
      rewrite (bool_decide_eq_false_2 (Some d = None)) by done. apply andb_false_r. }
    rewrite Hdef in Hid, Hcnt. split; [congruence|].
    exists evs. split; [done|]. rewrite Hevs, filter_app.
    apply length_zero_iff_nil in Hcnt. rewrite Hcnt.
    by rewrite (filter_nil_Forall _ post).
  - intros x w1. destruct (call_appends rt fac x w1) as (evs1 & Ht & Ho & Hq).
    split; [done|]. exists evs1. split; [done|]. by apply filter_nil_Forall.
Qed.

End Claims.

(** ** Calibration runs that fail *)

Section CalibrationFailures.
Context {scalar : Type}.
Variable one : np_dtype → scalar.
Variable cast : np_dtype → scalar → result scalar.
Variable rt : runtime scalar.

Implicit Types (w : world scalar) (ev : event scalar) (evs : list (event scalar)).

(** X5: sample data for a name the model does not declare is rejected by the
    third name check, once the keys of [dynamic_shapes] have passed the
    first two, and before anything is fed. *)
Theorem sample_data_names_must_be_inputs model_file model_params gpu_id path ds data w :
  let names := input_names (load_model rt model_file model_params) in
  let created :=
    EvCreatePredictor (length (filter (λ ev, is_create ev) (trace w)))
      (calibration_config model_file model_params gpu_id path) in
  (∀ name, name ∈ dict_keys ds ↔ name ∈ names) →
  ¬ Forall (λ name, name ∈ names) (dict_keys data) →
  ∃ name, name ∈ dict_keys data ∧ (name ∉ names) ∧
    _collect_trt_shape_range_info one cast rt model_file model_params gpu_id path
      (Some ds) (Some data) w
    = (Raise (ValueError (InvalidInputName name "dynamic_shape_input_data")),
       add_events [created] w).
Proof.
  intros names created Hiff Hbad.
  unfold _collect_trt_shape_range_info.
  fold (calibration_config model_file model_params gpu_id path).
  rewrite (bind_Ok _ _ _ _ _ (create_predictor_run _ w)).
  fold created.
  set (p := {| pid := _; p_config := _ |}).
  change (get_input_names rt p) with names.
  change (default [] (Some data)) with data.
  cbn [iterable]. rewrite bind_unfold. cbn [mret M_ret]. cbn beta iota.
  rewrite bind_unfold, for_check_pass by (apply Forall_forall; intros ?; apply Hiff).
  cbn beta iota.
  rewrite bind_unfold, for_check_pass by (apply Forall_forall; intros ?; apply Hiff).
  cbn beta iota.
  destruct (for_check_fail names (dict_keys data)
              (λ name, ValueError (InvalidInputName name "dynamic_shape_input_data"))
              (add_events [created] w) Hbad) as (name & Hin & Hnot & Hrun).
  exists name. split; [done|]. split; [done|].
  rewrite bind_unfold, Hrun. done.
Qed.






(** X26: sample data are converted before anything is fed: a number in the
    min sample of the first input of [dynamic_shapes] that numpy cannot
    convert to the element type of the input, the numbers before it being
    convertible, ends the run with the exception of that conversion, once
    the names have passed the checks; the predictor was created and
    nothing was fed or run. *)
Theorem calibration_stops_at_unconvertible_sample
    model_file model_params (gpu_id : nat) path ds data name shapes rest sample t pre x post e
    w :
  let m := load_model rt model_file model_params in
  let created :=
    EvCreatePredictor (length (filter (λ ev, is_create ev) (trace w)))
      (calibration_config model_file model_params (Some gpu_id) path) in
  (∀ name, name ∈ dict_keys ds ↔ name ∈ input_names m) →
  (∀ name, name ∈ dict_keys (default [] data) → name ∈ input_names m) →
  ds = (name, shapes) :: rest →
  dict_get name (default [] data) = Some sample →
  _pd_dtype_to_np_dtype (input_type m name) = Ok t →
  sample.1.1 = pre ++ x :: post →
  (∀ y, y ∈ pre → ∃ z, cast t y = Ok z) →
  cast t x = Raise e →
  _collect_trt_shape_range_info one cast rt model_file model_params (Some gpu_id) path
    (Some ds) data w
  = (Raise e, add_events [created] w).
Proof.
  intros m created Hiff Hdata Hds Hsample Ht Hmin Hpre Hx.
  unfold _collect_trt_shape_range_info.
  fold (calibration_config model_file model_params (Some gpu_id) path).
  rewrite (bind_Ok _ _ _ _ _ (create_predictor_run _ w)).
  fold created.
  set (p := {| pid := _; p_config := _ |}).
  change (get_input_names rt p) with (input_names m).
  cbn [iterable]. rewrite bind_unfold. cbn [mret M_ret]. cbn beta iota.
  rewrite bind_unfold, for_check_pass by (apply Forall_forall; intros ?; apply Hiff).
  cbn beta iota.
  rewrite bind_unfold, for_check_pass by (apply Forall_forall; intros ?; apply Hiff).
  cbn beta iota.
  rewrite bind_unfold, for_check_pass by (apply Forall_forall; intros ?; apply Hdata).
  cbn beta iota.
  rewrite bind_unfold. unfold candidate_arrays. rewrite Hds.
  destruct shapes as [[s0 s1] s2]. destruct sample as [[d0 d1] d2]. cbn [fst] in Hmin.
  cbn [for_acc]. rewrite bind_unfold, bind_unfold.
  unfold handle_type, get_input_handle. cbn [h_predictor h_name].
  change (model_of rt p) with m. rewrite Ht. cbn [lift]. cbn beta iota.
  lazymatch goal with
  | |- context [match ?d with Some _ => _ | None => _ end (add_events [created] w)] =>
      change d with (dict_get name (default [] data)); rewrite Hsample
  end.
  rewrite bind_unfold.
  by rewrite (np_array_reshape_raises cast d0 t s0 pre x post e Hmin Hpre Hx).
Qed.

End CalibrationFailures.

(** ** [_set_trt_config] and [_convert_trt] *)

Section Conversion.
Context {scalar : Type}.
Variable one : np_dtype → scalar.
Variable cast : np_dtype → scalar → result scalar.
Variable rt : runtime scalar.

Implicit Types (w : world scalar) (ev : event scalar) (evs : list (event scalar)).

Lemma dict_get_cons {V} k k' (v : V) d :
  dict_get k ((k', v) :: d) = if decide (k' = k) then Some v else dict_get k d.
Proof.
  unfold dict_get. cbn [list_find]. simpl. destruct (decide (k' = k)); [done|].
  by destruct (list_find _ d) as [[??]|].
Qed.

Lemma dict_get_set_eq {V} k (v : V) d : dict_get k (dict_set k v d) = Some v.
Proof.
  induction d as [|[k' v'] d IH]; simpl.
  - rewrite dict_get_cons. by rewrite decide_True.
  - destruct (decide (k' = k)) as [->|Hne]; rewrite dict_get_cons.
    + by rewrite decide_True.
    + by rewrite decide_False.
Qed.

Lemma dict_get_set_ne {V} k k' (v : V) d :
  k ≠ k' → dict_get k (dict_set k' v d) = dict_get k d.
Proof.
  intros Hne. induction d as [|[k'' v''] d IH]; simpl.
  - rewrite dict_get_cons. by rewrite decide_False.
  - destruct (decide (k'' = k')) as [->|Hne']; rewrite !dict_get_cons.
    + by rewrite !decide_False.
    + destruct (decide (k'' = k)); [done|apply IH].
Qed.

Lemma dict_get_is_Some {V} k (d : dict V) : k ∈ dict_keys d → is_Some (dict_get k d).
Proof.
  induction d as [|[k' v'] d IH]; intros Hin.
  - by apply elem_of_nil in Hin.
  - rewrite dict_get_cons. destruct (decide (k' = k)); [eauto|].
    apply IH. apply elem_of_cons in Hin as [Heq|Hin]; [|done]. simpl in Heq. congruence.
Qed.

Lemma dict_get_absent {V} k (d : dict V) : k ∉ dict_keys d → dict_get k d = None.
Proof.
  induction d as [|[k' v'] d IH]; intros Hin; [done|].
  rewrite dict_get_cons. rewrite decide_False.
  - apply IH. intros Hin'. apply Hin. by apply list_elem_of_further.
  - intros ->. apply Hin. apply list_elem_of_here.
Qed.

Lemma logging_run l msg w : logging l msg w = (Ok (), add_events [EvLog l msg] w).
Proof. done. Qed.

(** ** [_set_trt_config] *)

Lemma set_trt_config_loop (settings : dict setting) c w :
  NoDup (dict_keys settings) →
  (∀ k, k ∈ dict_keys settings → k ∉ dict_keys (trt_attrs c)) →
  for_acc settings (λ '(attr_name, value) trt_config,
    (if hasattr_trt_config rt trt_config attr_name then mret ()
     else logging WARNING (MsgTensorRTConfigLacks attr_name));;
    mret (setattr attr_name value trt_config)) c w
  = (Ok {| trt_inputs := trt_inputs c; trt_attrs := trt_attrs c ++ settings |},
     add_events ((λ k, EvLog WARNING (MsgTensorRTConfigLacks k))
                   <$> filter (λ k, k ∉ TensorRTConfig_attrs rt) (dict_keys settings)) w).
Proof.
  revert c w. induction settings as [|[k v] settings IH]; intros c w Hnd Hfresh.
  { simpl. rewrite app_nil_r, add_events_nil. by destruct c. }
  apply NoDup_cons in Hnd as [Hk Hnd]. cbn [for_acc].
  assert (Hkc : k ∉ dict_keys (trt_attrs c)).
  { apply Hfresh. apply list_elem_of_here. }
  assert (Hset : setattr k v c
                 = {| trt_inputs := trt_inputs c; trt_attrs := trt_attrs c ++ [(k, v)] |}).
  { unfold setattr. by rewrite dict_set_fresh. }
  rewrite bind_unfold.
  assert (Hhas : hasattr_trt_config rt c k = bool_decide (k ∈ TensorRTConfig_attrs rt)).
  { unfold hasattr_trt_config. apply bool_decide_ext. rewrite elem_of_app. tauto. }
  rewrite Hhas. cbn [dict_keys fmap list_fmap fst].
  destruct (decide (k ∈ TensorRTConfig_attrs rt)) as [Hin|Hin].
  - rewrite bool_decide_eq_true_2 by done.
    rewrite filter_cons_False by (intros H; by apply H).
    rewrite bind_unfold. cbn [mret M_ret]. cbn beta iota.
    rewrite Hset, IH; [|done|].
    + cbn [trt_inputs trt_attrs]. by rewrite <-app_assoc.
    + intros k' Hk'. cbn [trt_attrs]. unfold dict_keys. rewrite fmap_app, elem_of_app.
      intros [Hin'|Hin'].
      * by apply (Hfresh k'); [apply list_elem_of_further|].
      * apply list_elem_of_singleton in Hin'. simpl in Hin'. subst k'. by apply Hk.
  - rewrite bool_decide_eq_false_2 by done.
    rewrite filter_cons_True by done.
    rewrite bind_unfold, logging_run. cbn [mret M_ret]. cbn beta iota.
    rewrite Hset, IH; [|done|].
    + cbn [trt_inputs trt_attrs]. rewrite <-app_assoc, add_events_app. done.
    + intros k' Hk'. cbn [trt_attrs]. unfold dict_keys. rewrite fmap_app, elem_of_app.
      intros [Hin'|Hin'].
      * by apply (Hfresh k'); [apply list_elem_of_further|].
      * apply list_elem_of_singleton in Hin'. simpl in Hin'. subst k'. by apply Hk.
Qed.

(** X7: every setting [TRT_CFG] holds for the model is assigned to the
    configuration, in the order of the settings, whether the class knows
    the attribute or not; a warning is logged for exactly the attributes it
    does not know. *)
Theorem trt_settings_applied_with_warnings model_name settings c w :
  dict_get model_name (TRT_CFG rt) = Some settings →
  NoDup (dict_keys settings) →
  (∀ k, k ∈ dict_keys settings → k ∉ dict_keys (trt_attrs c)) →
  _set_trt_config rt model_name c w
  = (Ok {| trt_inputs := trt_inputs c; trt_attrs := trt_attrs c ++ settings |},
     add_events ((λ k, EvLog WARNING (MsgTensorRTConfigLacks k))
                   <$> filter (λ k, k ∉ TensorRTConfig_attrs rt) (dict_keys settings)) w).
Proof.
  intros Hget Hnd Hfresh. unfold _set_trt_config. rewrite Hget.
  by apply set_trt_config_loop.
Qed.

Lemma set_trt_config_run model_name c w :
  ∃ c' logs, _set_trt_config rt model_name c w = (Ok c', add_events logs w) ∧
             Forall (λ ev, is_log ev = true) logs ∧ trt_inputs c' = trt_inputs c.
Proof.
  unfold _set_trt_config. destruct (dict_get model_name (TRT_CFG rt)) as [settings|].
  - revert c w. induction settings as [|[k v] settings IH]; intros c w.
    + exists c, []. by rewrite add_events_nil.
    + cbn [for_acc]. rewrite bind_unfold.
      destruct (IH (setattr k v c) w) as (c1 & l1 & H1 & Hl1 & Hi1).
      destruct (IH (setattr k v c) (add_events [EvLog WARNING (MsgTensorRTConfigLacks k)] w))
        as (c2 & l2 & H2 & Hl2 & Hi2).
      destruct (hasattr_trt_config rt c k).
      * rewrite bind_unfold. cbn [mret M_ret]. cbn beta iota. eauto.
      * rewrite bind_unfold, logging_run. cbn [mret M_ret].
        cbn beta iota. rewrite H2, add_events_app.
        eexists _, _. split; [done|]. split; [|done]. by constructor.
  - exists c, []. by rewrite add_events_nil.
Qed.

(** ** [_convert_trt] *)

Lemma trt_inputs_loop (names : list string) (ds : dict shape_triple) acc w :
  Forall (λ name, name ∈ dict_keys ds) names →
  ∃ inputs,
    for_acc names (λ name trt_inputs,
      trt_input ← dict_getitem name ds;
      mret (trt_inputs ++ [trt_input])) acc w = (Ok (acc ++ inputs), w) ∧
    Forall2 (λ name t, dict_get name ds = Some t) names inputs.
Proof.
  intros Hin. revert acc. induction Hin as [|name names Hname _ IH]; intros acc.
  { exists []. simpl. by rewrite app_nil_r. }
  destruct (dict_get_is_Some name ds Hname) as [t Ht].
  destruct (IH (acc ++ [t])) as (inputs & Hrun & Hall).
  exists (t :: inputs). split; [|by constructor].
  cbn [for_acc]. rewrite bind_unfold. unfold dict_getitem at 1. rewrite Ht.
  rewrite bind_unfold. cbn [mret M_ret]. cbn beta iota.
  rewrite Hrun. by rewrite <-app_assoc.
Qed.


Lemma convert_trt_run model_name mode pp_model_file pp_params_file trt_save_path ds w :
  let names := input_names (load_model rt pp_model_file pp_params_file) in
  (∀ name, name ∈ dict_keys ds ↔ name ∈ names) →
  ∃ w1 evs1 inputs c logs,
    fs w1 = fs w ∧ option_obj w1 = option_obj w ∧ trace w1 = trace w ++ evs1 ∧
    Forall (λ ev, feeds_or_compiles ev = false) evs1 ∧
    Forall2 (λ name t, dict_get name ds = Some t) names inputs ∧
    _set_trt_config rt model_name {| trt_inputs := inputs; trt_attrs := [] |} w1
    = (Ok c, add_events logs w1) ∧
    Forall (λ ev, is_log ev = true) logs ∧ trt_inputs c = inputs ∧
    _convert_trt rt model_name mode pp_model_file pp_params_file trt_save_path (Some ds) w =
    match dict_get mode precision_map with
    | Some pm =>
        match with_suffix pp_model_file "" with
        | Ok model_path =>
            convert rt model_path
              (setattr "save_model_dir" (SPath trt_save_path)
                 (setattr "precision_mode" (SPrecisionMode pm) c))
              (add_events logs w1)
        | Raise e => (Raise e, add_events logs w1)
        end
    | None => (Raise (KeyError mode), add_events logs w1)
    end.
Proof.
  intros names Hiff.
  destruct (get_input_names_run rt pp_model_file pp_params_file w)
    as (w1 & evs1 & Hnames & Hfs & Hopt & Htr & Hq).
  fold names in Hnames.
  destruct (trt_inputs_loop names ds [] w1) as (inputs & Hinputs & Hall).
  { apply Forall_forall. intros name. apply Hiff. }
  destruct (set_trt_config_run model_name {| trt_inputs := inputs; trt_attrs := [] |} w1)
    as (c & logs & Hset & Hlogs & Hc).
  exists w1, evs1, inputs, c, logs.
  do 7 (split; [done|]). split; [done|].
  unfold _convert_trt. rewrite (bind_Ok _ _ _ _ _ Hnames).
  cbn [iterable]. rewrite bind_unfold. cbn [mret M_ret]. cbn beta iota.
  rewrite bind_unfold, for_check_pass by (apply Forall_forall; intros ?; apply Hiff).
  cbn beta iota.
  rewrite bind_unfold, for_check_pass by (apply Forall_forall; intros ?; apply Hiff).
  cbn beta iota.
  rewrite (bind_Ok _ _ _ _ _ Hinputs). cbn [app].
  rewrite (bind_Ok _ _ _ _ _ Hset).
  rewrite bind_unfold. fold precision_map. unfold dict_getitem.
  destruct (dict_get mode precision_map) as [pm|]; [|done].
  cbn [mret M_ret]. cbn beta iota. rewrite bind_unfold. unfold lift.
  by destruct (with_suffix pp_model_file "").
Qed.

(** X8: with matching names, a known mode and a model file that has a name,
    [_convert_trt] hands [convert] one [Input] per declared input, in the
    declared order and not in the order of the dictionary;
    [precision_mode] and [save_model_dir] are assigned after the settings
    of [TRT_CFG], which cannot override them; the model path is the model
    file without its suffix. The conversion is the last thing that
    happens, and the files it saves are the only change to the file
    system. *)
Theorem convert_trt_hands_over_declared_inputs
    model_name mode pm pp_model_file pp_params_file trt_save_path ds model_path w :
  let names := input_names (load_model rt pp_model_file pp_params_file) in
  (∀ name, name ∈ dict_keys ds ↔ name ∈ names) →
  (mode, pm) ∈ [("trt_int8", PM_INT8); ("trt_fp32", PM_FP32); ("trt_fp16", PM_FP16)] →
  with_suffix pp_model_file "" = Ok model_path →
  ∃ w' evs trt_config,
    _convert_trt rt model_name mode pp_model_file pp_params_file trt_save_path (Some ds) w
    = (Ok (), w') ∧
    fs w' = with_files (converted_files rt model_path trt_config) (fs w) ∧
    option_obj w' = option_obj w ∧
    trace w' = trace w ++ evs ++ [EvConvert model_path trt_config] ∧
    Forall (λ ev, feeds_or_compiles ev = false) evs ∧
    Forall2 (λ name t, dict_get name ds = Some t) names (trt_inputs trt_config) ∧
    dict_get "precision_mode" (trt_attrs trt_config) = Some (SPrecisionMode pm) ∧
    dict_get "save_model_dir" (trt_attrs trt_config) = Some (SPath trt_save_path).
Proof.
  intros names Hiff Hmode Hpath.
  destruct (convert_trt_run model_name mode pp_model_file pp_params_file trt_save_path ds w
              Hiff) as (w1 & evs1 & inputs & c & logs & Hfs & Hopt & Htr & Hq & Hall & _
                        & Hlogs & Hc & Hrun).
  assert (Hpm : dict_get mode precision_map = Some pm).
  { repeat (apply elem_of_cons in Hmode as [[= -> ->]|Hmode]; [done|]).
    by apply elem_of_nil in Hmode. }
  rewrite Hpm, Hpath in Hrun. unfold convert in Hrun.
  eexists _, (evs1 ++ logs),
    (setattr "save_model_dir" (SPath trt_save_path)
       (setattr "precision_mode" (SPrecisionMode pm) c)).
  split; [exact Hrun|].
  cbn [fs option_obj trace add_events trt_inputs setattr trt_attrs].
  split; [by rewrite Hfs|]. split; [done|].
  split; [by rewrite Htr, <-!app_assoc|].
  split.
  { apply Forall_app. split; [done|].
    eapply Forall_impl; [exact Hlogs|]. by intros [] ?. }
  split; [by rewrite Hc|].
  split; [|apply dict_get_set_eq].
  rewrite dict_get_set_ne by done. apply dict_get_set_eq.
Qed.

End Conversion.

(** ** The other routes of [_configure_trt] *)

Section ConfigureTrt.
Context {scalar : Type}.
Variable one : np_dtype → scalar.
Variable cast : np_dtype → scalar → result scalar.
Variable rt : runtime scalar.

Implicit Types (w : world scalar) (ev : event scalar) (evs : list (event scalar)).

Lemma lookup_table {V} (table : dict V) k v :
  NoDup (dict_keys table) → (k, v) ∈ table → dict_get k table = Some v.
Proof.
  induction table as [|[k' v'] table IH]; intros Hnd Hin.
  - by apply elem_of_nil in Hin.
  - apply NoDup_cons in Hnd as [Hk' Hnd]. rewrite dict_get_cons.
    apply elem_of_cons in Hin as [[= -> ->]|Hin]; [by rewrite decide_True|].
    rewrite decide_False; [by apply IH|].
    intros ->. apply Hk'. apply list_elem_of_fmap. by exists (k, v).
Qed.

Lemma PRECISION_MAP_lookup mode precision :
  (mode, precision) ∈ PRECISION_MAP → dict_get mode PRECISION_MAP = Some precision.
Proof.
  apply lookup_table. apply (bool_decide_unpack _). by vm_compute.
Qed.

Lemma precision_map_lookup mode pm :
  (mode, pm) ∈ precision_map → dict_get mode precision_map = Some pm.
Proof.
  apply lookup_table. apply (bool_decide_unpack _). by vm_compute.
Qed.

Lemma PRECISION_MAP_unknown mode :
  mode ∉ ["trt_int8"; "trt_fp32"; "trt_fp16"] → dict_get mode PRECISION_MAP = None.
Proof. intros Hmode. by apply dict_get_absent. Qed.

Lemma precision_map_unknown mode :
  mode ∉ ["trt_int8"; "trt_fp32"; "trt_fp16"] → dict_get mode precision_map = None.
Proof. intros Hmode. by apply dict_get_absent. Qed.

(** ** The route with explicit dynamic shapes *)

Lemma take_snoc_length {A} (pre : list A) x l : take (S (length pre)) (pre ++ x :: l) = pre ++ [x].
Proof.
  rewrite (cons_middle x pre l), app_assoc.
  rewrite take_app_length'; [done|]. rewrite length_app. simpl. lia.
Qed.

Lemma dynamic_shape_loop (all ds pre : dict shape_triple) config w :
  all = pre ++ ds →
  NoDup (dict_keys all) →
  ∃ config',
    for_acc ds
      (λ '(key, shapes) '(min_shapes, opt_shapes, max_shapes, config),
         let min_shapes := dict_set key shapes.1.1 min_shapes in
         let opt_shapes := dict_set key shapes.1.2 opt_shapes in
         let max_shapes := dict_set key shapes.2 max_shapes in
         mret (min_shapes, opt_shapes, max_shapes,
               call (set_trt_dynamic_shape_info min_shapes max_shapes opt_shapes) config))
      (min_shapes pre, opt_shapes pre, max_shapes pre, config) w
    = (Ok (min_shapes all, opt_shapes all, max_shapes all, config'), w) ∧
    cfg_model_file config' = cfg_model_file config ∧
    cfg_params_file config' = cfg_params_file config ∧
    cfg_calls config'
    = cfg_calls config ++
      ((λ k, set_trt_dynamic_shape_info (min_shapes (take k all))
               (max_shapes (take k all)) (opt_shapes (take k all)))
         <$> seq (S (length pre)) (length ds)).
Proof.
  revert pre config. induction ds as [|[key shapes] ds IH]; intros pre config Hall Hnd.
  { exists config. rewrite app_nil_r in Hall. subst all. simpl. by rewrite !app_nil_r. }
  assert (Hfresh : key ∉ dict_keys pre).
  { subst all. unfold dict_keys in Hnd. rewrite fmap_app in Hnd.
    apply NoDup_app in Hnd as (_ & Hdisj & _).
    intros Hin. apply (Hdisj key Hin). apply list_elem_of_here. }
  assert (Hkeys : ∀ f : string * shape_triple → string * shape,
            (∀ kv, (f kv).1 = kv.1) → dict_keys (f <$> pre) = dict_keys pre).
  { intros f Hf. unfold dict_keys. rewrite <-list_fmap_compose. apply list_fmap_ext.
    intros ?? _. apply Hf. }
  destruct (IH (pre ++ [(key, shapes)])
              (call (set_trt_dynamic_shape_info
                       (min_shapes (pre ++ [(key, shapes)]))
                       (max_shapes (pre ++ [(key, shapes)]))
                       (opt_shapes (pre ++ [(key, shapes)]))) config))
    as (config' & Hrun & Hmf & Hpf & Hcalls).
  { by rewrite <-app_assoc. }
  { done. }
  exists config'. split; [|split; [done|split; [done|]]].
  - cbn [for_acc]. rewrite bind_unfold. cbn [mret M_ret]. cbn beta iota zeta.
    unfold min_shapes at 1 2, opt_shapes at 1 2, max_shapes at 1 2.
    rewrite !dict_set_fresh by by rewrite Hkeys.
    rewrite <-Hrun. unfold min_shapes, opt_shapes, max_shapes.
    by rewrite !fmap_app.
  - rewrite Hcalls. cbn [call cfg_calls length seq fmap list_fmap].
    rewrite <-!app_assoc. cbn [app]. subst all. rewrite take_snoc_length.
    rewrite length_app. cbn [length]. rewrite Nat.add_1_r. done.
Qed.

(** X10: on the old route with dynamic shapes given in the option and no
    collection: [set_trt_dynamic_shape_info] is called inside the loop over
    [trt_dynamic_shapes], once per key, each time with the shapes gathered
    so far, in the argument order min, max, opt: the last call carries all
    of them, and an empty dictionary registers nothing. Neither the file
    system nor the trace is touched. Without [trt_dynamic_shapes] the
    function raises [RuntimeError]. *)
Theorem explicit_dynamic_shapes_registered_per_key
    prefix model_file params_file cache_dir precision w :
  let o := option_obj w in
  USE_PIR_TRT rt = false →
  (run_mode o, precision) ∈ [("trt_int8", Int8); ("trt_fp32", Float32); ("trt_fp16", Half)] →
  trt_use_dynamic_shapes o = true →
  trt_collect_shape_range_info o = false →
  match trt_dynamic_shapes o with
  | Some ds =>
      NoDup (dict_keys ds) →
      ∃ config,
        StaticInfer__configure_trt one cast rt prefix model_file params_file cache_dir w
        = (Ok config, w) ∧
        cfg_model_file config = model_file ∧ cfg_params_file config = params_file ∧
        cfg_calls config
        = [set_optim_cache_dir (cache_dir ++ ["optim_cache"]);
           enable_tensorrt_engine (trt_max_workspace_size o) (trt_max_batch_size o)
             (trt_min_subgraph_size o) precision (trt_use_static o) (trt_use_calib_mode o)]
          ++ ((λ k, set_trt_dynamic_shape_info (min_shapes (take k ds))
                      (max_shapes (take k ds)) (opt_shapes (take k ds)))
                <$> seq 1 (length ds))
  | None =>
      StaticInfer__configure_trt one cast rt prefix model_file params_file cache_dir w
      = (Raise (RuntimeError NoDynamicShapeInformation), w)
  end.
Proof.
  intros o Hpir Hmode Hdyn Hcol.
  assert (Hrun : StaticInfer__configure_trt one cast rt prefix model_file params_file
                   cache_dir w
    = match trt_dynamic_shapes o with
      | Some dynamic_shapes =>
          ('(_, _, _, config) ← for_acc dynamic_shapes
              (λ '(key, shapes) '(min_shapes, opt_shapes, max_shapes, config),
                 let min_shapes := dict_set key shapes.1.1 min_shapes in
                 let opt_shapes := dict_set key shapes.1.2 opt_shapes in
                 let max_shapes := dict_set key shapes.2 max_shapes in
                 mret (min_shapes, opt_shapes, max_shapes,
                       call (set_trt_dynamic_shape_info min_shapes max_shapes opt_shapes)
                         config))
              ([], [], [],
               call (enable_tensorrt_engine (trt_max_workspace_size o)
                       (trt_max_batch_size o) (trt_min_subgraph_size o) precision
                       (trt_use_static o) (trt_use_calib_mode o))
                 (call (set_optim_cache_dir (cache_dir ++ ["optim_cache"]))
                    (new_Config model_file params_file)));
           mret config) w
      | None => (Raise (RuntimeError NoDynamicShapeInformation), w)
      end).
  { unfold StaticInfer__configure_trt. rewrite bind_unfold. unfold get_option at 1.
    cbn beta iota. fold o. rewrite Hpir. fold PRECISION_MAP.
    rewrite bind_unfold. unfold dict_getitem. rewrite (PRECISION_MAP_lookup _ _ Hmode).
    cbn [mret M_ret]. cbn beta iota. rewrite Hdyn, Hcol.
    by destruct (trt_dynamic_shapes o). }
  rewrite Hrun. clear Hrun.
  destruct (trt_dynamic_shapes o) as [ds|]; [|done].
  intros Hnd.
  match goal with
  | |- context [for_acc ds _ (_, _, _, ?c)] =>
      destruct (dynamic_shape_loop ds ds [] c w eq_refl Hnd)
        as (config & Hrun & Hmf & Hpf & Hcalls)
  end.
  exists config. split; [|split; [done|split; [done|by rewrite Hcalls]]].
  etransitivity; [apply (bind_Ok _ _ _ _ _ Hrun)|]. done.
Qed.

(** ** Run modes that no table knows *)

(** X11: a run mode that starts with [trt] but is none of [trt_int8], [trt_fp32]
    and [trt_fp16] ends in a [KeyError] from the precision table: on the
    old route at once, on the PIR route after the name checks and before
    any conversion. *)
Theorem unknown_trt_mode_raises_key_error prefix model_file params_file cache_dir w :
  let o := option_obj w in
  run_mode o ∉ ["trt_int8"; "trt_fp32"; "trt_fp16"] →
  (USE_PIR_TRT rt = false →
   StaticInfer__configure_trt one cast rt prefix model_file params_file cache_dir w
   = (Raise (KeyError (run_mode o)), w)) ∧
  (USE_PIR_TRT rt = true →
   ∀ ds, trt_dynamic_shapes o = Some ds →
     (∀ name, name ∈ dict_keys ds ↔
              name ∈ input_names (load_model rt model_file params_file)) →
     ∃ w' evs,
       StaticInfer__configure_trt one cast rt prefix model_file params_file cache_dir w
       = (Raise (KeyError (run_mode o)), w') ∧
       fs w' = fs w ∧ trace w' = trace w ++ evs ∧
       Forall (λ ev, feeds_or_compiles ev = false) evs).
Proof.
  intros o Hmode. split; intros Hpir.
  - unfold StaticInfer__configure_trt. rewrite bind_unfold. unfold get_option at 1.
    cbn beta iota. fold o. rewrite Hpir. fold PRECISION_MAP.
    rewrite bind_unfold. unfold dict_getitem. by rewrite (PRECISION_MAP_unknown _ Hmode).
  - intros ds Hds Hiff.
    destruct (convert_trt_run rt (model_name o) (run_mode o) model_file params_file
                (path_div (cache_dir ++ ["trt"]) prefix) ds w Hiff)
      as (w1 & evs1 & inputs & c & logs & Hfs & Hopt & Htr & Hq & _ & _ & Hlogs & _ & Hrun).
    rewrite (precision_map_unknown _ Hmode) in Hrun.
    unfold StaticInfer__configure_trt. rewrite bind_unfold. unfold get_option at 1.
    cbn beta iota. fold o. rewrite Hpir, Hds.
    rewrite bind_unfold, Hrun.
    eexists _, (evs1 ++ logs). split; [done|]. cbn [fs trace add_events].
    split; [done|]. split; [by rewrite Htr, <-app_assoc|].
    apply Forall_app. split; [done|].
    eapply Forall_impl; [exact Hlogs|]. by intros [] ?.
Qed.

(** ** The PIR route *)

Lemma with_suffix_snoc (p : Path) name suffix :
  with_suffix (p ++ [name]) suffix = Ok (p ++ [name_with_suffix name suffix]).
Proof. unfold with_suffix. by rewrite reverse_snoc, reverse_involutive. Qed.

Lemma name_with_suffix_no_dot name suffix :
  rfind_dot (String.list_ascii_of_string name) = None →
  name_with_suffix name suffix = name +:+ suffix.
Proof.
  intros Hdot. unfold name_with_suffix. rewrite Hdot.
  by rewrite String.string_of_list_ascii_of_string.
Qed.

(** *** Joining a path and a string *)

Lemma split_slash_no_slash s : str_contains "/" s = false → split_slash s = [s].
Proof.
  induction s as [|c s IH]; [done|].
  cbn [str_contains String.prefix]. intros Hs. apply orb_false_iff in Hs as [Hc Hs].
  cbn [split_slash]. rewrite (IH Hs).
  destruct (Ascii.eqb_spec c (Ascii.ascii_of_nat 47)) as [->|Hne]; [|done].
  destruct (Ascii.ascii_dec _ _) as [_|Hc'] in Hc; [by destruct s|by destruct Hc'].
Qed.

Lemma path_div_plain (p : Path) s : plain_name s = true → path_div p s = p ++ [s].
Proof.
  unfold plain_name. rewrite !andb_true_iff, !negb_true_iff.
  intros [[Hslash Hne] Hdot].
  apply bool_decide_eq_false in Hne. apply bool_decide_eq_false in Hdot.
  unfold path_div, path_components. rewrite (split_slash_no_slash _ Hslash).
  rewrite filter_cons_True by done. rewrite filter_nil.
  destruct s as [|c s]; [done|].
  cbn [str_contains] in Hslash. apply orb_false_iff in Hslash as [-> _]. done.
Qed.

Lemma path_div_empty (p : Path) : path_div p "" = p.
Proof. unfold path_div. cbn. by rewrite app_nil_r. Qed.

(** X9: on the PIR route the model is converted into [cache_dir / "trt" /
    prefix] and the configuration returned is a fresh one over the
    converted files, that path with the suffixes [.json] and [.pdiparams]:
    none of the engine parameters of the option reaches it. For a plain
    file name without a dot as prefix the files are [<prefix>.json] and
    [<prefix>.pdiparams] under [cache_dir/trt]; for an empty prefix they
    are [cache_dir/trt.json] and [cache_dir/trt.pdiparams]. The
    conversion is the last event, and the files it saves are the only
    change to the file system. *)
Theorem pir_route_loads_converted_model
    prefix model_file params_file cache_dir pm ds model_path w :
  let o := option_obj w in
  let trt_save_path := path_div (cache_dir ++ ["trt"]) prefix in
  USE_PIR_TRT rt = true →
  (run_mode o, pm) ∈ [("trt_int8", PM_INT8); ("trt_fp32", PM_FP32); ("trt_fp16", PM_FP16)] →
  trt_dynamic_shapes o = Some ds →
  (∀ name, name ∈ dict_keys ds ↔ name ∈ input_names (load_model rt model_file params_file)) →
  with_suffix model_file "" = Ok model_path →
  ∃ r w' evs trt_config,
    StaticInfer__configure_trt one cast rt prefix model_file params_file cache_dir w
    = (r, w') ∧
    r = result_bind (with_suffix trt_save_path ".json") (λ converted_model,
        result_bind (with_suffix trt_save_path ".pdiparams") (λ converted_params,
        Ok (new_Config converted_model converted_params))) ∧
    (plain_name prefix = true → rfind_dot (String.list_ascii_of_string prefix) = None →
     r = Ok (new_Config (cache_dir ++ ["trt"; prefix +:+ ".json"])
               (cache_dir ++ ["trt"; prefix +:+ ".pdiparams"]))) ∧
    (prefix = "" →
     r = Ok (new_Config (cache_dir ++ ["trt.json"]) (cache_dir ++ ["trt.pdiparams"]))) ∧
    fs w' = with_files (converted_files rt model_path trt_config) (fs w) ∧
    option_obj w' = option_obj w ∧
    trace w' = trace w ++ evs ++ [EvConvert model_path trt_config] ∧
    Forall (λ ev, feeds_or_compiles ev = false) evs ∧
    dict_get "precision_mode" (trt_attrs trt_config) = Some (SPrecisionMode pm) ∧
    dict_get "save_model_dir" (trt_attrs trt_config) = Some (SPath trt_save_path).
Proof.
  intros o trt_save_path Hpir Hmode Hds Hiff Hpath.
  destruct (convert_trt_run rt (model_name o) (run_mode o) model_file params_file
              trt_save_path ds w Hiff)
    as (w1 & evs1 & inputs & c & logs & Hfs & Hopt & Htr & Hq & _ & _ & Hlogs & _ & Hrun).
  rewrite (precision_map_lookup _ _ Hmode), Hpath in Hrun. unfold convert in Hrun.
  unfold StaticInfer__configure_trt. rewrite bind_unfold. unfold get_option at 1.
  cbn beta iota. fold o. rewrite Hpir, Hds. fold trt_save_path.
  rewrite bind_unfold, Hrun.
  eexists _, _, (evs1 ++ logs),
    (setattr "save_model_dir" (SPath trt_save_path)
       (setattr "precision_mode" (SPrecisionMode pm) c)).
  split; [apply surjective_pairing|].
  assert (Hr : ∀ w2, ((model_file ← lift (with_suffix trt_save_path ".json");
                       params_file ← lift (with_suffix trt_save_path ".pdiparams");
                       mret (new_Config model_file params_file)) : M scalar Config) w2
               = (result_bind (with_suffix trt_save_path ".json") (λ converted_model,
                  result_bind (with_suffix trt_save_path ".pdiparams") (λ converted_params,
                  Ok (new_Config converted_model converted_params))), w2)).
  { intros w2. rewrite bind_unfold. unfold lift at 1.
    destruct (with_suffix trt_save_path ".json") as [mf|e]; [|done].
    rewrite bind_unfold. unfold lift at 1.
    by destruct (with_suffix trt_save_path ".pdiparams"). }
  rewrite Hr. cbn [fst snd].
  split; [done|]. split.
  { intros Hplain Hdot. unfold trt_save_path.
    rewrite (path_div_plain _ _ Hplain), !with_suffix_snoc. cbn [result_bind].
    rewrite !name_with_suffix_no_dot by done. by rewrite <-!app_assoc. }
  split.
  { intros ->. unfold trt_save_path. rewrite path_div_empty, !with_suffix_snoc. done. }
  cbn [fs option_obj trace add_events setattr trt_attrs].
  split; [by rewrite Hfs|]. split; [done|].
  split; [by rewrite Htr, <-!app_assoc|].
  split.
  { apply Forall_app. split; [done|].
    eapply Forall_impl; [exact Hlogs|]. by intros [] ?. }
  split; [|apply dict_get_set_eq].
  rewrite dict_get_set_ne by done. apply dict_get_set_eq.
Qed.

End ConfigureTrt.

(** ** [_create], block by block *)

Section CreateSteps.
Context {scalar : Type}.
Variable one : np_dtype → scalar.
Variable cast : np_dtype → scalar → result scalar.
Variable rt : runtime scalar.

Implicit Types (w : world scalar) (ev : event scalar) (evs : list (event scalar)).
Implicit Types (o : PaddlePredictorOption scalar).

(** *** Configurations as lists of calls *)

Lemma call_with_calls c config : call c config = with_calls config [c].
Proof. done. Qed.

Lemma with_calls_app config l1 l2 :
  with_calls (with_calls config l1) l2 = with_calls config (l1 ++ l2).
Proof. unfold with_calls. simpl. by rewrite app_assoc. Qed.

Lemma with_calls_nil config : with_calls config [] = config.
Proof. destruct config. unfold with_calls. simpl. by rewrite app_nil_r. Qed.

Lemma call_if_present_with_calls name c config :
  call_if_present rt name c config
  = with_calls config (if hasattr_config rt name then [c] else []).
Proof.
  unfold call_if_present. destruct (hasattr_config rt name); [done|].
  by rewrite with_calls_nil.
Qed.

Lemma finish_config_with_calls o config :
  finish_config rt o config
  = with_calls config
      ([enable_memory_optim] ++ (delete_pass <$> opt_delete_pass o)
       ++ (if DEBUG rt then [] else [disable_glog_info])).
Proof.
  unfold finish_config.
  assert (Hfold : ∀ passes c,
            foldl (λ config del_p, call (delete_pass del_p) config) c passes
            = with_calls c (delete_pass <$> passes)).
  { induction passes as [|p passes IH]; intros c.
    - symmetry. apply with_calls_nil.
    - cbn [foldl fmap list_fmap]. by rewrite IH, call_with_calls, with_calls_app. }
  rewrite Hfold.
  destruct (DEBUG rt); cbn [negb]; rewrite !call_with_calls, !with_calls_app.
  - by rewrite app_nil_r.
  - by rewrite <-?app_assoc.
Qed.

(** *** The first block of [_create] *)

Ltac run_option_steps :=
  unfold logging, emit, put_option, get_option;
  repeat (rewrite bind_unfold;
          cbn [mret M_ret option_obj fs trace set_run_mode set_device_id device_type
               device_id model_name run_mode]);
  cbn [mret M_ret option_obj fs trace set_run_mode set_device_id device_type device_id
       model_name run_mode].

Lemma normalize_option_normalized w :
  ∃ logs,
    normalize_option rt w
    = (Ok (), {| fs := fs w; trace := trace w ++ logs;
                 option_obj := normalized (option_obj w) |}) ∧
    Forall (λ ev, is_log ev = true) logs.
Proof.
  set (o := option_obj w). assert (Ho : option_obj w = o) by done. clearbody o.
  unfold normalize_option, normalized, defaults_device_id.
  rewrite bind_unfold. unfold get_option at 1. cbn beta iota. rewrite Ho.
  destruct (decide (model_name o = "LaTeX_OCR_rec")) as [Hm|Hm].
  - destruct (str_contains "GenuineIntel" (vendor_id_raw rt)
              && negb (bool_decide (run_mode o = "mkldnn")));
      run_option_steps;
      destruct (bool_decide (device_type o ∈ ["gpu"; "dcu"]) && bool_decide (device_id o = None));
      run_option_steps;
      rewrite <-?app_assoc; eexists _; (split; [reflexivity|]); by repeat constructor.
  - run_option_steps. rewrite ?Ho.
    destruct (bool_decide (device_type o ∈ ["gpu"; "dcu"]) && bool_decide (device_id o = None));
      run_option_steps.
    + eexists [_]. split; [reflexivity|]. by repeat constructor.
    + exists []. rewrite app_nil_r. split; [destruct w; simpl in *; by subst|]. done.
Qed.

Lemma normalized_fields o :
  device_type (normalized o) = device_type o ∧
  model_name (normalized o) = model_name o ∧
  run_mode (normalized o)
  = (if decide (model_name o = "LaTeX_OCR_rec") then "mkldnn" else run_mode o) ∧
  device_id (normalized o) = (if defaults_device_id o then Some 0 else device_id o) ∧
  opt_delete_pass (normalized o) = opt_delete_pass o ∧
  cpu_threads (normalized o) = cpu_threads o.
Proof.
  unfold normalized, defaults_device_id.
  destruct (decide (model_name o = "LaTeX_OCR_rec"));
    cbn [set_run_mode device_type device_id];
    destruct (bool_decide (device_type o ∈ ["gpu"; "dcu"]) && bool_decide (device_id o = None));
    done.
Qed.

(** *** The device block of [_create] *)

Ltac device_cases :=
  unfold configure_device, assert, logging;
  repeat match goal with
         | |- context [decide ?P] => destruct (decide P)
         | |- context [if ?b then _ else _] => destruct b eqn:?
         end;
  repeat (rewrite bind_unfold; rewrite ?emit_run; cbn [mret M_ret raise]);
  cbn [mret M_ret raise].

Lemma configure_device_known o config w :
  device_type o ∈ device_types →
  ∃ logs calls,
    configure_device rt o config w = (Ok (with_calls config calls), add_events logs w) ∧
    Forall (λ ev, is_log ev = true) logs ∧
    Forall (λ c, is_trt_call c = false) calls ∧
    (device_type o ∈ ["gpu"; "dcu"] → enable_use_gpu 100 (device_id o) ∈ calls).
Proof.
  intros Hdev.
  assert (Hcpu : device_type o ≠ "gpu" → device_type o ≠ "npu" → device_type o ≠ "xpu" →
                 device_type o ≠ "mlu" → device_type o ≠ "dcu" →
                 bool_decide (device_type o = "cpu") = true).
  { intros. apply bool_decide_eq_true. unfold device_types in Hdev.
    repeat (apply elem_of_cons in Hdev as [?|Hdev]; [done|]). by apply elem_of_nil in Hdev. }
  unfold configure_device, assert, logging.
  rewrite !call_if_present_with_calls, ?call_with_calls.
  repeat match goal with
         | |- context [decide (device_type o = ?s)] => destruct (decide (device_type o = s))
         end.
  6: rewrite Hcpu by done.
  all: repeat match goal with
         | |- context [if ?b then _ else _] =>
             lazymatch b with
             | hasattr_config _ _ => fail
             | _ => destruct b eqn:?
             end
         end.
  all: repeat (rewrite bind_unfold; rewrite ?emit_run; cbn [mret M_ret raise]).
  all: cbn [mret M_ret raise].
  all: rewrite ?call_if_present_with_calls, ?call_with_calls, ?with_calls_app.
  all: first [ exists []; rewrite add_events_nil; eexists; split; [reflexivity|]
             | eexists [_]; eexists; split; [reflexivity|] ].
  all: split; [by repeat constructor|].
  all: split;
    [ repeat (apply Forall_app; split);
      try (by repeat constructor);
      by (destruct (hasattr_config _ _); repeat constructor)
    | intros Hin ].
  all: try (rewrite !elem_of_cons, elem_of_nil in Hin; destruct Hin as [?|[?|[]]]; congruence).
  all: rewrite !elem_of_app, !list_elem_of_singleton; tauto.
Qed.

Lemma configure_device_unknown o config w :
  device_type o ∉ device_types →
  configure_device rt o config w = (Raise AssertionError, w).
Proof.
  intros Hdev. unfold device_types in Hdev.
  rewrite !not_elem_of_cons in Hdev. destruct Hdev as (?&?&?&?&?&?&_).
  unfold configure_device.
  rewrite !decide_False by done.
  unfold assert. rewrite bool_decide_eq_false_2 by done. done.
Qed.

(** The device block on cpu when MKL-DNN is asked for and cannot be
    enabled. *)
Lemma configure_device_mkldnn_fails o config w :
  device_type o = "cpu" →
  str_contains "mkldnn" (run_mode o) = true →
  enable_mkldnn_fails rt = true →
  ∃ calls,
    configure_device rt o config w
    = (Ok (with_calls config calls), add_events [EvLog WARNING MsgMkldnnUnavailable] w) ∧
    Forall (λ c, is_trt_call c = false) calls ∧
    (enable_mkldnn ∉ calls) ∧ (enable_mkldnn_bfloat16 ∉ calls) ∧
    set_mkldnn_cache_capacity (-1) ∈ calls ∧ disable_gpu ∈ calls.
Proof.
  intros Hcpu Hmk Hfail. unfold configure_device, assert, logging.
  rewrite !call_if_present_with_calls, ?call_with_calls.
  rewrite Hcpu, Hmk, Hfail.
  repeat (rewrite decide_False by done).
  rewrite bool_decide_eq_true_2 by done.
  repeat (rewrite bind_unfold; rewrite ?emit_run; cbn [mret M_ret raise]).
  cbn [mret M_ret raise].
  rewrite ?call_if_present_with_calls, ?call_with_calls, ?with_calls_app.
  destruct (hasattr_config rt "enable_new_ir"), (hasattr_config rt "enable_new_executor").
  all: eexists; split; [reflexivity|].
  all: split; [by repeat constructor|].
  all: rewrite ?elem_of_app, ?elem_of_cons, ?elem_of_nil.
  all: repeat split; try tauto; intuition discriminate.
Qed.

(** *** [_create] and [__init__] unfolded *)

Lemma create_unfold md prefix w mf pf :
  dict_get "paddle" (get_model_paths rt md prefix) = Some (mf, pf) →
  let o' := normalized (option_obj w) in
  ∃ logs,
    Forall (λ ev, is_log ev = true) logs ∧
    StaticInfer__create one cast rt md prefix w
    = ((if String.prefix "trt" (run_mode o') then
          assert (bool_decide (device_type o' = "gpu"));;
          StaticInfer__configure_trt one cast rt prefix mf pf (md ++ [CACHE_DIR; "paddle"])
        else mret (new_Config mf pf)) ≫= λ config,
       configure_device rt o' config ≫= λ config,
       create_predictor (finish_config rt o' config))
        {| fs := fs w; trace := trace w ++ logs; option_obj := o' |}.
Proof.
  intros Hpaths o'. unfold StaticInfer__create. rewrite Hpaths.
  destruct (normalize_option_normalized w) as (logs & Hn & Hlogs).
  exists logs. split; [done|].
  rewrite (bind_Ok _ _ _ _ _ Hn).
  rewrite bind_unfold. unfold get_option at 1. cbn beta iota. cbn [option_obj].
  done.
Qed.

Lemma init_unfold md prefix o w :
  StaticInfer__init__ one cast rt md prefix o w =
  match StaticInfer__create one cast rt md prefix (bound o w) with
  | (Ok p, w') =>
      (Ok {| model_dir := md; model_file_prefix := prefix; predictor := p;
             infer :=
               if negb (_use_legacy_api (option_obj w')) then
                 Concatenated
                   {| ctd_device_type :=
                        if decide (device_type (option_obj w') = "dcu") then "gpu"
                        else device_type (option_obj w');
                      ctd_device_id := device_id (option_obj w') |}
                   {| mi_predictor := p |}
               else Legacy (PaddleInferChainLegacy__init__ rt p) |}, w')
  | (Raise e, w') => (Raise e, w')
  end.
Proof.
  unfold StaticInfer__init__. rewrite bind_unfold. unfold put_option at 1. cbn beta iota.
  fold (bound o w). rewrite bind_unfold.
  destruct (StaticInfer__create one cast rt md prefix (bound o w)) as [[p|e] w']; [|done].
  rewrite bind_unfold. unfold get_option at 1. done.
Qed.

End CreateSteps.

(** ** Outcomes of construction *)

Section ConstructionOutcomes.
Context {scalar : Type}.
Variable one : np_dtype → scalar.
Variable cast : np_dtype → scalar → result scalar.
Variable rt : runtime scalar.

Implicit Types (w : world scalar) (ev : event scalar) (evs : list (event scalar)).
Implicit Types (o : PaddlePredictorOption scalar).

Lemma filter_is_create_logs evs :
  Forall (λ ev, is_log ev = true) evs → filter (λ ev, is_create ev) evs = [].
Proof.
  induction 1 as [|ev evs Hev _ IH]; [done|].
  rewrite filter_cons_False; [done|]. destruct ev; try discriminate Hev. intros [].
Qed.

Lemma mem_device_types o :
  device_type o ∈ ["gpu"; "npu"; "xpu"; "mlu"; "dcu"; "cpu"] ↔ device_type o ∈ device_types.
Proof. done. Qed.

(** What [_create] does off the TensorRT routes. *)
Lemma create_without_tensorrt md prefix w mf pf :
  dict_get "paddle" (get_model_paths rt md prefix) = Some (mf, pf) →
  let o := option_obj w in
  String.prefix "trt" (run_mode (normalized o)) = false →
  ∃ logs,
    Forall (λ ev, is_log ev = true) logs ∧
    StaticInfer__create one cast rt md prefix w
    = (configure_device rt (normalized o) (new_Config mf pf) ≫= λ config,
       create_predictor (finish_config rt (normalized o) config))
        {| fs := fs w; trace := trace w ++ logs; option_obj := normalized o |}.
Proof.
  intros Hpaths o Htrt.
  destruct (create_unfold one cast rt md prefix w mf pf Hpaths) as (logs & Hlogs & Hrun).
  exists logs. split; [done|]. rewrite Hrun. fold o. rewrite Htrt.
  rewrite bind_unfold. done.
Qed.

Lemma normalized_not_trt o :
  model_name o = "LaTeX_OCR_rec" ∨ String.prefix "trt" (run_mode o) = false →
  String.prefix "trt" (run_mode (normalized o)) = false.
Proof.
  intros H. destruct (normalized_fields o) as (_ & _ & -> & _).
  destruct (decide (model_name o = "LaTeX_OCR_rec")); [done|]. by destruct H.
Qed.

(** X13: off the TensorRT routes, construction on any of the six device types
    the code knows succeeds: it logs, creates exactly one predictor, over
    the model files [get_model_paths] found under the key paddle and with a
    configuration free of TensorRT set-up, and never touches the file
    system. *)
Theorem construction_without_tensorrt md prefix o w mf pf :
  dict_get "paddle" (get_model_paths rt md prefix) = Some (mf, pf) →
  device_type o ∈ ["gpu"; "npu"; "xpu"; "mlu"; "dcu"; "cpu"] →
  model_name o = "LaTeX_OCR_rec" ∨ String.prefix "trt" (run_mode o) = false →
  ∃ fac w' logs,
    StaticInfer__init__ one cast rt md prefix o w = (Ok fac, w') ∧
    fs w' = fs w ∧
    trace w' = trace w ++ logs ++ [EvCreatePredictor (pid (predictor fac))
                                     (p_config (predictor fac))] ∧
    Forall (λ ev, is_log ev = true) logs ∧
    pid (predictor fac) = length (filter (λ ev, is_create ev) (trace w)) ∧
    cfg_model_file (p_config (predictor fac)) = mf ∧
    cfg_params_file (p_config (predictor fac)) = pf ∧
    clean (p_config (predictor fac)).
Proof.
  intros Hpaths Hdev Hmode. rewrite init_unfold.
  destruct (create_without_tensorrt md prefix (bound o w) mf pf Hpaths) as (logs & Hlogs & ->).
  { by apply normalized_not_trt. }
  cbn [bound option_obj fs trace].
  destruct (normalized_fields o) as (Hdt & _).
  destruct (configure_device_known rt (normalized o) (new_Config mf pf)
              {| fs := fs w; trace := trace w ++ logs; option_obj := normalized o |})
    as (logs2 & calls & Hd & Hlogs2 & Hcalls & _).
  { by rewrite Hdt. }
  rewrite (bind_Ok _ _ _ _ _ Hd), create_predictor_run.
  eexists _, _, (logs ++ logs2). split; [reflexivity|].
  cbn [fs trace add_events predictor pid p_config].
  split; [done|]. split; [by rewrite <-!app_assoc|].
  split; [by apply Forall_app|].
  split.
  { rewrite !filter_app, (filter_is_create_logs logs), (filter_is_create_logs logs2) by done.
    by rewrite !app_nil_r. }
  rewrite finish_config_with_calls, with_calls_app.
  split; [done|]. split; [done|].
  unfold clean. cbn [with_calls cfg_calls new_Config app].
  apply Forall_app; split; [done|]. apply Forall_cons; split; [done|].
  apply Forall_app; split.
  - apply Forall_fmap. by apply Forall_true.
  - destruct (DEBUG rt); by repeat constructor.
Qed.

(** X14: a device type the code has no branch for ends in an
    [AssertionError], whatever the run mode, after log records only: no
    predictor is created and the file system is untouched. *)
Theorem unknown_device_type_is_rejected md prefix o w mf pf :
  dict_get "paddle" (get_model_paths rt md prefix) = Some (mf, pf) →
  device_type o ∉ ["gpu"; "npu"; "xpu"; "mlu"; "dcu"; "cpu"] →
  ∃ w' logs,
    StaticInfer__init__ one cast rt md prefix o w = (Raise AssertionError, w') ∧
    fs w' = fs w ∧ trace w' = trace w ++ logs ∧
    Forall (λ ev, is_log ev = true) logs.
Proof.
  intros Hpaths Hdev. rewrite init_unfold.
  destruct (create_unfold one cast rt md prefix (bound o w) mf pf Hpaths)
    as (logs & Hlogs & ->).
  cbn [bound option_obj fs trace].
  destruct (normalized_fields o) as (Hdt & _).
  exists {| fs := fs w; trace := trace w ++ logs; option_obj := normalized o |}, logs.
  split; [|done].
  rewrite bind_unfold.
  destruct (String.prefix "trt" (run_mode (normalized o))).
  - rewrite bind_unfold. unfold assert.
    rewrite bool_decide_eq_false_2; [done|].
    rewrite Hdt. intros Hgpu. apply Hdev. rewrite Hgpu. apply list_elem_of_here.
  - cbn [mret M_ret]. cbn beta iota.
    rewrite bind_unfold, configure_device_unknown; [done|]. by rewrite Hdt.
Qed.

(** X15: on cpu with MKL-DNN asked for, a failing [enable_mkldnn] is caught: a
    warning is logged, the predictor is created all the same, its
    configuration enables neither MKL-DNN nor its bfloat16 mode, and the
    MKL-DNN cache capacity is still set. *)
Theorem mkldnn_failure_is_not_fatal md prefix o w mf pf :
  dict_get "paddle" (get_model_paths rt md prefix) = Some (mf, pf) →
  device_type o = "cpu" →
  model_name o = "LaTeX_OCR_rec" ∨
    (String.prefix "trt" (run_mode o) = false ∧ str_contains "mkldnn" (run_mode o) = true) →
  enable_mkldnn_fails rt = true →
  ∃ fac w' logs,
    StaticInfer__init__ one cast rt md prefix o w = (Ok fac, w') ∧
    trace w' = trace w ++ logs ++ [EvCreatePredictor (pid (predictor fac))
                                     (p_config (predictor fac))] ∧
    Forall (λ ev, is_log ev = true) logs ∧
    EvLog WARNING MsgMkldnnUnavailable ∈ logs ∧
    (enable_mkldnn ∉ cfg_calls (p_config (predictor fac))) ∧
    (enable_mkldnn_bfloat16 ∉ cfg_calls (p_config (predictor fac))) ∧
    set_mkldnn_cache_capacity (-1) ∈ cfg_calls (p_config (predictor fac)).
Proof.
  intros Hpaths Hcpu Hmode Hfail. rewrite init_unfold.
  destruct (create_without_tensorrt md prefix (bound o w) mf pf Hpaths) as (logs & Hlogs & ->).
  { apply normalized_not_trt. cbn [bound option_obj]. tauto. }
  cbn [bound option_obj fs trace].
  destruct (normalized_fields o) as (Hdt & _ & Hrm & _).
  destruct (configure_device_mkldnn_fails rt (normalized o) (new_Config mf pf)
              {| fs := fs w; trace := trace w ++ logs; option_obj := normalized o |})
    as (calls & Hd & Hclean & Hno & Hno16 & Hcap & _).
  { by rewrite Hdt. }
  { rewrite Hrm. destruct (decide (model_name o = "LaTeX_OCR_rec")); [done|].
    destruct Hmode as [?|[_ ?]]; done. }
  { done. }
  rewrite (bind_Ok _ _ _ _ _ Hd), create_predictor_run.
  eexists _, _, (logs ++ [EvLog WARNING MsgMkldnnUnavailable]). split; [reflexivity|].
  cbn [fs trace add_events predictor pid p_config].
  split; [by rewrite <-!app_assoc|].
  split; [apply Forall_app; split; [done|by repeat constructor]|].
  split; [apply elem_of_app; right; apply list_elem_of_here|].
  rewrite finish_config_with_calls, with_calls_app.
  cbn [with_calls cfg_calls new_Config app].
  rewrite !elem_of_app, !elem_of_cons, !elem_of_app, !list_elem_of_fmap.
  split; [|split].
  - intros [?|[H|[(? & H & _)|H]]]; try done.
    destruct (DEBUG rt); [by apply elem_of_nil in H|].
    apply list_elem_of_singleton in H. discriminate H.
  - intros [?|[H|[(? & H & _)|H]]]; try done.
    destruct (DEBUG rt); [by apply elem_of_nil in H|].
    apply list_elem_of_singleton in H. discriminate H.
  - by left.
Qed.

Lemma init_inv md prefix o w fac w' :
  StaticInfer__init__ one cast rt md prefix o w = (Ok fac, w') →
  ∃ mf pf,
    dict_get "paddle" (get_model_paths rt md prefix) = Some (mf, pf) ∧
    StaticInfer__create one cast rt md prefix (bound o w) = (Ok (predictor fac), w') ∧
    infer fac
    = (if negb (_use_legacy_api (option_obj w')) then
         Concatenated
           {| ctd_device_type :=
                if decide (device_type (option_obj w') = "dcu") then "gpu"
                else device_type (option_obj w');
              ctd_device_id := device_id (option_obj w') |}
           {| mi_predictor := predictor fac |}
       else Legacy (PaddleInferChainLegacy__init__ rt (predictor fac))).
Proof.
  rewrite init_unfold. intros Hinit.
  destruct (dict_get "paddle" (get_model_paths rt md prefix)) as [[mf pf]|] eqn:Hpaths.
  - exists mf, pf. split; [done|].
    destruct (StaticInfer__create one cast rt md prefix (bound o w)) as [[p|e] w1];
      [|done].
    by injection Hinit as <- <-.
  - unfold StaticInfer__create in Hinit. by rewrite Hpaths in Hinit.
Qed.

(** X16: every configuration a facade's predictor is created from ends the
    same way: memory optimisation is enabled, the passes listed in the
    option are deleted in the order of the list, and native logging is
    disabled unless [DEBUG] is set. *)
Theorem created_configuration_ends_with_common_calls md prefix o w fac w' :
  StaticInfer__init__ one cast rt md prefix o w = (Ok fac, w') →
  ∃ base,
    cfg_calls (p_config (predictor fac))
    = base ++ [enable_memory_optim] ++ (delete_pass <$> opt_delete_pass o)
      ++ (if DEBUG rt then [] else [disable_glog_info]).
Proof.
  intros Hinit. apply init_inv in Hinit as (mf & pf & Hpaths & Hcreate & _).
  destruct (create_unfold one cast rt md prefix (bound o w) mf pf Hpaths)
    as (logs & Hlogs & Hrun).
  rewrite Hrun in Hcreate. clear Hrun. cbn [bound option_obj] in Hcreate.
  apply bind_inv_Ok in Hcreate as (config1 & w1 & _ & Hcreate).
  apply bind_inv_Ok in Hcreate as (config2 & w2 & _ & Hcreate).
  rewrite create_predictor_run in Hcreate. injection Hcreate as Hp _.
  rewrite <-Hp. cbn [p_config].
  rewrite finish_config_with_calls. cbn [with_calls cfg_calls].
  destruct (normalized_fields o) as (_ & _ & _ & _ & -> & _).
  by exists (cfg_calls config2).
Qed.

(** X18: the pipeline of a facade follows the device type: on gpu and dcu the
    tensors are copied to the gpu whose id the predictor's configuration
    enables, [0] when the option gave none; on cpu to the cpu; every other
    device type runs the legacy chain over the facade's own predictor. *)
Theorem pipeline_follows_device_type md prefix o w fac w' :
  StaticInfer__init__ one cast rt md prefix o w = (Ok fac, w') →
  (device_type o ∈ ["gpu"; "dcu"] →
   infer fac = Concatenated
                 {| ctd_device_type := "gpu";
                    ctd_device_id := Some (default 0 (device_id o)) |}
                 {| mi_predictor := predictor fac |} ∧
   enable_use_gpu 100 (Some (default 0 (device_id o)))
   ∈ cfg_calls (p_config (predictor fac))) ∧
  (device_type o = "cpu" →
   infer fac = Concatenated {| ctd_device_type := "cpu"; ctd_device_id := device_id o |}
                 {| mi_predictor := predictor fac |}) ∧
  (device_type o ∉ ["cpu"; "gpu"; "dcu"] →
   infer fac = Legacy (PaddleInferChainLegacy__init__ rt (predictor fac))).
Proof.
  intros Hinit. apply init_inv in Hinit as (mf & pf & Hpaths & Hcreate & Hinfer).
  destruct (create_run one cast rt md prefix (bound o w) mf pf Hpaths)
    as (evs & r & w1 & Hc & _ & Hdt & Hid & _ & _ & Hok & _).
  rewrite Hcreate in Hc. injection Hc as <- <-.
  cbn [bound option_obj] in Hdt, Hid.
  destruct (Hok _ eq_refl) as (_ & _ & Hgpu).
  rewrite Hinfer. unfold _use_legacy_api. rewrite Hdt, Hid.
  unfold defaults_device_id in *.
  split; [|split].
  - intros Hin. rewrite bool_decide_eq_true_2 in * by done. cbn [andb] in *.
    specialize (Hgpu Hin). rewrite Hid in Hgpu.
    rewrite bool_decide_eq_true_2
      by (rewrite !elem_of_cons in *; tauto).
    cbn [negb].
    assert (Hdev : (if decide (device_type o = "dcu") then "gpu" else device_type o) = "gpu").
    { destruct (decide (device_type o = "dcu")); [done|].
      rewrite !elem_of_cons, elem_of_nil in Hin. tauto. }
    rewrite Hdev.
    rewrite (bool_decide_eq_true_2 (device_type o ∈ ["gpu"; "dcu"])) by done.
    destruct (device_id o) as [d|]; cbn [default] in *; unfold id.
    + rewrite (bool_decide_eq_false_2 (Some d = None)) in * by done. done.
    + rewrite (bool_decide_eq_true_2 (None = None)) in * by done. done.
  - intros Hcpu. rewrite Hcpu.
    rewrite bool_decide_eq_true_2 by apply list_elem_of_here.
    rewrite bool_decide_eq_false_2
      by (rewrite !elem_of_cons, elem_of_nil; intuition discriminate).
    cbn [negb andb]. by rewrite decide_False.
  - intros Hother. by rewrite bool_decide_eq_false_2.
Qed.

End ConstructionOutcomes.

(** ** The two pipelines *)

Section Inference.
Context {scalar : Type}.
Variable one : np_dtype → scalar.
Variable cast : np_dtype → scalar → result scalar.
Variable rt : runtime scalar.

Implicit Types (w : world scalar) (ev : event scalar) (evs : list (event scalar)).

(** *** The two pipelines, run *)

Lemma concatenated_run (ctd : PaddleCopyToDevice) (mi : PaddleModelInfer)
    (x : list (ndarray scalar)) w :
  let device :=
    constr_device rt (ctd_device_type ctd)
      match ctd_device_id ctd with
      | Some i => Some [i]
      | None => None
      end in
  let tensors := (λ a, to_tensor a device) <$> x in
  pipeline__call__ rt (Concatenated ctd mi) x w
  = (Ok (t_numpy <$> run_tensors (model_of rt (mi_predictor mi)) tensors),
     add_events [EvRunTensors (pid (mi_predictor mi)) tensors] w).
Proof. done. Qed.

Lemma legacy_feed_run (feeds : list (ndarray scalar * Handle)) w :
  for_ feeds (λ '(input_, input_handle),
    handle_reshape input_handle (arr_shape input_);;
    handle_copy_from_cpu input_handle input_) w
  = (Ok (), add_events (handle_feed_events feeds) w).
Proof.
  revert w. induction feeds as [|[a h] feeds IH]; intros w.
  { simpl. by rewrite add_events_nil. }
  cbn [for_]. unfold handle_reshape, handle_copy_from_cpu.
  repeat (rewrite bind_unfold; rewrite ?emit_run; cbn beta iota).
  fold (handle_reshape (scalar:=scalar)). rewrite add_events_app.
  etransitivity; [apply IH|]. by rewrite add_events_app.
Qed.

Lemma track_inputs_fetch id (handles : list Handle) st :
  foldl (track_inputs id) st (handle_fetch_events (scalar:=scalar) handles) = st.
Proof. revert st. induction handles as [|h handles IH]; intros st; [done|]. apply IH. Qed.

Lemma legacy_fetch_run (handles : list Handle) acc w :
  for_acc handles (λ o outputs,
    a ← handle_copy_to_cpu rt o; mret (outputs ++ [a])) acc w
  = (Ok (acc ++ ((λ h, run_handles (model_of rt (h_predictor h))
                         (inputs_at_last_run (pid (h_predictor h)) (trace w)) (h_name h))
                   <$> handles)),
     add_events (handle_fetch_events handles) w).
Proof.
  revert acc w. induction handles as [|h handles IH]; intros acc w.
  { simpl. by rewrite app_nil_r, add_events_nil. }
  cbn [for_acc]. rewrite bind_unfold. rewrite bind_unfold.
  unfold handle_copy_to_cpu at 1. cbn [mret M_ret]. cbn beta iota.
  etransitivity; [apply IH|].
  cbn [fmap list_fmap handle_fetch_events trace]. rewrite <-app_assoc. cbn [app].
  f_equal.
  - do 3 f_equal. apply list_fmap_ext. intros _ h' _.
    f_equal. unfold inputs_at_last_run. rewrite foldl_app. done.
  - unfold add_events. cbn [fs trace option_obj]. by rewrite <-app_assoc.
Qed.

Lemma legacy_run (chain : PaddleInferChainLegacy) (x : list (ndarray scalar)) w :
  let fed := handle_feed_events (zip x (input_handles chain)) in
  let ran := trace w ++ fed ++ [EvRun (pid (legacy_predictor chain))] in
  pipeline__call__ rt (Legacy chain) x w
  = (Ok ((λ h, run_handles (model_of rt (h_predictor h))
                 (inputs_at_last_run (pid (h_predictor h)) ran) (h_name h))
           <$> output_handles chain),
     add_events (fed ++ [EvRun (pid (legacy_predictor chain))]
                 ++ handle_fetch_events (output_handles chain)) w).
Proof.
  intros fed ran. cbn [pipeline__call__]. unfold PaddleInferChainLegacy__call__.
  rewrite (bind_Ok _ _ _ _ _ (legacy_feed_run _ w)). fold fed.
  unfold predictor_run. rewrite bind_unfold, emit_run. cbn beta iota.
  rewrite legacy_fetch_run, !add_events_app. cbn [app trace add_events].
  by rewrite <-app_assoc.
Qed.

(** *** [StaticInfer.__call__] on the tensor pipeline *)

(** X19: on the tensor pipeline a call is one native run: every array is made
    C-contiguous and placed on the one device of the facade, the predictor
    runs once on the tensors in the declared order of their inputs, and the
    result holds the arrays of the tensors it returns, in their order. The
    call adds that one event and nothing else. *)
Theorem tensor_call_runs_predictor_once (self : StaticInfer) ctd mi
    (xs : list (ndarray scalar)) w :
  let names := get_input_names rt (predictor self) in
  let device :=
    constr_device rt (ctd_device_type ctd)
      match ctd_device_id ctd with
      | Some i => Some [i]
      | None => None
      end in
  let tensors := (λ a, to_tensor (np_ascontiguousarray a) device) <$> xs in
  infer self = Concatenated ctd mi →
  length xs = length names →
  StaticInfer__call__ rt self (sorted_by_name xs names) w
  = (Ok (t_numpy <$> run_tensors (model_of rt (mi_predictor mi)) tensors),
     add_events [EvRunTensors (pid (mi_predictor mi)) tensors] w).
Proof.
  intros names device tensors Hinfer Hlen. subst names.
  rewrite (call_sorted_by_name rt self xs w Hlen), Hinfer, concatenated_run.
  unfold tensors. by rewrite <-!list_fmap_compose.
Qed.

(** *** [StaticInfer.__call__] on the legacy chain *)

Lemma handle_feed_events_names (p : Predictor) names (x : list (ndarray scalar)) :
  handle_feed_events (zip x (get_input_handle p <$> names))
  = feed_events (pid p) (zip names x).
Proof.
  revert names. induction x as [|a x IH]; intros [|name names]; try done.
  cbn [zip zip_with fmap list_fmap handle_feed_events feed_events mbind list_bind].
  cbn [app fst snd get_input_handle h_predictor h_name]. do 2 f_equal. apply IH.
Qed.

Lemma track_inputs_feed id (arrs : dict (ndarray scalar)) st :
  foldl (track_inputs id) st (feed_events id arrs)
  = (foldl (λ d kv, dict_set kv.1 kv.2 d) st.1 arrs, st.2).
Proof.
  revert st. induction arrs as [|[name a] arrs IH]; intros st; [by destruct st|].
  cbn [feed_events mbind list_bind app foldl track_inputs fst snd].
  rewrite decide_True by done. exact (IH (dict_set name a st.1, st.2)).
Qed.

Lemma dict_get_foldl_set_other {V} k (arrs d : dict V) :
  k ∉ dict_keys arrs →
  dict_get k (foldl (λ d kv, dict_set kv.1 kv.2 d) d arrs) = dict_get k d.
Proof.
  revert d. induction arrs as [|[k' v] arrs IH]; intros d Hk; [done|].
  cbn [foldl fst snd]. rewrite IH.
  - apply dict_get_set_ne. intros ->. apply Hk. apply list_elem_of_here.
  - intros Hin. apply Hk. by apply list_elem_of_further.
Qed.

Lemma dict_get_foldl_set {V} (arrs d : dict V) i k v :
  NoDup (dict_keys arrs) → arrs !! i = Some (k, v) →
  dict_get k (foldl (λ d kv, dict_set kv.1 kv.2 d) d arrs) = Some v.
Proof.
  revert d i. induction arrs as [|[k' v'] arrs IH]; intros d i Hnd Hi; [done|].
  apply NoDup_cons in Hnd as [Hk' Hnd]. cbn [foldl fst snd].
  destruct i as [|i].
  - injection Hi as -> ->. rewrite dict_get_foldl_set_other by done.
    apply dict_get_set_eq.
  - by apply (IH _ i).
Qed.

(** X20: on the legacy chain a call feeds the handle of each declared input
    with the array meant for it, reshape before copy, in the declared order;
    runs the predictor once; then fetches the outputs in the order of the
    declared output names, one array per name. When the predictor runs,
    each declared input is bound to its array, made C-contiguous. *)
Theorem legacy_call_feeds_runs_and_fetches (self : StaticInfer)
    (xs : list (ndarray scalar)) w :
  let p := predictor self in
  let names := get_input_names rt p in
  let fed := feed_events (pid p) (zip names (np_ascontiguousarray <$> xs)) in
  let ran := trace w ++ fed ++ [EvRun (pid p)] in
  infer self = Legacy (PaddleInferChainLegacy__init__ rt p) →
  length xs = length names →
  StaticInfer__call__ rt self (sorted_by_name xs names) w
  = (Ok ((λ name, run_handles (model_of rt p) (inputs_at_last_run (pid p) ran) name)
           <$> get_output_names rt p),
     add_events (fed ++ [EvRun (pid p)] ++ (EvCopyToCpu (pid p) <$> get_output_names rt p)) w)
  ∧ (NoDup names →
     ∀ i name a, names !! i = Some name → xs !! i = Some a →
       dict_get name (inputs_at_last_run (pid p) ran) = Some (np_ascontiguousarray a)).
Proof.
  intros p names fed ran Hinfer Hlen. split.
  - subst ran fed names p.
    rewrite (call_sorted_by_name rt self xs w Hlen), Hinfer, legacy_run.
    cbn [PaddleInferChainLegacy__init__ input_handles output_handles legacy_predictor].
    rewrite handle_feed_events_names.
    unfold handle_fetch_events. rewrite <-!list_fmap_compose. done.
  - intros Hnd i name a Hname Ha.
    unfold inputs_at_last_run, ran, fed.
    rewrite !foldl_app, track_inputs_feed. cbn [foldl track_inputs fst snd].
    rewrite decide_True by done. cbn [snd].
    apply (dict_get_foldl_set _ _ i).
    + unfold dict_keys. rewrite fst_zip; [done|]. rewrite length_fmap. lia.
    + apply lookup_zip_with_Some. eexists _, _. split; [done|]. split; [done|].
      by rewrite list_lookup_fmap, Ha.
Qed.

(** *** What a call never does *)

(** X21: whatever its arguments, a call leaves the file system and the option
    object alone and adds only events of inference (reshape, copy, run) to
    the trace: it creates no predictor, converts nothing and logs nothing;
    and it runs the predictor at most once. *)
Theorem call_only_runs_inference (self : StaticInfer) (x : list (ndarray scalar)) w :
  ∃ evs,
    (StaticInfer__call__ rt self x w).2 = add_events evs w ∧
    Forall (λ ev, is_inference_event ev = true) evs ∧
    length (filter (λ ev, is_run ev) evs) ≤ 1.
Proof.
  destruct (decide (length x = length (get_input_names rt (predictor self)))) as [Hlen|Hlen].
  - destruct (call_run rt self x w Hlen) as (x' & _ & ->).
    destruct (infer self) as [ctd mi|chain].
    + rewrite concatenated_run. eexists [_]. split; [done|]. split; [by repeat constructor|].
      simpl. lia.
    + rewrite legacy_run. eexists. split; [done|].
      assert (Hfeed : ∀ feeds : list (ndarray scalar * Handle),
                Forall (λ ev, is_inference_event ev = true) (handle_feed_events feeds) ∧
                filter (λ ev, is_run ev) (handle_feed_events feeds) = []).
      { induction feeds as [|[a h] feeds [IH1 IH2]]; [by split|].
        split; [by repeat constructor|done]. }
      assert (Hfetch : ∀ handles : list Handle,
                Forall (λ ev : event scalar, is_inference_event ev = true)
                  (handle_fetch_events handles) ∧
                filter (λ ev : event scalar, is_run ev) (handle_fetch_events handles) = []).
      { induction handles as [|h handles [IH1 IH2]]; [by split|].
        split; [by constructor|done]. }
      split.
      * rewrite !Forall_app. split; [apply Hfeed|]. split; [by repeat constructor|apply Hfetch].
      * rewrite !filter_app, (proj2 (Hfeed _)), (proj2 (Hfetch _)). simpl. lia.
  - exists []. rewrite add_events_nil.
    unfold StaticInfer__call__. rewrite bool_decide_eq_false_2 by (intros ?; by apply Hlen).
    split; [done|]. split; [done|]. simpl. lia.
Qed.

End Inference.

(** ** Construction on the old TensorRT route *)

Section TensorRTRoute.
Context {scalar : Type}.
Variable one : np_dtype → scalar.
Variable cast : np_dtype → scalar → result scalar.
Variable rt : runtime scalar.

Implicit Types (w : world scalar) (ev : event scalar) (evs : list (event scalar)).
Implicit Types (o : PaddlePredictorOption scalar).

Lemma normalized_trt_fields o :
  trt_max_workspace_size (normalized o) = trt_max_workspace_size o ∧
  trt_max_batch_size (normalized o) = trt_max_batch_size o ∧
  trt_min_subgraph_size (normalized o) = trt_min_subgraph_size o ∧
  trt_use_static (normalized o) = trt_use_static o ∧
  trt_use_calib_mode (normalized o) = trt_use_calib_mode o ∧
  trt_use_dynamic_shapes (normalized o) = trt_use_dynamic_shapes o ∧
  trt_collect_shape_range_info (normalized o) = trt_collect_shape_range_info o ∧
  trt_shape_range_info_path (normalized o) = trt_shape_range_info_path o ∧
  trt_allow_rebuild_at_runtime (normalized o) = trt_allow_rebuild_at_runtime o.
Proof.
  unfold normalized, defaults_device_id.
  destruct (decide (model_name o = "LaTeX_OCR_rec"));
    cbn [set_run_mode device_type device_id];
    destruct (bool_decide (device_type o ∈ ["gpu"; "dcu"]) && bool_decide (device_id o = None));
    done.
Qed.

Lemma dict_get_elem {V} k (v : V) d : dict_get k d = Some v → (k, v) ∈ d.
Proof.
  induction d as [|[k' v'] d IH]; [done|].
  rewrite dict_get_cons. destruct (decide (k' = k)) as [->|].
  - intros [= ->]. apply list_elem_of_here.
  - intros H. apply list_elem_of_further. by apply IH.
Qed.

Lemma dynamic_shape_loop_calls (ds : dict shape_triple) acc config w :
  ∃ acc' dyn,
    for_acc ds
      (λ '(key, shapes) '(min_shapes, opt_shapes, max_shapes, config),
         let min_shapes := dict_set key shapes.1.1 min_shapes in
         let opt_shapes := dict_set key shapes.1.2 opt_shapes in
         let max_shapes := dict_set key shapes.2 max_shapes in
         mret (min_shapes, opt_shapes, max_shapes,
               call (set_trt_dynamic_shape_info min_shapes max_shapes opt_shapes) config))
      (acc, config) w
    = (Ok (acc', with_calls config dyn), w) ∧
    Forall (λ c, ∃ mins maxs opts, c = set_trt_dynamic_shape_info mins maxs opts) dyn.
Proof.
  revert acc config. induction ds as [|[key shapes] ds IH]; intros [[mins opts] maxs] config.
  { exists (mins, opts, maxs), []. by rewrite with_calls_nil. }
  cbn [for_acc]. rewrite bind_unfold. cbn [mret M_ret]. cbn beta iota zeta.
  edestruct IH as (acc' & dyn & Hrun & Hdyn).
  eexists acc', (_ :: dyn). split.
  - etransitivity; [exact Hrun|]. by rewrite call_with_calls, with_calls_app.
  - constructor; [eauto|done].
Qed.

(** The configuration the old route returns. *)
Lemma old_route_config prefix model_file params_file cache_dir w config w' :
  let o := option_obj w in
  USE_PIR_TRT rt = false →
  StaticInfer__configure_trt one cast rt prefix model_file params_file cache_dir w
  = (Ok config, w') →
  ∃ precision dyn,
    (run_mode o, precision) ∈ PRECISION_MAP ∧
    config = with_calls (new_Config model_file params_file)
               ([set_optim_cache_dir (cache_dir ++ ["optim_cache"]);
                 enable_tensorrt_engine (trt_max_workspace_size o) (trt_max_batch_size o)
                   (trt_min_subgraph_size o) precision (trt_use_static o)
                   (trt_use_calib_mode o)] ++ dyn) ∧
    (trt_use_dynamic_shapes o = false → dyn = []) ∧
    (trt_use_dynamic_shapes o = true → trt_collect_shape_range_info o = true →
     dyn = [enable_tuned_tensorrt_dynamic_shape (shape_range_info_path_of cache_dir o)
              (trt_allow_rebuild_at_runtime o)]) ∧
    (trt_use_dynamic_shapes o = true → trt_collect_shape_range_info o = false →
     Forall (λ c, ∃ mins maxs opts, c = set_trt_dynamic_shape_info mins maxs opts) dyn).
Proof.
  intros o Hpir. unfold StaticInfer__configure_trt.
  rewrite bind_unfold. unfold get_option at 1. cbn beta iota. fold o. rewrite Hpir.
  fold PRECISION_MAP. rewrite bind_unfold. unfold dict_getitem at 1.
  destruct (dict_get (run_mode o) PRECISION_MAP) as [precision|] eqn:Hprec; [|done].
  cbn [mret M_ret]. cbn beta iota.
  rewrite !call_with_calls, !with_calls_app. cbn [app].
  assert (Hmode : (run_mode o, precision) ∈ PRECISION_MAP).
  { by apply dict_get_elem. }
  intros Hrun. exists precision.
  destruct (trt_use_dynamic_shapes o); [|].
  2: { exists []. cbn [mret M_ret] in Hrun. injection Hrun as <- <-. done. }
  destruct (trt_collect_shape_range_info o).
  - fold (shape_range_info_path_of cache_dir o) in Hrun.
    apply bind_inv_Ok in Hrun as (found & w1 & _ & Hrun).
    apply bind_inv_Ok in Hrun as (should & w2 & _ & Hrun).
    apply bind_inv_Ok in Hrun as ([] & w3 & _ & Hrun).
    cbn [mret M_ret] in Hrun. injection Hrun as <- <-.
    eexists [_]. done.
  - destruct (trt_dynamic_shapes o) as [ds|]; [|done].
    apply bind_inv_Ok in Hrun as ([[[mins opts] maxs] config1] & w1 & Hloop & Hrun).
    injection Hrun as <- <-.
    destruct (dynamic_shape_loop_calls ds ([], [], [])
                (with_calls (new_Config model_file params_file)
                   [set_optim_cache_dir (cache_dir ++ ["optim_cache"]);
                    enable_tensorrt_engine (trt_max_workspace_size o) (trt_max_batch_size o)
                      (trt_min_subgraph_size o) precision (trt_use_static o)
                      (trt_use_calib_mode o)] ) w)
      as (acc' & dyn & Hrun' & Hdyn).
    pose proof (eq_trans (eq_sym Hloop) Hrun') as Heq. injection Heq as _ -> _.
    exists dyn. rewrite with_calls_app. done.
Qed.

Lemma configure_device_gpu_trt o config w :
  device_type o = "gpu" → String.prefix "trt" (run_mode o) = true →
  configure_device rt o config w
  = (Ok (with_calls config [exp_disable_mixed_precision_ops ["feed"; "fetch"];
                            enable_use_gpu 100 (device_id o)]), w).
Proof.
  intros Hgpu Htrt. unfold configure_device. rewrite decide_True by done.
  rewrite Htrt. cbn [negb]. by rewrite !call_with_calls, with_calls_app.
Qed.

(** X12: a facade built on the old TensorRT route: the device is gpu; the
    configuration of its predictor starts with the optimisation cache
    directory under [model_dir/.cache/paddle] and the TensorRT engine with
    the parameters of the option and the precision its run mode names; then
    come the dynamic-shape calls of the route, the tuned profile being read
    from the very path the calibration collects into; then the gpu block,
    which on this route adds only the mixed-precision exclusion and
    [enable_use_gpu], the device id being [0] when the option gave none;
    then the calls every configuration ends with. *)
Theorem tensorrt_route_configuration md prefix o w fac w' :
  StaticInfer__init__ one cast rt md prefix o w = (Ok fac, w') →
  USE_PIR_TRT rt = false →
  model_name o ≠ "LaTeX_OCR_rec" →
  String.prefix "trt" (run_mode o) = true →
  device_type o = "gpu" ∧
  ∃ precision dyn,
    (run_mode o, precision) ∈ [("trt_int8", Int8); ("trt_fp32", Float32); ("trt_fp16", Half)] ∧
    cfg_calls (p_config (predictor fac))
    = [set_optim_cache_dir (md ++ [".cache"; "paddle"; "optim_cache"]);
       enable_tensorrt_engine (trt_max_workspace_size o) (trt_max_batch_size o)
         (trt_min_subgraph_size o) precision (trt_use_static o) (trt_use_calib_mode o)]
      ++ dyn
      ++ [exp_disable_mixed_precision_ops ["feed"; "fetch"];
          enable_use_gpu 100 (Some (default 0 (device_id o)));
          enable_memory_optim]
      ++ (delete_pass <$> opt_delete_pass o)
      ++ (if DEBUG rt then [] else [disable_glog_info]) ∧
    (trt_use_dynamic_shapes o = false → dyn = []) ∧
    (trt_use_dynamic_shapes o = true → trt_collect_shape_range_info o = true →
     dyn = [enable_tuned_tensorrt_dynamic_shape
              (shape_range_info_path_of (md ++ [".cache"; "paddle"]) o)
              (trt_allow_rebuild_at_runtime o)]) ∧
    (trt_use_dynamic_shapes o = true → trt_collect_shape_range_info o = false →
     Forall (λ c, ∃ mins maxs opts, c = set_trt_dynamic_shape_info mins maxs opts) dyn).
Proof.
  intros Hinit Hpir Hname Htrt.
  apply init_inv in Hinit as (mf & pf & Hpaths & Hcreate & _).
  destruct (create_unfold one cast rt md prefix (bound o w) mf pf Hpaths)
    as (logs & Hlogs & Hrun).
  rewrite Hrun in Hcreate. clear Hrun. cbn [bound option_obj fs trace] in Hcreate.
  destruct (normalized_fields o) as (Hdt & _ & Hrm & Hid & Hdel & _).
  rewrite decide_False in Hrm by done.
  destruct (normalized_trt_fields o) as (Hws & Hbs & Hms & Hst & Hcm & Hdyn & Hcol & Hpath & Hre).
  rewrite Hrm, Htrt in Hcreate.
  apply bind_inv_Ok in Hcreate as (config1 & w1 & Htrt_cfg & Hcreate).
  apply bind_inv_Ok in Htrt_cfg as ([] & w0 & Hassert & Htrt_cfg).
  unfold assert in Hassert.
  destruct (decide (device_type (normalized o) = "gpu")) as [Hgpu|Hgpu];
    [|by rewrite bool_decide_eq_false_2 in Hassert by done].
  rewrite bool_decide_eq_true_2 in Hassert by done. injection Hassert as <-.
  split; [by rewrite <-Hdt|].
  apply old_route_config in Htrt_cfg as (precision & dyn & Hmode & -> & Hd1 & Hd2 & Hd3);
    [|done].
  cbn [option_obj] in *.
  rewrite bind_unfold in Hcreate.
  rewrite configure_device_gpu_trt in Hcreate by (by rewrite ?Hrm).
  cbn beta iota in Hcreate.
  rewrite create_predictor_run in Hcreate. injection Hcreate as Hp _.
  exists precision, dyn. rewrite Hrm in Hmode. split; [done|].
  rewrite <-Hp. cbn [p_config].
  rewrite finish_config_with_calls, !with_calls_app. cbn [with_calls cfg_calls new_Config].
  rewrite Hws, Hbs, Hms, Hst, Hcm, Hdel, Hid in *.
  split.
  { unfold defaults_device_id. rewrite <-Hdt, Hgpu.
    rewrite bool_decide_eq_true_2 by apply list_elem_of_here. cbn [andb].
    cbn [app]. rewrite <-!app_assoc. cbn [app CACHE_DIR].
    do 3 f_equal. f_equal. f_equal. f_equal.
    destruct (device_id o); [by rewrite bool_decide_eq_false_2|
                             by rewrite bool_decide_eq_true_2]. }
  rewrite Hdyn, Hcol in *. split; [done|]. split; [|done].
  intros H1 H2. rewrite (Hd2 H1 H2). unfold shape_range_info_path_of.
  by rewrite Hpath, Hre.
Qed.

End TensorRTRoute.

(** ** Calibration call by call, and the option object *)

Section CalibrationTrace.
Context {scalar : Type}.
Variable one : np_dtype → scalar.
Variable cast : np_dtype → scalar → result scalar.
Variable rt : runtime scalar.

Implicit Types (w : world scalar) (ev : event scalar) (evs : list (event scalar)).
Implicit Types (o : PaddlePredictorOption scalar).

(** *** The arrays of a calibration run *)

Implicit Types (conv : np_dtype → scalar → scalar).

Lemma pass_arrays_snoc conv (dtype_of : string → np_dtype) (data : dict (sample_triple scalar))
    shape_of sample_of ds kv :
  pass_arrays one conv dtype_of data shape_of sample_of (ds ++ [kv])
  = pass_arrays one conv dtype_of data shape_of sample_of ds
    ++ [(kv.1, candidate_array one conv (dtype_of kv.1) (shape_of kv.2)
                 (sample_of <$> dict_get kv.1 data))].
Proof. unfold pass_arrays. by rewrite fmap_app. Qed.

Lemma candidate_arrays_exact (p : Predictor) ds data (dtype_of : string → np_dtype) conv w :
  NoDup (dict_keys ds) →
  (∀ name, name ∈ dict_keys ds →
           _pd_dtype_to_np_dtype (input_type (model_of rt p) name) = Ok (dtype_of name)) →
  samples_fit ds data →
  (∀ name d x, dict_get name data = Some d → x ∈ d.1.1 ++ d.1.2 ++ d.2 →
     cast (dtype_of name) x = Ok (conv (dtype_of name) x)) →
  candidate_arrays one cast rt p ds data w
  = (Ok (pass_arrays one conv dtype_of data (λ s, s.1.1) (λ d, d.1.1) ds,
         pass_arrays one conv dtype_of data (λ s, s.1.2) (λ d, d.1.2) ds,
         pass_arrays one conv dtype_of data (λ s, s.2) (λ d, d.2) ds), w).
Proof.
  induction ds as [|[name [[mn op] mx]] ds IH] using rev_ind; intros Hnd Hty Hfit Hconv; [done|].
  unfold dict_keys in Hnd. rewrite fmap_app in Hnd. apply NoDup_app in Hnd as (Hnd & Hfresh & _).
  assert (Hname : name ∉ dict_keys ds).
  { intros Hin. apply (Hfresh name Hin). by left. }
  assert (Hkeys : ∀ shape_of sample_of,
            dict_keys (pass_arrays one conv dtype_of data shape_of sample_of ds)
            = dict_keys ds).
  { intros. unfold pass_arrays, dict_keys. rewrite <-list_fmap_compose.
    by apply list_fmap_ext. }
  assert (IH' := IH Hnd).
  specialize (IH' ltac:(intros n Hn; apply Hty; unfold dict_keys; rewrite fmap_app;
                        apply elem_of_app; by left)).
  specialize (IH' ltac:(intros n s d Hn; apply Hfit; apply elem_of_app; by left)).
  specialize (IH' Hconv).
  unfold candidate_arrays in *. rewrite for_acc_app, (bind_Ok _ _ _ _ _ IH').
  cbn [for_acc]. rewrite bind_unfold.
  rewrite bind_unfold. unfold handle_type, get_input_handle; cbn [h_predictor h_name].
  rewrite (Hty name) by (unfold dict_keys; rewrite fmap_app; apply elem_of_app; right; by left).
  cbn [lift].
  rewrite !pass_arrays_snoc. cbn [fst snd].
  destruct (dict_get name data) as [[[d0 d1] d2]|] eqn:Hd.
  - destruct (Hfit name (mn, op, mx) (d0, d1, d2)) as (H0 & H1 & H2);
      [apply elem_of_app; right; by left|done|]. simpl in H0, H1, H2.
    rewrite (np_array_reshape_exact cast conv d0), (np_array_reshape_exact cast conv d1),
      (np_array_reshape_exact cast conv d2);
      [|(done || (intros x Hx; apply (Hconv name _ x Hd); cbn [fst snd];
                  rewrite !elem_of_app; auto))..].
    repeat (rewrite bind_unfold; cbn [lift]; cbn beta iota).
    cbn [mret M_ret].
    rewrite !dict_set_fresh by by rewrite Hkeys.
    done.
  - cbn [mret M_ret].
    rewrite !dict_set_fresh by by rewrite Hkeys.
    done.
Qed.

(** X3: the whole of a calibration run whose names pass the checks, whose
    inputs have supported element types and whose sample data have the
    declared sizes and convert, call by call: the predictor is created with
    a configuration that enables the gpu, collects shape ranges into the
    given path and silences the native log; then come four passes, min,
    opt, opt and max, each feeding every input in the order of
    [dynamic_shapes], its handle reshaped to the shape of the array before
    the array is copied, and each followed by one inference run; the
    arrays carry the element type of their input and hold the sample data
    given for the input, converted, or ones; last, and only under
    reference counting, the predictor is destroyed. *)
Theorem calibration_trace model_file model_params (gpu_id : nat) path ds data
    (dtype_of : string → np_dtype) conv w :
  let m := load_model rt model_file model_params in
  let id := length (filter (λ ev, is_create ev) (trace w)) in
  let samples := default [] data in
  let mins := pass_arrays one conv dtype_of samples (λ s, s.1.1) (λ d, d.1.1) ds in
  let opts := pass_arrays one conv dtype_of samples (λ s, s.1.2) (λ d, d.1.2) ds in
  let maxs := pass_arrays one conv dtype_of samples (λ s, s.2) (λ d, d.2) ds in
  NoDup (dict_keys ds) →
  (∀ name, name ∈ dict_keys ds ↔ name ∈ input_names m) →
  (∀ name, name ∈ dict_keys samples → name ∈ input_names m) →
  (∀ name, name ∈ dict_keys ds →
           _pd_dtype_to_np_dtype (input_type m name) = Ok (dtype_of name)) →
  samples_fit ds samples →
  (∀ name d x, dict_get name samples = Some d → x ∈ d.1.1 ++ d.1.2 ++ d.2 →
     cast (dtype_of name) x = Ok (conv (dtype_of name) x)) →
  ∃ w',
    _collect_trt_shape_range_info one cast rt model_file model_params (Some gpu_id) path
      (Some ds) data w = (Ok (), w') ∧
    option_obj w' = option_obj w ∧
    trace w'
    = trace w
      ++ [EvCreatePredictor id (calibration_config model_file model_params (Some gpu_id) path)]
      ++ feed_events id mins ++ [EvRun id]
      ++ feed_events id opts ++ [EvRun id]
      ++ feed_events id opts ++ [EvRun id]
      ++ feed_events id maxs ++ [EvRun id]
      ++ (if reference_counting rt then [EvDestroyPredictor id] else []).
Proof.
  intros m id samples mins opts maxs Hnd Hnames Hdata Hty Hfit Hconv.
  unfold _collect_trt_shape_range_info.
  fold (calibration_config model_file model_params (Some gpu_id) path).
  rewrite (bind_Ok _ _ _ _ _ (create_predictor_run _ w)). fold id.
  set (p := {| pid := id; p_config := _ |}).
  set (w1 := add_events _ w).
  change (get_input_names rt p) with (input_names m).
  rewrite bind_unfold. cbn [iterable mret M_ret]. cbn beta iota.
  rewrite (bind_Ok _ _ _ _ _ (for_check_pass (input_names m) (dict_keys ds) _ w1
    ltac:(apply Forall_forall; intros ??; by apply Hnames))).
  rewrite (bind_Ok _ _ _ _ _ (for_check_pass (dict_keys ds) (input_names m) _ w1
    ltac:(apply Forall_forall; intros ??; by apply Hnames))).
  rewrite (bind_Ok _ _ _ _ _ (for_check_pass (input_names m) (dict_keys (default [] data)) _ w1
    ltac:(apply Forall_forall; intros ??; by apply Hdata))).
  rewrite (bind_Ok _ _ _ _ _
             (candidate_arrays_exact p ds (default [] data) dtype_of conv w1 Hnd Hty Hfit
                Hconv)).
  fold samples mins opts maxs.
  cbn [for_]. unfold predictor_run.
  repeat (rewrite bind_unfold; rewrite ?feed_run, ?emit_run; cbn beta iota).
  cbn [mret M_ret].
  unfold w1. rewrite !add_events_app.
  unfold release_local, destroy_predictor. cbn [pid p].
  destruct (reference_counting rt).
  - eexists. split; [reflexivity|]. cbn [option_obj trace add_events].
    split; [done|]. by rewrite <-!app_assoc.
  - eexists. split; [reflexivity|]. cbn [option_obj trace add_events].
    split; [done|]. rewrite <-?app_assoc. by repeat f_equal.
Qed.

(** *** What construction does to the option object *)

Lemma configure_trt_option prefix model_file params_file cache_dir w :
  option_obj (StaticInfer__configure_trt one cast rt prefix model_file params_file
                cache_dir w).2 = option_obj w.
Proof.
  by destruct (configure_trt_appends one cast rt prefix model_file params_file cache_dir w)
    as (_ & _ & ? & _).
Qed.

(** X17: the caller's option object is changed in place, and by the first
    block of [_create] only: once the model files are found, its
    [run_mode] is [mkldnn] if the model is [LaTeX_OCR_rec] and its
    [device_id] is [0] if it was unset on gpu or dcu, whether construction
    then succeeds or fails; every other field stays as it was; without
    model files the object is untouched. *)
Theorem construction_changes_only_run_mode_and_device_id md prefix o w :
  option_obj (StaticInfer__init__ one cast rt md prefix o w).2
  = match dict_get "paddle" (get_model_paths rt md prefix) with
    | Some _ =>
        let o := if decide (model_name o = "LaTeX_OCR_rec")
                 then set_run_mode "mkldnn" o else o in
        if bool_decide (device_type o ∈ ["gpu"; "dcu"]) && bool_decide (device_id o = None)
        then set_device_id (Some 0) o else o
    | None => o
    end.
Proof.
  rewrite init_unfold.
  destruct (dict_get "paddle" (get_model_paths rt md prefix)) as [[mf pf]|] eqn:Hpaths.
  - destruct (create_unfold one cast rt md prefix (bound o w) mf pf Hpaths)
      as (logs & _ & ->).
    cbn [bound option_obj fs trace].
    fold (defaults_device_id (if decide (model_name o = "LaTeX_OCR_rec")
                              then set_run_mode "mkldnn" o else o)).
    fold (normalized o).
    set (w_n := {| fs := fs w; trace := trace w ++ logs; option_obj := normalized o |}).
    assert (Hw_n : option_obj w_n = normalized o) by done. clearbody w_n.
    rewrite bind_unfold.
    assert (Hfirst : ∃ r w1,
              (if String.prefix "trt" (run_mode (normalized o))
               then assert (bool_decide (device_type (normalized o) = "gpu"));;
                    StaticInfer__configure_trt one cast rt prefix mf pf
                      (md ++ [CACHE_DIR; "paddle"])
               else mret (new_Config mf pf)) w_n = (r, w1) ∧
              option_obj w1 = normalized o).
    { destruct (String.prefix "trt" (run_mode (normalized o))).
      - rewrite bind_unfold. unfold assert.
        destruct (bool_decide (device_type (normalized o) = "gpu")).
        + cbn [mret M_ret]. cbn beta iota.
          eexists _, _. split; [apply surjective_pairing|].
          by rewrite configure_trt_option.
        + by eexists _, _.
      - by eexists _, _. }
    destruct Hfirst as ([config|e] & w1 & -> & Hw1); [|done].
    rewrite bind_unfold.
    destruct (configure_device_run rt (normalized o) config w1) as (evs & Hw2 & _).
    destruct (configure_device rt (normalized o) config w1) as [[config'|e] w2];
      cbn [snd] in Hw2; subst w2.
    + by rewrite create_predictor_run.
    + done.
  - unfold StaticInfer__create. by rewrite Hpaths.
Qed.

End CalibrationTrace.

(** ** The first collection of shape ranges *)

Section FirstCollection.
Context {scalar : Type}.
Variable one : np_dtype → scalar.
Variable cast : np_dtype → scalar → result scalar.
Variable rt : runtime scalar.

Implicit Types (w : world scalar) (ev : event scalar) (evs : list (event scalar)).
Implicit Types (files : gmap Path fnode).

(** *** Creating the directory of the profile *)

Lemma mkdir_parents_fails ps files d :
  d ∈ ps → files !! d = Some File → mkdir_parents ps files = None.
Proof.
  revert files. induction ps as [|p ps IH]; intros files Hin Hd.
  - by apply elem_of_nil in Hin.
  - cbn [mkdir_parents]. destruct (decide (d = p)) as [->|Hne].
    + by rewrite Hd.
    + apply elem_of_cons in Hin as [?|Hin]; [done|].
      destruct (files !! p) as [[]|] eqn:Hp; [done|by apply IH|].
      apply IH; [done|]. by rewrite lookup_insert_ne.
Qed.

Lemma mkdir_parents_creates ps files :
  (∀ d, d ∈ ps → files !! d ≠ Some File) →
  ∃ files', mkdir_parents ps files = Some files' ∧
    (∀ d, d ∈ ps → files' !! d = Some Dir) ∧
    (∀ q, q ∉ ps → files' !! q = files !! q).
Proof.
  revert files. induction ps as [|p ps IH]; intros files Hok.
  - exists files. split; [done|]. split; [|done].
    intros d Hd. by apply elem_of_nil in Hd.
  - cbn [mkdir_parents]. destruct (files !! p) as [[]|] eqn:Hp.
    + exfalso. apply (Hok p); [by left|done].
    + destruct (IH files) as (files' & -> & Hdirs & Hrest).
      { intros d Hd. apply Hok. by right. }
      exists files'. split; [done|]. split.
      * intros d Hd. apply elem_of_cons in Hd as [->|Hd]; [|by apply Hdirs].
        destruct (decide (p ∈ ps)); [by apply Hdirs|]. by rewrite Hrest.
      * intros q Hq. apply Hrest. intros ?. apply Hq. by right.
    + destruct (IH (<[p:=Dir]> files)) as (files' & -> & Hdirs & Hrest).
      { intros d Hd. destruct (decide (d = p)) as [->|Hne].
        - by rewrite lookup_insert_eq.
        - rewrite lookup_insert_ne by done. apply Hok. by right. }
      exists files'. split; [done|]. split.
      * intros d Hd. apply elem_of_cons in Hd as [->|Hd]; [|by apply Hdirs].
        destruct (decide (p ∈ ps)); [by apply Hdirs|].
        rewrite Hrest by done. apply lookup_insert_eq.
      * intros q Hq. rewrite Hrest by (intros ?; apply Hq; by right).
        apply lookup_insert_ne. intros ->. apply Hq. by left.
Qed.

Lemma path_not_among_parents (p : Path) : p ∉ nonempty_prefixes (parent p).
Proof.
  unfold nonempty_prefixes, parent. intros Hin.
  apply list_elem_of_fmap in Hin as (n & Hp & Hn).
  apply elem_of_seq in Hn.
  assert (Hlen : length p = length (take n (removelast p))) by (by rewrite <-Hp).
  rewrite removelast_firstn_len in Hn, Hlen.
  rewrite !length_take in Hlen. rewrite length_take in Hn. lia.
Qed.

(** X24: on the profile-driven TensorRT route with no profile at the path yet,
    configuration first creates the directory of the profile with all its
    missing ancestors, and fails with [OSError] before anything else
    happens if one of them is a regular file.  Otherwise the directory is
    logged as created, the message that shape ranges will be collected
    follows, and then the calibrator runs: the directories stand whether
    it returns or raises, no other path but the profile is touched, and
    after a return four inference runs are in the trace, the profile is on
    disk exactly under reference counting, and the configuration points
    the tuned dynamic shapes at the profile. *)
Theorem first_collection_creates_directory prefix model_file params_file cache_dir w :
  let o := option_obj w in
  let path := shape_range_info_path_of cache_dir o in
  let dirs := nonempty_prefixes (parent path) in
  let configure :=
    StaticInfer__configure_trt one cast rt prefix model_file params_file cache_dir in
  USE_PIR_TRT rt = false →
  trt_use_dynamic_shapes o = true →
  trt_collect_shape_range_info o = true →
  run_mode o ∈ ["trt_int8"; "trt_fp32"; "trt_fp16"] →
  fs w !! path = None →
  ((∃ d, d ∈ dirs ∧ fs w !! d = Some File) →
   configure w = (Raise (OSError (parent path)), w)) ∧
  ((∀ d, d ∈ dirs → fs w !! d ≠ Some File) →
   ∃ r w' evs,
     configure w = (r, w') ∧
     trace w'
     = trace w ++ [EvMkdir (parent path); EvLog INFO (MsgShapeRangeWillBeCollected path)]
         ++ evs ∧
     (∀ d, d ∈ dirs → fs w' !! d = Some Dir) ∧
     (∀ q, q ∉ dirs → q ≠ path → fs w' !! q = fs w !! q) ∧
     match r with
     | Ok config =>
         length (filter (λ ev, is_run ev) evs) = 4 ∧
         fs w' !! path = (if reference_counting rt then Some File else None) ∧
         ∃ precision,
           (run_mode o, precision) ∈ PRECISION_MAP ∧
           config = with_calls (new_Config model_file params_file)
                      [set_optim_cache_dir (cache_dir ++ ["optim_cache"]);
                       enable_tensorrt_engine (trt_max_workspace_size o)
                         (trt_max_batch_size o) (trt_min_subgraph_size o) precision
                         (trt_use_static o) (trt_use_calib_mode o);
                       enable_tuned_tensorrt_dynamic_shape path
                         (trt_allow_rebuild_at_runtime o)]
     | Raise _ => filter (λ ev, is_run ev) evs = [] ∧ fs w' !! path = None
     end).
Proof.
  intros o path dirs configure Hpir Hdyn Hcol Hmode Hnone.
  destruct (configure_trt_profile_route one cast rt prefix model_file params_file cache_dir w
              Hpir Hdyn Hcol Hmode) as [config Hrun].
  fold o path configure in Hrun. rewrite Hnone in Hrun.
  assert (Hpath : path ∉ dirs) by apply path_not_among_parents.
  split.
  - intros (d & Hd & Hfile). rewrite Hrun, bind_unfold. unfold path_mkdir_parents.
    fold dirs. by rewrite (mkdir_parents_fails dirs (fs w) d Hd Hfile).
  - intros Hok.
    destruct (mkdir_parents_creates dirs (fs w) Hok) as (files' & Hmk & Hdirs & Hrest).
    rewrite bind_unfold in Hrun. unfold path_mkdir_parents in Hrun. fold dirs in Hrun.
    rewrite Hmk in Hrun. cbn beta iota in Hrun.
    rewrite bind_unfold in Hrun. unfold logging in Hrun. rewrite emit_run in Hrun.
    cbn beta iota in Hrun. rewrite bind_unfold in Hrun.
    match type of Hrun with
    | context [_collect_trt_shape_range_info _ _ _ _ _ _ _ _ _ ?w1] => set (w2 := w1) in *
    end.
    assert (Hfs2 : fs w2 = files') by done.
    assert (Htr2 : trace w2
                   = trace w ++ [EvMkdir (parent path);
                                 EvLog INFO (MsgShapeRangeWillBeCollected path)]).
    { unfold w2. cbn [add_events trace]. by rewrite <-app_assoc. }
    assert (Hopt2 : option_obj w2 = option_obj w) by done.
    clearbody w2.
    destruct (collect_outcome one cast rt model_file params_file (device_id o) path
                (trt_dynamic_shapes o) (trt_dynamic_shape_input_data o) w2)
      as (evs & _ & Htr & Hout).
    destruct (_collect_trt_shape_range_info one cast rt model_file params_file (device_id o)
                path (trt_dynamic_shapes o) (trt_dynamic_shape_input_data o) w2)
      as [[[]|e] w3]; cbn [fst snd] in Htr, Hout.
    + destruct Hout as [(_ & Hfs & Hruns)|([e He] & _)]; [|done].
      cbn [mret M_ret] in Hrun.
      exists (Ok config), w3, evs. split; [exact Hrun|].
      split; [by rewrite Htr, Htr2, <-app_assoc|].
      assert (Hother : ∀ q, q ≠ path → fs w3 !! q = files' !! q).
      { intros q Hq. rewrite Hfs, Hfs2. destruct (reference_counting rt); [|done].
        by rewrite lookup_insert_ne. }
      split.
      { intros d Hd. rewrite Hother by (intros ->; done). by apply Hdirs. }
      split.
      { intros q Hq Hne. rewrite Hother by done. by apply Hrest. }
      split; [done|]. split.
      { rewrite Hfs, Hfs2. destruct (reference_counting rt).
        - apply lookup_insert_eq.
        - by rewrite Hrest. }
      destruct (old_route_config one cast rt prefix model_file params_file cache_dir w
                  config w3 Hpir Hrun) as (precision & dyn & Hprec & -> & _ & Hdynl & _).
      exists precision. split; [done|]. by rewrite (Hdynl Hdyn Hcol).
    + destruct Hout as [(He & _)|(_ & Hfs & Hruns)]; [done|].
      exists (Raise e), w3, evs. split; [exact Hrun|].
      split; [by rewrite Htr, Htr2, <-app_assoc|].
      rewrite Hfs, Hfs2. split; [done|]. split; [intros; by apply Hrest|].
      split; [done|]. by rewrite Hrest.
Qed.

End FirstCollection.

(** ** Element types and construction *)

Section ElementTypes.
Context {scalar : Type}.
Variable one : np_dtype → scalar.
Variable cast : np_dtype → scalar → result scalar.
Variable rt : runtime scalar.

Implicit Types (w : world scalar) (ev : event scalar) (evs : list (event scalar)).
Implicit Types (o : PaddlePredictorOption scalar).






End ElementTypes.

(** ** [DetPostProcess.apply] *)

Section Detection.
Context {number L : Type}.
Variable gt : number → number → bool.
Variable minus_one : number.

Implicit Types (self : DetPostProcess number L) (boxes : array2d number).

Lemma Forall_filter {A} (P Q : A → Prop) `{!∀ x, Decision (Q x)} (l : list A) :
  Forall P l → Forall P (filter Q l).
Proof.
  rewrite !Forall_forall. intros Hl x Hx. apply list_elem_of_filter in Hx as [_ Hx]. auto.
Qed.

Lemma column_run j boxes :
  well_formed boxes → j < d_cols boxes →
  ∃ col, column j boxes = Ok col ∧ length col = length (d_rows boxes) ∧
         ∀ i row, d_rows boxes !! i = Some row → col !! i = row !! j ∧ is_Some (row !! j).
Proof.
  intros Hwf Hj. unfold column. rewrite decide_True by done.
  destruct (comprehension_total (λ row, getitem row j) (d_rows boxes)) as [col Hcol].
  { eapply Forall_impl; [exact Hwf|]. intros row Hrow. cbn beta in Hrow. unfold getitem.
    destruct (lookup_lt_is_Some_2 row j) as [x Hx]; [lia|]. rewrite Hx. eauto. }
  exists col. split; [done|].
  apply comprehension_lookup in Hcol as [Hlen Hcol]. split; [done|].
  intros i row Hrow. destruct (Hcol i row Hrow) as (y & Hy & Hi).
  unfold getitem in Hy. destruct (row !! j) as [x|]; [|done].
  injection Hy as ->. eauto.
Qed.

Lemma compress_filter self (rows : list (list number)) scores classes :
  length scores = length rows → length classes = length rows →
  (∀ i row, rows !! i = Some row →
     (scores !! i = row !! 1 ∧ is_Some (row !! 1)) ∧
     (classes !! i = row !! 0 ∧ is_Some (row !! 0))) →
  compress (zip_with andb ((λ s, gt s (threshold self)) <$> scores)
                          ((λ c, gt c minus_one) <$> classes)) rows
  = filter (λ row, kept gt minus_one self row = true) rows.
Proof.
  revert scores classes. induction rows as [|row rows IH]; intros scores classes Hs Hc Hlk.
  { by destruct scores, classes. }
  destruct scores as [|s scores]; [done|]. destruct classes as [|c classes]; [done|].
  destruct (Hlk 0 row eq_refl) as [[Hs0 [s' Hs']] [Hc0 [c' Hc']]].
  rewrite Hs' in Hs0. rewrite Hc' in Hc0. injection Hs0 as ->. injection Hc0 as ->.
  destruct row as [|c0 [|s0 rest]]; try done.
  injection Hs' as ->. injection Hc' as ->.
  cbn [fmap list_fmap zip_with compress].
  rewrite IH; [| simpl in *; lia | simpl in *; lia | intros i r Hr; apply (Hlk (S i) r Hr)].
  destruct (gt s' (threshold self) && gt c' minus_one) eqn:Hk.
  - by rewrite filter_cons_True.
  - rewrite filter_cons_False; [done|]. cbn [kept]. by rewrite Hk.
Qed.

Lemma apply_run self boxes :
  well_formed boxes → 2 ≤ d_cols boxes →
  DetPostProcess_apply gt minus_one self boxes
  = Ok {| res_boxes := {| d_cols := d_cols boxes;
                          d_rows := filter (λ row, kept gt minus_one self row = true)
                                      (d_rows boxes) |};
          res_labels := labels self |}.
Proof.
  intros Hwf Hcols. unfold DetPostProcess_apply.
  destruct (column_run 1 boxes Hwf) as (scores & -> & Hslen & Hs); [lia|].
  destruct (column_run 0 boxes Hwf) as (classes & -> & Hclen & Hc); [lia|].
  cbn [result_bind]. unfold mask_rows.
  rewrite decide_True.
  - cbn [result_bind]. do 3 f_equal. apply compress_filter; [done..|].
    intros i row Hrow. split; [by apply Hs|by apply Hc].
  - rewrite length_zip_with, !length_fmap. lia.
Qed.

(** X22: on a two-dimensional array with at least two columns, [apply] returns
    the array of exactly the rows whose score, in column 1, exceeds the
    threshold and whose class id, in column 0, exceeds [-1]: each such row
    as often as it occurs, in the order of the input and unchanged,
    together with the labels of the object as they are; with fewer than
    two columns it raises [IndexError], even when the array has no rows. *)
Theorem det_keeps_confident_boxes self boxes :
  well_formed boxes →
  (2 ≤ d_cols boxes →
   DetPostProcess_apply gt minus_one self boxes
   = Ok {| res_boxes :=
             {| d_cols := d_cols boxes;
                d_rows := filter (λ row, kept gt minus_one self row = true) (d_rows boxes) |};
           res_labels := labels self |}) ∧
  (∀ row, kept gt minus_one self row = true ↔
          ∃ class_id score rest,
            row = class_id :: score :: rest ∧
            gt score (threshold self) = true ∧ gt class_id minus_one = true) ∧
  (d_cols boxes < 2 → DetPostProcess_apply gt minus_one self boxes = Raise IndexError).
Proof.
  intros Hwf. split; [|split].
  - intros Hcols. by apply apply_run.
  - intros row. split.
    + intros Hkept. destruct row as [|c [|s rest]]; try done.
      exists c, s, rest. cbn [kept] in Hkept. apply andb_true_iff in Hkept. tauto.
    + intros (c & s & rest & -> & Hs & Hc). cbn [kept]. by rewrite Hs, Hc.
  - intros Hcols. unfold DetPostProcess_apply, column.
    destruct (decide (1 < d_cols boxes)); [lia|]. done.
Qed.

(** X23: post-processing is idempotent: applied to its own result it changes
    nothing. *)
Theorem det_postprocess_idempotent self boxes res :
  well_formed boxes →
  DetPostProcess_apply gt minus_one self boxes = Ok res →
  DetPostProcess_apply gt minus_one self (res_boxes res) = Ok res.
Proof.
  intros Hwf Hres.
  destruct (decide (2 ≤ d_cols boxes)) as [Hcols|Hcols].
  - rewrite apply_run in Hres by done. injection Hres as <-.
    cbn [res_boxes]. rewrite apply_run.
    + cbn [d_cols d_rows]. do 3 f_equal.
      apply list_filter_filter_l. done.
    + unfold well_formed. cbn [d_rows d_cols]. by apply Forall_filter.
    + done.
  - unfold DetPostProcess_apply, column in Hres.
    destruct (decide (1 < d_cols boxes)); [lia|]. done.
Qed.

End Detection.

(** *** The theorems at work on the concrete setting *)

Lemma calibration_feeds_witness :
  let data := Some [("x", ([1; 2; 3], [1; 2; 3; 4; 5; 6], [0; 0; 0; 0; 0; 0; 1; 1; 1; 1; 1; 1]))]%Z in
  NoDup (dict_keys Ex.shapes_x) ∧
  ∃ w' evs,
    _collect_trt_shape_range_info Ex.one Ex.cast (Ex.rt ["x"] true)
      ["inference.json"] ["inference.pdiparams"] (Some 0) Ex.profile
      (Some Ex.shapes_x) data (Ex.world0 ∅ (Ex.opt "ResNet50" "gpu" "trt_fp16" (Some 0) false))
    = (Ok (), w') ∧
    trace w' = [] ++ evs ∧
    feeds_by_run 0 evs
    = ([[("x", [1; 3])]; [("x", [2; 3])]; [("x", [2; 3])]; [("x", [4; 3])]], []) ∧
    length (filter (λ ev, is_run ev) evs) = 4.
Proof.
  intros data.
  assert (Hnd : NoDup (dict_keys Ex.shapes_x)) by (apply NoDup_singleton).
  split; [exact Hnd|].
  destruct (calibration_feeds_min_opt_opt_max Ex.one Ex.cast (Ex.rt ["x"] true)
              ["inference.json"] ["inference.pdiparams"] 0 Ex.profile Ex.shapes_x data
              (Ex.world0 ∅ (Ex.opt "ResNet50" "gpu" "trt_fp16" (Some 0) false)) Hnd)
    as [Hfed Hreturns].
  destruct Hreturns as [w' Hrun].
  - intros name. reflexivity.
  - intros name Hin. exact Hin.
  - intros name _. by exists np_float32.
  - intros name s d Hin Hd. apply list_elem_of_singleton in Hin. injection Hin as -> ->.
    vm_compute in Hd. injection Hd as <-. vm_compute. auto.
  - intros name d t x _ Ht _. vm_compute in Ht. injection Ht as <-. by exists x.
  - destruct (Hfed w' Hrun) as (evs & Htrace & Hfeeds & Hruns).
    exists w', evs. auto.
Defined.

Lemma dynamic_shape_names_witness :
  ¬ (∀ name, name ∈ dict_keys [("y", ([1], [2], [4]))] ↔ name ∈ ["x"]) ∧
  (∃ e w',
     _collect_trt_shape_range_info Ex.one Ex.cast (Ex.rt ["x"] true)
       ["inference.json"] ["inference.pdiparams"] (Some 0) Ex.profile
       (Some [("y", ([1], [2], [4]))]) None
       (Ex.world0 ∅ (Ex.opt "ResNet50" "gpu" "trt_fp16" (Some 0) false)) = (Raise e, w') ∧
     name_mismatch ["y"] ["x"] "dynamic_shapes" e) ∧
  (∃ e w',
     _convert_trt (Ex.rt ["x"] true) "ResNet50" "trt_fp16"
       ["inference.json"] ["inference.pdiparams"] (Ex.cache_dir ++ ["trt"; "inference"])
       (Some [("y", ([1], [2], [4]))])
       (Ex.world0 ∅ (Ex.opt "ResNet50" "gpu" "trt_fp16" (Some 0) false)) = (Raise e, w') ∧
     name_mismatch ["y"] ["x"] "trt_dynamic_shapes" e).
Proof.
  assert (Hne : ¬ (∀ name, name ∈ dict_keys [("y", ([1], [2], [4]))] ↔ name ∈ ["x"])).
  { intros H. assert (Hx : "x" ∈ ["y"]) by (apply H; apply list_elem_of_singleton; reflexivity).
    apply list_elem_of_singleton in Hx. discriminate Hx. }
  split; [exact Hne|].
  destruct (dynamic_shape_names_must_match Ex.one Ex.cast (Ex.rt ["x"] true)
              ["inference.json"] ["inference.pdiparams"] (Some 0) Ex.profile
              [("y", ([1], [2], [4]))] None "ResNet50" "trt_fp16"
              (Ex.cache_dir ++ ["trt"; "inference"])
              (Ex.world0 ∅ (Ex.opt "ResNet50" "gpu" "trt_fp16" (Some 0) false)) Hne)
    as [(e1 & w1 & H1 & M1 & _) (e2 & w2 & H2 & M2 & _)].
  split; [exists e1, w1|exists e2, w2]; split; assumption.
Defined.

Lemma shape_range_profile_witness :
  USE_PIR_TRT (Ex.rt ["x"] true) = false ∧
  is_Some (({[Ex.profile := File]} : gmap Path fnode) !! Ex.profile) ∧
  ∃ config,
    StaticInfer__configure_trt Ex.one Ex.cast (Ex.rt ["x"] true) "inference"
      ["inference.json"] ["inference.pdiparams"] Ex.cache_dir
      (Ex.world0 {[Ex.profile := File]} (Ex.opt "ResNet50" "gpu" "trt_fp16" (Some 0) false))
    = (Ok config,
       add_events [EvLog INFO (MsgShapeRangeExists Ex.profile)]
         (Ex.world0 {[Ex.profile := File]}
            (Ex.opt "ResNet50" "gpu" "trt_fp16" (Some 0) false))).
Proof.
  assert (Hfound : is_Some (({[Ex.profile := File]} : gmap Path fnode) !! Ex.profile)).
  { exists File. apply lookup_singleton_eq. }
  split; [reflexivity|]. split; [exact Hfound|].
  destruct (shape_range_profile_generated_once Ex.one Ex.cast (Ex.rt ["x"] true) "inference"
              ["inference.json"] ["inference.pdiparams"] Ex.cache_dir
              (Ex.world0 {[Ex.profile := File]}
                 (Ex.opt "ResNet50" "gpu" "trt_fp16" (Some 0) false)))
    as (Hskip & _ & _).
  - reflexivity.
  - reflexivity.
  - reflexivity.
  - apply list_elem_of_In. simpl. auto.
  - apply Hskip; [exact Hfound|reflexivity].
Defined.

Lemma profile_written_only_by_finalizer_witness :
  reference_counting (Ex.rt ["x"] false) = false ∧
  (_collect_trt_shape_range_info Ex.one Ex.cast (Ex.rt ["x"] false)
     ["inference.json"] ["inference.pdiparams"] (Some 0) Ex.profile
     (Some Ex.shapes_x) None
     (Ex.world0 ∅ (Ex.opt "ResNet50" "gpu" "trt_fp16" (Some 0) false))).1 = Ok () ∧
  fs (_collect_trt_shape_range_info Ex.one Ex.cast (Ex.rt ["x"] false)
        ["inference.json"] ["inference.pdiparams"] (Some 0) Ex.profile
        (Some Ex.shapes_x) None
        (Ex.world0 ∅ (Ex.opt "ResNet50" "gpu" "trt_fp16" (Some 0) false))).2
    !! Ex.profile = None.
Proof.
  split; [reflexivity|]. split; [vm_compute; reflexivity|].
  rewrite (profile_written_only_by_finalizer Ex.one Ex.cast (Ex.rt ["x"] false)
             ["inference.json"] ["inference.pdiparams"] (Some 0) Ex.profile
             (Some Ex.shapes_x) None
             (Ex.world0 ∅ (Ex.opt "ResNet50" "gpu" "trt_fp16" (Some 0) false)) eq_refl).
  apply lookup_empty.
Defined.

Lemma call_reorders_witness :
  length [Ex.array 2; Ex.array 1]
  = length (get_input_names (Ex.rt ["b"; "a"] true) (predictor Ex.facade_ba)) ∧
  StaticInfer__call__ (Ex.rt ["b"; "a"] true) Ex.facade_ba [Ex.array 1; Ex.array 2]
    (Ex.world0 ∅ (Ex.opt "ResNet50" "cpu" "paddle" None false))
  = pipeline__call__ (Ex.rt ["b"; "a"] true) (infer Ex.facade_ba)
      [np_ascontiguousarray (Ex.array 2); np_ascontiguousarray (Ex.array 1)]
      (Ex.world0 ∅ (Ex.opt "ResNet50" "cpu" "paddle" None false)).
Proof.
  split; [reflexivity|].
  exact (proj1 (call_reorders_to_declared_order (Ex.rt ["b"; "a"] true) Ex.facade_ba
                  [Ex.array 2; Ex.array 1]
                  (Ex.world0 ∅ (Ex.opt "ResNet50" "cpu" "paddle" None false)) eq_refl)).
Defined.

Lemma call_rejects_wrong_input_count_witness :
  length [Ex.array 1]
  ≠ length (get_input_names (Ex.rt ["b"; "a"] true) (predictor Ex.facade_ba)) ∧
  StaticInfer__call__ (Ex.rt ["b"; "a"] true) Ex.facade_ba [Ex.array 1]
    (Ex.world0 ∅ (Ex.opt "ResNet50" "cpu" "paddle" None false))
  = (Raise (ValueError (InputCountMismatch 2 1)),
     Ex.world0 ∅ (Ex.opt "ResNet50" "cpu" "paddle" None false)).
Proof.
  assert (Hne : length [Ex.array 1]
    ≠ length (get_input_names (Ex.rt ["b"; "a"] true) (predictor Ex.facade_ba)))
    by (intros H; discriminate H).
  split; [exact Hne|].
  exact (proj1 (call_rejects_wrong_input_count (Ex.rt ["b"; "a"] true) Ex.facade_ba
                  [Ex.array 1]
                  (Ex.world0 ∅ (Ex.opt "ResNet50" "cpu" "paddle" None false)) Hne)).
Defined.

Lemma trt_on_non_gpu_witness :
  device_type (Ex.opt "ResNet50" "cpu" "trt_fp16" None false) ≠ "gpu" ∧
  ∃ w' evs,
    StaticInfer__init__ Ex.one Ex.cast (Ex.rt ["x"] true) Ex.models "inference"
      (Ex.opt "ResNet50" "cpu" "trt_fp16" None false)
      (Ex.world0 ∅ (Ex.opt "ResNet50" "cpu" "trt_fp16" None false))
    = (Raise AssertionError, w') ∧
    fs w' = ∅ ∧ trace w' = [] ++ evs ∧ Forall (λ ev, is_log ev = true) evs.
Proof.
  assert (Hne : device_type (Ex.opt "ResNet50" "cpu" "trt_fp16" None false) ≠ "gpu")
    by (intros H; discriminate H).
  split; [exact Hne|].
  apply (proj2 (trt_on_non_gpu_is_rejected Ex.one Ex.cast (Ex.rt ["x"] true) Ex.models
                  "inference" (Ex.opt "ResNet50" "cpu" "trt_fp16" None false)
                  (Ex.world0 ∅ (Ex.opt "ResNet50" "cpu" "trt_fp16" None false)) Hne)).
  - eexists. reflexivity.
  - intros H; discriminate H.
  - reflexivity.
Defined.

(** A TensorRT run mode on a CPU is accepted for [LaTeX_OCR_rec]: the run
    mode is overwritten before it is looked at. *)
Lemma latex_ocr_trt_on_cpu_constructs :
  String.prefix "trt" (run_mode (Ex.opt "LaTeX_OCR_rec" "cpu" "trt_fp16" None false)) = true ∧
  device_type (Ex.opt "LaTeX_OCR_rec" "cpu" "trt_fp16" None false) ≠ "gpu" ∧
  (∃ fac,
     (StaticInfer__init__ Ex.one Ex.cast (Ex.rt ["x"] true) Ex.models "inference"
        (Ex.opt "LaTeX_OCR_rec" "cpu" "trt_fp16" None false)
        (Ex.world0 ∅ (Ex.opt "LaTeX_OCR_rec" "cpu" "trt_fp16" None false))).1 = Ok fac) ∧
  ¬ (∃ e,
     (StaticInfer__init__ Ex.one Ex.cast (Ex.rt ["x"] true) Ex.models "inference"
        (Ex.opt "LaTeX_OCR_rec" "cpu" "trt_fp16" None false)
        (Ex.world0 ∅ (Ex.opt "LaTeX_OCR_rec" "cpu" "trt_fp16" None false))).1 = Raise e).
Proof.
  split; [reflexivity|]. split; [intros H; discriminate H|]. split.
  - eexists. vm_compute. reflexivity.
  - intros [e He]. vm_compute in He. discriminate He.
Qed.

Lemma device_id_defaulted_witness :
  ∃ fac w',
    StaticInfer__init__ Ex.one Ex.cast (Ex.rt ["x"] true) Ex.models "inference"
      (Ex.opt "ResNet50" "gpu" "paddle" None false)
      (Ex.world0 ∅ (Ex.opt "ResNet50" "gpu" "paddle" None false)) = (Ok fac, w') ∧
    device_id (option_obj w') = Some 0 ∧
    ∀ x w1, option_obj (StaticInfer__call__ (Ex.rt ["x"] true) fac x w1).2 = option_obj w1.
Proof.
  eexists _, _. split; [vm_compute; reflexivity|].
  match goal with
  | |- device_id (option_obj ?w') = _ ∧ (∀ x w1, option_obj (_ _ ?fac _ _).2 = _) =>
      destruct (device_id_defaulted_once Ex.one Ex.cast (Ex.rt ["x"] true) Ex.models
                  "inference" (Ex.opt "ResNet50" "gpu" "paddle" None false)
                  (Ex.world0 ∅ (Ex.opt "ResNet50" "gpu" "paddle" None false)) fac w')
        as (Hset & _ & Hcalls)
  end.
  - vm_compute. reflexivity.
  - split.
    + apply Hset; [|reflexivity]. apply list_elem_of_In. simpl. auto.
    + intros x w1. apply Hcalls.
Defined.

Lemma sort_inputs_is_permutation_witness :
  length [10; 20; 30] = length ["c"; "a"; "b"] ∧
  ∃ r, _sort_inputs [10; 20; 30] ["c"; "a"; "b"] = Ok r ∧ r ≡ₚ [10; 20; 30] ∧
       length r = length [10; 20; 30].
Proof.
  split; [reflexivity|].
  exact (sort_inputs_is_permutation [10; 20; 30] ["c"; "a"; "b"] eq_refl).
Defined.

(** Two configurations in a row under reference counting: the first
    calibrates (four runs), the second finds the profile and runs nothing. *)
Example second_configuration_runs_nothing :
  let rt := Ex.rt ["x"] true in
  let o := Ex.opt "ResNet50" "gpu" "trt_fp16" (Some 0) false in
  let configure :=
    StaticInfer__configure_trt Ex.one Ex.cast rt "inference"
      ["inference.json"] ["inference.pdiparams"] Ex.cache_dir in
  let first := configure (Ex.world0 ∅ o) in
  let second := configure first.2 in
  length (filter (λ ev, is_run ev) (trace first.2)) = 4 ∧
  fs first.2 !! Ex.profile = Some File ∧
  trace second.2 = trace first.2 ++ [EvLog INFO (MsgShapeRangeExists Ex.profile)].
Proof. vm_compute. done. Qed.


Example sort_inputs_b_a : _sort_inputs ["ta"; "tb"] ["b"; "a"] = Ok ["tb"; "ta"].
Proof. reflexivity. Qed.

(** *** Further theorems at work on the concrete settings *)

Lemma sort_inputs_rejects_surplus_inputs_witness :
  length ["b"; "a"] < length [1; 2; 3] ∧
  _sort_inputs [1; 2; 3] ["b"; "a"] = Raise (ValueError (NotInList 2)).
Proof.
  assert (Hlen : length ["b"; "a"] < length [1; 2; 3]) by (simpl; lia).
  split; [exact Hlen|].
  exact (sort_inputs_rejects_surplus_inputs [1; 2; 3] ["b"; "a"] Hlen).
Defined.


Lemma sample_data_names_witness :
  ∃ name,
    _collect_trt_shape_range_info Ex.one Ex.cast (Ex.rt ["x"] true)
      ["inference.json"] ["inference.pdiparams"] (Some 0) Ex.profile
      (Some Ex.shapes_x) (Some [("y", ([1%Z], [1%Z], [1%Z]))])
      (Ex.world0 ∅ (Ex.opt "ResNet50" "gpu" "trt_fp16" (Some 0) false))
    = (Raise (ValueError (InvalidInputName name "dynamic_shape_input_data")),
       add_events
         [EvCreatePredictor 0
            (calibration_config ["inference.json"] ["inference.pdiparams"] (Some 0)
               Ex.profile)]
         (Ex.world0 ∅ (Ex.opt "ResNet50" "gpu" "trt_fp16" (Some 0) false))).
Proof.
  destruct (sample_data_names_must_be_inputs Ex.one Ex.cast (Ex.rt ["x"] true)
              ["inference.json"] ["inference.pdiparams"] (Some 0) Ex.profile
              Ex.shapes_x [("y", ([1%Z], [1%Z], [1%Z]))]
              (Ex.world0 ∅ (Ex.opt "ResNet50" "gpu" "trt_fp16" (Some 0) false)))
    as (name & _ & _ & H).
  - intros name. reflexivity.
  - intros H. apply Forall_cons in H as [H _].
    apply list_elem_of_singleton in H. discriminate H.
  - exists name. exact H.
Defined.


Lemma trt_settings_applied_witness :
  _set_trt_config (Ex2.rt ["x"] Ex2.float32 true false [("ResNet50", Ex2.settings)])
    "ResNet50" {| trt_inputs := []; trt_attrs := [] |}
    (Ex.world0 ∅ (Ex.opt "ResNet50" "gpu" "trt_fp16" (Some 0) false))
  = (Ok {| trt_inputs := []; trt_attrs := Ex2.settings |},
     add_events [EvLog WARNING (MsgTensorRTConfigLacks "ops_run_float")]
       (Ex.world0 ∅ (Ex.opt "ResNet50" "gpu" "trt_fp16" (Some 0) false))).
Proof.
  apply (trt_settings_applied_with_warnings
           (Ex2.rt ["x"] Ex2.float32 true false [("ResNet50", Ex2.settings)])
           "ResNet50" Ex2.settings {| trt_inputs := []; trt_attrs := [] |}
           (Ex.world0 ∅ (Ex.opt "ResNet50" "gpu" "trt_fp16" (Some 0) false))).
  - reflexivity.
  - apply (bool_decide_unpack _). vm_compute. exact I.
  - intros k _ Hk. by apply elem_of_nil in Hk.
Defined.

Lemma convert_trt_hands_over_declared_inputs_witness :
  ∃ w' evs trt_config,
    _convert_trt (Ex2.rt ["b"; "a"] Ex2.float32 true false []) "ResNet50" "trt_fp16"
      ["inference.json"] ["inference.pdiparams"] (Ex.cache_dir ++ ["trt"; "inference"])
      (Some Ex2.shapes_ab)
      (Ex.world0 ∅ (Ex.opt "ResNet50" "gpu" "trt_fp16" (Some 0) false))
    = (Ok (), w') ∧
    trace w' = [] ++ evs ++ [EvConvert ["inference"] trt_config] ∧
    Forall2 (λ name t, dict_get name Ex2.shapes_ab = Some t) ["b"; "a"]
      (trt_inputs trt_config) ∧
    dict_get "precision_mode" (trt_attrs trt_config) = Some (SPrecisionMode PM_FP16) ∧
    fs w' = with_files [Ex.cache_dir ++ ["trt"; "inference.json"];
                        Ex.cache_dir ++ ["trt"; "inference.pdiparams"]] ∅.
Proof.
  destruct (convert_trt_hands_over_declared_inputs
              (Ex2.rt ["b"; "a"] Ex2.float32 true false []) "ResNet50" "trt_fp16" PM_FP16
              ["inference.json"] ["inference.pdiparams"] (Ex.cache_dir ++ ["trt"; "inference"])
              Ex2.shapes_ab ["inference"]
              (Ex.world0 ∅ (Ex.opt "ResNet50" "gpu" "trt_fp16" (Some 0) false)))
    as (w' & evs & c & Hrun & Hfs & _ & Htr & _ & Hin & Hpm & Hsave).
  - intros name. simpl. rewrite !elem_of_cons, elem_of_nil. tauto.
  - apply list_elem_of_In. simpl. auto.
  - reflexivity.
  - exists w', evs, c. split; [exact Hrun|]. split; [exact Htr|]. split; [exact Hin|].
    split; [exact Hpm|]. rewrite Hfs. cbn [Ex2.rt converted_files]. unfold Ex.saved_model.
    rewrite Hsave. reflexivity.
Defined.

Lemma explicit_dynamic_shapes_witness :
  ∃ config,
    StaticInfer__configure_trt Ex.one Ex.cast (Ex.rt ["a"; "b"] true) "inference"
      ["inference.json"] ["inference.pdiparams"] Ex.cache_dir
      (Ex.world0 ∅ (Ex2.opt_explicit "trt_fp16" (Some Ex2.shapes_ab)))
    = (Ok config, Ex.world0 ∅ (Ex2.opt_explicit "trt_fp16" (Some Ex2.shapes_ab))) ∧
    cfg_calls config
    = [set_optim_cache_dir (Ex.cache_dir ++ ["optim_cache"]);
       enable_tensorrt_engine 1073741824 32 3 Half false false;
       set_trt_dynamic_shape_info [("a", [1; 3])] [("a", [4; 3])] [("a", [2; 3])];
       set_trt_dynamic_shape_info [("a", [1; 3]); ("b", [1])] [("a", [4; 3]); ("b", [16])]
         [("a", [2; 3]); ("b", [8])]].
Proof.
  destruct (explicit_dynamic_shapes_registered_per_key Ex.one Ex.cast (Ex.rt ["a"; "b"] true)
              "inference" ["inference.json"] ["inference.pdiparams"] Ex.cache_dir Half
              (Ex.world0 ∅ (Ex2.opt_explicit "trt_fp16" (Some Ex2.shapes_ab))))
    as (config & Hrun & _ & _ & Hcalls).
  - reflexivity.
  - apply list_elem_of_In. simpl. auto.
  - reflexivity.
  - reflexivity.
  - apply (bool_decide_unpack _). vm_compute. exact I.
  - exists config. split; [exact Hrun|exact Hcalls].
Defined.

Lemma unknown_trt_mode_witness :
  StaticInfer__configure_trt Ex.one Ex.cast (Ex.rt ["x"] true) "inference"
    ["inference.json"] ["inference.pdiparams"] Ex.cache_dir
    (Ex.world0 ∅ (Ex.opt "ResNet50" "gpu" "trt_bf16" (Some 0) false))
  = (Raise (KeyError "trt_bf16"),
     Ex.world0 ∅ (Ex.opt "ResNet50" "gpu" "trt_bf16" (Some 0) false)).
Proof.
  refine (proj1 (unknown_trt_mode_raises_key_error Ex.one Ex.cast (Ex.rt ["x"] true)
                   "inference" ["inference.json"] ["inference.pdiparams"] Ex.cache_dir
                   (Ex.world0 ∅ (Ex.opt "ResNet50" "gpu" "trt_bf16" (Some 0) false)) _)
            eq_refl).
  intros H. repeat (apply elem_of_cons in H as [H|H]; [discriminate H|]).
  by apply elem_of_nil in H.
Defined.

Lemma pir_route_loads_converted_model_witness :
  plain_name "inference" = true ∧
  ∃ w',
    StaticInfer__configure_trt Ex.one Ex.cast (Ex2.rt ["x"] Ex2.float32 true false [])
      "inference" ["inference.json"] ["inference.pdiparams"] Ex.cache_dir
      (Ex.world0 ∅ (Ex.opt "ResNet50" "gpu" "trt_fp16" (Some 0) false))
    = (Ok (new_Config (Ex.cache_dir ++ ["trt"; "inference.json"])
             (Ex.cache_dir ++ ["trt"; "inference.pdiparams"])), w') ∧
    fs w' = with_files [Ex.cache_dir ++ ["trt"; "inference.json"];
                        Ex.cache_dir ++ ["trt"; "inference.pdiparams"]] ∅.
Proof.
  split; [reflexivity|].
  destruct (pir_route_loads_converted_model Ex.one Ex.cast
              (Ex2.rt ["x"] Ex2.float32 true false [])
              "inference" ["inference.json"] ["inference.pdiparams"] Ex.cache_dir PM_FP16
              Ex.shapes_x ["inference"]
              (Ex.world0 ∅ (Ex.opt "ResNet50" "gpu" "trt_fp16" (Some 0) false)))
    as (r & w' & evs & c & Hrun & _ & Hplain & _ & Hfs & _ & _ & _ & _ & Hsave).
  - reflexivity.
  - apply list_elem_of_In. simpl. auto.
  - reflexivity.
  - intros name. reflexivity.
  - reflexivity.
  - exists w'. split.
    + rewrite Hrun. f_equal. apply Hplain; reflexivity.
    + rewrite Hfs. cbn [Ex2.rt converted_files]. unfold Ex.saved_model.
      rewrite Hsave. reflexivity.
Defined.

Lemma construction_without_tensorrt_witness :
  ∃ fac w',
    StaticInfer__init__ Ex.one Ex.cast (Ex.rt ["x"] true) Ex.models "inference"
      (Ex.opt "ResNet50" "cpu" "paddle" None false)
      (Ex.world0 ∅ (Ex.opt "ResNet50" "gpu" "paddle" None false))
    = (Ok fac, w') ∧
    fs w' = ∅ ∧ pid (predictor fac) = 0 ∧
    cfg_model_file (p_config (predictor fac)) = Ex.models ++ ["inference.json"] ∧
    clean (p_config (predictor fac)).
Proof.
  destruct (construction_without_tensorrt Ex.one Ex.cast (Ex.rt ["x"] true) Ex.models
              "inference" (Ex.opt "ResNet50" "cpu" "paddle" None false)
              (Ex.world0 ∅ (Ex.opt "ResNet50" "gpu" "paddle" None false))
              (Ex.models ++ ["inference.json"]) (Ex.models ++ ["inference.pdiparams"]))
    as (fac & w' & logs & Hrun & Hfs & _ & _ & Hpid & Hmf & _ & Hclean).
  - reflexivity.
  - apply list_elem_of_In. simpl. auto 10.
  - right. reflexivity.
  - exists fac, w'. repeat split; assumption.
Defined.

Lemma unknown_device_type_witness :
  ∃ w' logs,
    StaticInfer__init__ Ex.one Ex.cast (Ex.rt ["x"] true) Ex.models "inference"
      (Ex.opt "ResNet50" "ipu" "paddle" None false)
      (Ex.world0 ∅ (Ex.opt "ResNet50" "gpu" "paddle" None false))
    = (Raise AssertionError, w') ∧
    fs w' = ∅ ∧ trace w' = [] ++ logs ∧ Forall (λ ev, is_log ev = true) logs.
Proof.
  apply (unknown_device_type_is_rejected Ex.one Ex.cast (Ex.rt ["x"] true) Ex.models
           "inference" (Ex.opt "ResNet50" "ipu" "paddle" None false)
           (Ex.world0 ∅ (Ex.opt "ResNet50" "gpu" "paddle" None false))
           (Ex.models ++ ["inference.json"]) (Ex.models ++ ["inference.pdiparams"])).
  - reflexivity.
  - intros H. repeat (apply elem_of_cons in H as [H|H]; [discriminate H|]).
    by apply elem_of_nil in H.
Defined.

Lemma mkldnn_failure_witness :
  ∃ fac w' logs,
    StaticInfer__init__ Ex.one Ex.cast (Ex2.rt ["x"] Ex2.float32 false true []) Ex.models
      "inference" (Ex.opt "ResNet50" "cpu" "mkldnn" None false)
      (Ex.world0 ∅ (Ex.opt "ResNet50" "gpu" "paddle" None false))
    = (Ok fac, w') ∧
    trace w' = [] ++ logs ++ [EvCreatePredictor (pid (predictor fac))
                                (p_config (predictor fac))] ∧
    EvLog WARNING MsgMkldnnUnavailable ∈ logs ∧
    (enable_mkldnn ∉ cfg_calls (p_config (predictor fac))) ∧
    set_mkldnn_cache_capacity (-1) ∈ cfg_calls (p_config (predictor fac)).
Proof.
  destruct (mkldnn_failure_is_not_fatal Ex.one Ex.cast
              (Ex2.rt ["x"] Ex2.float32 false true []) Ex.models
              "inference" (Ex.opt "ResNet50" "cpu" "mkldnn" None false)
              (Ex.world0 ∅ (Ex.opt "ResNet50" "gpu" "paddle" None false))
              (Ex.models ++ ["inference.json"]) (Ex.models ++ ["inference.pdiparams"]))
    as (fac & w' & logs & Hrun & Htr & _ & Hwarn & Hno & _ & Hcap).
  - reflexivity.
  - reflexivity.
  - right. split; reflexivity.
  - reflexivity.
  - exists fac, w', logs. repeat split; assumption.
Defined.

Lemma created_configuration_witness :
  ∃ fac w' base,
    StaticInfer__init__ Ex.one Ex.cast (Ex.rt ["x"] true) Ex.models "inference"
      (Ex.opt "ResNet50" "cpu" "paddle" None false)
      (Ex.world0 ∅ (Ex.opt "ResNet50" "gpu" "paddle" None false))
    = (Ok fac, w') ∧
    cfg_calls (p_config (predictor fac))
    = base ++ [enable_memory_optim] ++ [] ++ [disable_glog_info].
Proof.
  assert (Hr : ∃ fac w',
            StaticInfer__init__ Ex.one Ex.cast (Ex.rt ["x"] true) Ex.models "inference"
              (Ex.opt "ResNet50" "cpu" "paddle" None false)
              (Ex.world0 ∅ (Ex.opt "ResNet50" "gpu" "paddle" None false))
            = (Ok fac, w')) by (vm_compute; eauto).
  destruct Hr as (fac & w' & Hr).
  destruct (created_configuration_ends_with_common_calls Ex.one Ex.cast (Ex.rt ["x"] true)
              Ex.models "inference" (Ex.opt "ResNet50" "cpu" "paddle" None false)
              (Ex.world0 ∅ (Ex.opt "ResNet50" "gpu" "paddle" None false)) fac w' Hr)
    as [base Hbase].
  exists fac, w', base. split; [exact Hr|exact Hbase].
Defined.

Lemma pipeline_follows_device_type_witness :
  ∃ fac w',
    StaticInfer__init__ Ex.one Ex.cast (Ex.rt ["x"] true) Ex.models "inference"
      (Ex.opt "ResNet50" "gpu" "paddle" None false)
      (Ex.world0 ∅ (Ex.opt "ResNet50" "cpu" "paddle" None false))
    = (Ok fac, w') ∧
    infer fac = Concatenated {| ctd_device_type := "gpu"; ctd_device_id := Some 0 |}
                  {| mi_predictor := predictor fac |} ∧
    enable_use_gpu 100 (Some 0) ∈ cfg_calls (p_config (predictor fac)).
Proof.
  assert (Hr : ∃ fac w',
            StaticInfer__init__ Ex.one Ex.cast (Ex.rt ["x"] true) Ex.models "inference"
              (Ex.opt "ResNet50" "gpu" "paddle" None false)
              (Ex.world0 ∅ (Ex.opt "ResNet50" "cpu" "paddle" None false))
            = (Ok fac, w')) by (vm_compute; eauto).
  destruct Hr as (fac & w' & Hr).
  destruct (pipeline_follows_device_type Ex.one Ex.cast (Ex.rt ["x"] true)
              Ex.models "inference" (Ex.opt "ResNet50" "gpu" "paddle" None false)
              (Ex.world0 ∅ (Ex.opt "ResNet50" "cpu" "paddle" None false)) fac w' Hr)
    as (Hgpu & _ & _).
  destruct Hgpu as [Hinfer Hcall]; [apply list_elem_of_here|].
  exists fac, w'. repeat split; assumption.
Defined.

Lemma tensor_call_witness :
  StaticInfer__call__ (Ex.rt ["b"; "a"] true) Ex.facade_ba [Ex.array 1; Ex.array 2]
    (Ex.world0 ∅ (Ex.opt "ResNet50" "cpu" "paddle" None false))
  = (Ok [np_ascontiguousarray (Ex.array 2); np_ascontiguousarray (Ex.array 1)],
     add_events
       [EvRunTensors 0 [to_tensor (np_ascontiguousarray (Ex.array 2)) "cpu";
                        to_tensor (np_ascontiguousarray (Ex.array 1)) "cpu"]]
       (Ex.world0 ∅ (Ex.opt "ResNet50" "cpu" "paddle" None false))).
Proof.
  exact (tensor_call_runs_predictor_once (Ex.rt ["b"; "a"] true) Ex.facade_ba
           {| ctd_device_type := "cpu"; ctd_device_id := None |}
           {| mi_predictor := predictor Ex.facade_ba |}
           [Ex.array 2; Ex.array 1]
           (Ex.world0 ∅ (Ex.opt "ResNet50" "cpu" "paddle" None false)) eq_refl eq_refl).
Defined.

Lemma legacy_call_witness :
  StaticInfer__call__ (Ex2.rt ["b"; "a"] Ex2.float32 false false []) Ex2.facade_npu
    [Ex.array 1; Ex.array 2]
    (Ex.world0 ∅ (Ex.opt "ResNet50" "npu" "paddle" None false))
  = (Ok [np_ascontiguousarray (Ex.array 2)],
     add_events
       [EvReshape 0 "b" [1]; EvCopyFromCpu 0 "b" (np_ascontiguousarray (Ex.array 2));
        EvReshape 0 "a" [1]; EvCopyFromCpu 0 "a" (np_ascontiguousarray (Ex.array 1));
        EvRun 0; EvCopyToCpu 0 "out"]
       (Ex.world0 ∅ (Ex.opt "ResNet50" "npu" "paddle" None false))).
Proof.
  exact (proj1 (legacy_call_feeds_runs_and_fetches
                  (Ex2.rt ["b"; "a"] Ex2.float32 false false []) Ex2.facade_npu
                  [Ex.array 2; Ex.array 1]
                  (Ex.world0 ∅ (Ex.opt "ResNet50" "npu" "paddle" None false))
                  eq_refl eq_refl)).
Defined.

Lemma tensorrt_route_configuration_witness :
  ∃ fac w' dyn,
    StaticInfer__init__ Ex.one Ex.cast (Ex.rt ["a"; "b"] true) Ex.models "inference"
      (Ex2.opt_explicit "trt_fp16" (Some Ex2.shapes_ab))
      (Ex.world0 ∅ (Ex.opt "ResNet50" "cpu" "paddle" None false))
    = (Ok fac, w') ∧
    cfg_calls (p_config (predictor fac))
    = [set_optim_cache_dir (Ex.models ++ [".cache"; "paddle"; "optim_cache"]);
       enable_tensorrt_engine 1073741824 32 3 Half false false]
      ++ dyn
      ++ [exp_disable_mixed_precision_ops ["feed"; "fetch"];
          enable_use_gpu 100 (Some 0);
          enable_memory_optim]
      ++ [] ++ [disable_glog_info].
Proof.
  assert (Hr : ∃ fac w',
            StaticInfer__init__ Ex.one Ex.cast (Ex.rt ["a"; "b"] true) Ex.models "inference"
              (Ex2.opt_explicit "trt_fp16" (Some Ex2.shapes_ab))
              (Ex.world0 ∅ (Ex.opt "ResNet50" "cpu" "paddle" None false))
            = (Ok fac, w')) by (vm_compute; eauto).
  destruct Hr as (fac & w' & Hr).
  destruct (tensorrt_route_configuration Ex.one Ex.cast (Ex.rt ["a"; "b"] true)
              Ex.models "inference" (Ex2.opt_explicit "trt_fp16" (Some Ex2.shapes_ab))
              (Ex.world0 ∅ (Ex.opt "ResNet50" "cpu" "paddle" None false)) fac w' Hr)
    as (_ & precision & dyn & Hmode & Hcalls & _).
  - reflexivity.
  - intros H. discriminate H.
  - reflexivity.
  - exists fac, w', dyn. split; [exact Hr|].
    assert (Hp : precision = Half).
    { repeat (apply elem_of_cons in Hmode as [Hmode|Hmode];
              [by inversion Hmode|]).
      by apply elem_of_nil in Hmode. }
    rewrite Hp in Hcalls. exact Hcalls.
Defined.

Lemma det_keeps_confident_boxes_witness :
  well_formed Ex2.boxes ∧
  DetPostProcess_apply Z.gtb (-1)%Z Ex2.det Ex2.boxes
  = Ok {| res_boxes := {| d_cols := 6; d_rows := [[0; 900; 10; 10; 50; 50]%Z] |};
          res_labels := Some ["cat"; "dog"] |}.
Proof.
  assert (Hwf : well_formed Ex2.boxes) by (unfold well_formed; simpl; repeat constructor).
  split; [exact Hwf|].
  destruct (det_keeps_confident_boxes Z.gtb (-1)%Z Ex2.det Ex2.boxes Hwf) as [Hkeep _].
  rewrite Hkeep by (simpl; lia). reflexivity.
Defined.

Lemma det_postprocess_idempotent_witness :
  DetPostProcess_apply Z.gtb (-1)%Z Ex2.det
    {| d_cols := 6; d_rows := [[0; 900; 10; 10; 50; 50]%Z] |}
  = Ok {| res_boxes := {| d_cols := 6; d_rows := [[0; 900; 10; 10; 50; 50]%Z] |};
          res_labels := Some ["cat"; "dog"] |}.
Proof.
  apply (det_postprocess_idempotent Z.gtb (-1)%Z Ex2.det Ex2.boxes
           {| res_boxes := {| d_cols := 6; d_rows := [[0; 900; 10; 10; 50; 50]%Z] |};
              res_labels := Some ["cat"; "dog"] |}).
  - unfold well_formed. simpl. repeat constructor.
  - reflexivity.
Defined.

Lemma calibration_trace_witness :
  let data := Some [("x", ([1; 2; 3], [1; 2; 3; 4; 5; 6], [0; 0; 0; 0; 0; 0; 1; 1; 1; 1; 1; 1]))]%Z in
  let array s d : ndarray Z :=
    {| arr_shape := s; arr_dtype := np_float32; arr_data := d; arr_c_contiguous := true |} in
  ∃ w',
    _collect_trt_shape_range_info Ex.one Ex.cast (Ex.rt ["x"] true)
      ["inference.json"] ["inference.pdiparams"] (Some 0) Ex.profile
      (Some Ex.shapes_x) data
      (Ex.world0 ∅ (Ex.opt "ResNet50" "gpu" "trt_fp16" (Some 0) false))
    = (Ok (), w') ∧
    trace w'
    = [EvCreatePredictor 0
         (calibration_config ["inference.json"] ["inference.pdiparams"] (Some 0) Ex.profile);
       EvReshape 0 "x" [1; 3]; EvCopyFromCpu 0 "x" (array [1; 3] [1; 2; 3]%Z);
       EvRun 0;
       EvReshape 0 "x" [2; 3]; EvCopyFromCpu 0 "x" (array [2; 3] [1; 2; 3; 4; 5; 6]%Z);
       EvRun 0;
       EvReshape 0 "x" [2; 3]; EvCopyFromCpu 0 "x" (array [2; 3] [1; 2; 3; 4; 5; 6]%Z);
       EvRun 0;
       EvReshape 0 "x" [4; 3];
       EvCopyFromCpu 0 "x" (array [4; 3] [0; 0; 0; 0; 0; 0; 1; 1; 1; 1; 1; 1]%Z);
       EvRun 0;
       EvDestroyPredictor 0].
Proof.
  intros data array.
  destruct (calibration_trace Ex.one Ex.cast (Ex.rt ["x"] true)
              ["inference.json"] ["inference.pdiparams"] 0 Ex.profile
              Ex.shapes_x data (λ _, np_float32) (λ _ z, z)
              (Ex.world0 ∅ (Ex.opt "ResNet50" "gpu" "trt_fp16" (Some 0) false)))
    as (w' & Hrun & _ & Htr).
  - apply NoDup_singleton.
  - intros name. reflexivity.
  - intros name Hin. exact Hin.
  - intros name _. reflexivity.
  - intros name s d Hin Hd. apply list_elem_of_singleton in Hin. injection Hin as -> ->.
    vm_compute in Hd. injection Hd as <-. vm_compute. auto.
  - intros name d x _ _. reflexivity.
  - exists w'. split; [exact Hrun|exact Htr].
Defined.

Lemma first_collection_creates_directory_witness :
  ∃ config w' evs,
    StaticInfer__configure_trt Ex.one Ex.cast (Ex.rt ["x"] true) "inference"
      ["inference.json"] ["inference.pdiparams"] Ex.cache_dir
      (Ex.world0 ∅ (Ex.opt "ResNet50" "gpu" "trt_fp16" (Some 0) false))
    = (Ok config, w') ∧
    trace w'
    = [EvMkdir Ex.cache_dir; EvLog INFO (MsgShapeRangeWillBeCollected Ex.profile)] ++ evs ∧
    length (filter (λ ev, is_run ev) evs) = 4 ∧
    fs w' !! Ex.cache_dir = Some Dir ∧
    fs w' !! Ex.profile = Some File.
Proof.
  assert (Hr : ∃ config w',
            StaticInfer__configure_trt Ex.one Ex.cast (Ex.rt ["x"] true) "inference"
              ["inference.json"] ["inference.pdiparams"] Ex.cache_dir
              (Ex.world0 ∅ (Ex.opt "ResNet50" "gpu" "trt_fp16" (Some 0) false))
            = (Ok config, w')) by (vm_compute; eauto).
  destruct Hr as (config & w' & Hr).
  destruct (first_collection_creates_directory Ex.one Ex.cast (Ex.rt ["x"] true) "inference"
              ["inference.json"] ["inference.pdiparams"] Ex.cache_dir
              (Ex.world0 ∅ (Ex.opt "ResNet50" "gpu" "trt_fp16" (Some 0) false)))
    as [_ Hnew].
  - reflexivity.
  - reflexivity.
  - reflexivity.
  - apply list_elem_of_In. simpl. auto.
  - reflexivity.
  - destruct Hnew as (r & w'' & evs & Hrun & Htrace & Hdirs & _ & Hres).
    { intros d _. cbn [Ex.world0 fs]. rewrite lookup_empty. discriminate. }
    rewrite Hr in Hrun. injection Hrun as <- <-.
    destruct Hres as (Hruns & Hfile & _).
    exists config, w', evs. split; [exact Hr|]. split; [exact Htrace|].
    split; [exact Hruns|]. split; [|exact Hfile].
    apply Hdirs. apply list_elem_of_In. simpl. auto.
Defined.



Lemma calibration_stops_at_unconvertible_sample_witness :
  Ex.cast np_uint8 300 = Raise OverflowError ∧
  _collect_trt_shape_range_info Ex.one Ex.cast (Ex2.rt ["x"] Ex2.uint8 false false [])
    ["inference.json"] ["inference.pdiparams"] (Some 0) Ex.profile
    (Some [("x", ([1], [1], [1]))]) (Some [("x", ([7; 300], [1], [1]))]%Z)
    (Ex.world0 ∅ (Ex.opt "ResNet50" "gpu" "trt_fp16" (Some 0) false))
  = (Raise OverflowError,
     add_events
       [EvCreatePredictor 0
          (calibration_config ["inference.json"] ["inference.pdiparams"] (Some 0)
             Ex.profile)]
       (Ex.world0 ∅ (Ex.opt "ResNet50" "gpu" "trt_fp16" (Some 0) false))).
Proof.
  split; [reflexivity|].
  apply (calibration_stops_at_unconvertible_sample Ex.one Ex.cast
           (Ex2.rt ["x"] Ex2.uint8 false false [])
           ["inference.json"] ["inference.pdiparams"] 0 Ex.profile
           [("x", ([1], [1], [1]))] (Some [("x", ([7; 300], [1], [1]))]%Z)
           "x" ([1], [1], [1]) [] ([7; 300], [1], [1])%Z np_uint8 [7%Z] 300%Z []
           OverflowError
           (Ex.world0 ∅ (Ex.opt "ResNet50" "gpu" "trt_fp16" (Some 0) false))).
  - intros name. reflexivity.
  - intros name Hin. exact Hin.
  - reflexivity.
  - reflexivity.
  - reflexivity.
  - reflexivity.
  - intros y Hy. apply list_elem_of_singleton in Hy as ->. by exists 7%Z.
  - reflexivity.
Defined.
